(** * Mutation-score gate: [scripts/analyze_mutations.py]

    A shallow embedding of the script that reads the JSON result of a
    mutation-testing run, computes the overall and the per-crate mutation
    scores, compares them with the thresholds and turns the verdict into a
    process exit status.

    - A value produced by [json.load] is a [pyval].  A Python [str] is kept
      as the string of its UTF-8 bytes: substring search, splitting at an
      ASCII separator and the code-point order used by [sorted] are the
      same on both views.  A lone surrogate, which the loader accepts from
      an escape such as [\ud800], is kept in the same way, as the three
      bytes [ED A0..BF 80..BF].
    - A Python [float] is an IEEE-754 binary64 number ([spec_float] with
      [prec = 53] and [emax = 1024]); products and quotients are rounded to
      nearest-even exactly as the interpreter does.
    - A Python [dict] is an association list in insertion order, which is
      the order [items()] and [keys()] enumerate; a lookup takes the first
      binding of a key (a loaded object binds each key once).
    - An exception is the [Raise] branch of [result]; an uncaught exception
      ends the process with status 1.
    - The standard output encodes in UTF-8 and is strict: printing a text
      that holds a lone surrogate raises [UnicodeEncodeError]. *)

From Stdlib Require Import ZArith List Bool Ascii String Lia Permutation Sorted.
From Stdlib Require Import Floats.SpecFloat.
Import ListNotations.

Open Scope string_scope.
Open Scope Z_scope.

(** ** Exceptions *)

Inductive exn : Type :=
| AttributeError
| TypeError
| IndexError
| KeyError
| ZeroDivisionError
| OverflowError
| UnicodeEncodeError
| JSONDecodeError.

Inductive result (A : Type) : Type :=
| Ok (a : A)
| Raise (e : exn).

Arguments Ok {A} a.
Arguments Raise {A} e.

Definition bind {A B : Type} (m : result A) (f : A -> result B) : result B :=
  match m with
  | Ok a => f a
  | Raise e => Raise e
  end.

Notation "x <- m ;; k" := (bind m (fun x => k))
  (at level 61, m at next level, right associativity).
Notation "' p <- m ;; k" := (bind m (fun x => match x with p => k end))
  (at level 61, p pattern, m at next level, right associativity).

(** [for x in xs: acc = body(acc, x)], stopping at the first exception. *)
Fixpoint for_each {A S : Type} (body : S -> A -> result S) (xs : list A) (acc : S)
  : result S :=
  match xs with
  | [] => Ok acc
  | x :: xs' => acc' <- body acc x ;; for_each body xs' acc'
  end.

(** ** Binary64 floats *)

Module F64.

Definition prec : Z := 53.
Definition emax : Z := 1024.

Definition float : Type := spec_float.

Definition zero : float := S754_zero false.

(** A float literal with an integral value, such as [85.0]. *)
Definition of_Z (n : Z) : float := binary_normalize prec emax n 0 false.

Definition mul (x y : float) : float := SFmul prec emax x y.

(** [x < y], [x <= y] and [x >= y]; each is [False] when an operand is a
    NaN. *)
Definition ltb (x y : float) : bool := SFltb x y.
Definition leb (x y : float) : bool := SFleb x y.
Definition geb (x y : float) : bool := SFleb y x.

Definition is_nan (x : float) : bool :=
  match x with
  | S754_nan => true
  | _ => false
  end.

(** [a / b] on two Python [int]s: the quotient of the two integers rounded
    once to the nearest float. *)
Definition int_true_div (a b : Z) : result float :=
  if b =? 0 then Raise ZeroDivisionError
  else if a =? 0 then Ok (S754_zero (b <? 0))
  else
    let sign := xorb (a <? 0) (b <? 0) in
    let '(q, e, l) := SFdiv_core_binary prec emax (Z.abs a) 0 (Z.abs b) 0 in
    match binary_round_aux prec emax sign q e l with
    | S754_infinity _ => Raise OverflowError
    | r => Ok r
    end.

End F64.

(** ** Values loaded from JSON *)

#[local] Set Warnings "-register-all".

Inductive pyval : Type :=
| PNone
| PBool (b : bool)
| PInt (n : Z)
| PFloat (x : F64.float)
| PStr (s : string)
| PList (l : list pyval)
| PDict (d : list (string * pyval)).

(** ** Insertion-ordered dictionaries with string keys *)

Module Dict.

Section Ops.
Context {V : Type}.

Definition t : Type := list (string * V).

Fixpoint get (k : string) (d : t) : option V :=
  match d with
  | [] => None
  | (k', v) :: d' => if String.eqb k k' then Some v else get k d'
  end.

Definition mem (k : string) (d : t) : bool :=
  match get k d with
  | Some _ => true
  | None => false
  end.

(** [d[k] = v]: the binding is replaced where it stands, or appended. *)
Fixpoint set (k : string) (v : V) (d : t) : t :=
  match d with
  | [] => [(k, v)]
  | (k', v') :: d' =>
      if String.eqb k k' then (k, v) :: d' else (k', v') :: set k v d'
  end.

(** [d.get(k, default)] *)
Definition get_default (k : string) (default : V) (d : t) : V :=
  match get k d with
  | Some v => v
  | None => default
  end.

(** [d[k]] as an expression *)
Definition subscript (k : string) (d : t) : result V :=
  match get k d with
  | Some v => Ok v
  | None => Raise KeyError
  end.

Definition keys (d : t) : list string := map fst d.

End Ops.

Arguments t : clear implicits.

End Dict.

(** ** String operations *)

Module Str.

(** [sub in s] *)
Fixpoint contains (sub s : string) : bool :=
  prefix sub s ||
  match s with
  | EmptyString => false
  | String _ s' => contains sub s'
  end.

(** The scan of [s.split(sep)] for a non-empty [sep]: [cur] is the piece
    being collected and [skip] counts the characters of a separator that
    was just matched and is still to be passed over. *)
Fixpoint split_go (sep s : string) (skip : nat) (cur : string) : list string :=
  match s with
  | EmptyString => [cur]
  | String c s' =>
      match skip with
      | S k => split_go sep s' k cur
      | O =>
          if prefix sep s
          then cur :: split_go sep s' (Nat.pred (String.length sep)) ""
          else split_go sep s' O (cur ++ String c "")
      end
  end.

Definition split (sep s : string) : list string := split_go sep s O "".

(** Order of [str] values: lexicographic on the characters. *)
Definition leb (a b : string) : bool := String.leb a b.

(** The first two bytes of a surrogate, [U+D800] to [U+DFFF]: [ED] and a
    byte from [A0] to [BF]. *)
Definition surrogate_start (a b : ascii) : bool :=
  ((N_of_ascii a =? 237) && (160 <=? N_of_ascii b) && (N_of_ascii b <=? 191))%N.

Fixpoint has_surrogate (s : string) : bool :=
  match s with
  | String a ((String b _) as s') => surrogate_start a b || has_surrogate s'
  | _ => false
  end.

End Str.

(** [sorted(xs)] on strings: a stable sort. *)
Fixpoint sorted_insert (x : string) (xs : list string) : list string :=
  match xs with
  | [] => [x]
  | y :: ys => if Str.leb x y then x :: xs else y :: sorted_insert x ys
  end.

Fixpoint sorted (xs : list string) : list string :=
  match xs with
  | [] => []
  | x :: xs' => sorted_insert x (sorted xs')
  end.

(** ** Attribute access and operators on loaded values *)

(** [v.get(k, default)]: only a [dict] has the method. *)
Definition py_get (v : pyval) (k : string) (default : pyval) : result pyval :=
  match v with
  | PDict d => Ok (Dict.get_default k default d)
  | _ => Raise AttributeError
  end.

(** [for x in v]: the items of a list, the keys of a dict, the one-character
    pieces of a string (here one per byte; each is a [str] whatever the
    cut); anything else is not iterable. *)
Definition py_iter (v : pyval) : result (list pyval) :=
  match v with
  | PList l => Ok l
  | PDict d => Ok (map (fun kv => PStr (fst kv)) d)
  | PStr s => Ok (map (fun c => PStr (String c "")) (list_ascii_of_string s))
  | _ => Raise TypeError
  end.

(** [v == s] for a string [s] *)
Definition py_eq_str (v : pyval) (s : string) : bool :=
  match v with
  | PStr s' => String.eqb s' s
  | _ => false
  end.

(** [v in [s1, s2, ...]] *)
Definition py_in_strs (v : pyval) (l : list string) : bool :=
  existsb (py_eq_str v) l.

(** [s in v] for a string [s]: substring of a string, item of a list, key
    of a dict. *)
Definition py_str_in (s : string) (v : pyval) : result bool :=
  match v with
  | PStr s' => Ok (Str.contains s s')
  | PList l => Ok (existsb (fun x => py_eq_str x s) l)
  | PDict d => Ok (Dict.mem s d)
  | _ => Raise TypeError
  end.

(** [v.split(sep)]: only a [str] has the method. *)
Definition py_split (v : pyval) (sep : string) : result (list string) :=
  match v with
  | PStr s => Ok (Str.split sep s)
  | _ => Raise AttributeError
  end.

(** Whether the text of [f"{v}"] holds a lone surrogate.  Only a [str]
    can bring one: the text of a list or of a dict shows its strings with
    their surrogates escaped, and the text of a number, of a boolean and
    of [None] is ASCII. *)
Definition unencodable (v : pyval) : bool :=
  match v with
  | PStr s => Str.has_surrogate s
  | _ => false
  end.

(** [print(f"...{v1}...{v2}...")], the literal parts of the line being
    encodable. *)
Definition py_print (interpolated : list pyval) : result unit :=
  if existsb unencodable interpolated then Raise UnicodeEncodeError else Ok tt.

(** [l[i]] *)
Definition py_index {A : Type} (l : list A) (i : nat) : result A :=
  match nth_error l i with
  | Some x => Ok x
  | None => Raise IndexError
  end.

(** ** The script *)

Definition THRESHOLDS : Dict.t F64.float :=
  [ ("decy-ownership", F64.of_Z 90);
    ("decy-lifetime", F64.of_Z 90);
    ("decy-verify", F64.of_Z 85);
    ("decy-parser", F64.of_Z 80);
    ("decy-codegen", F64.of_Z 85);
    ("decy-analyzer", F64.of_Z 80);
    ("decy-hir", F64.of_Z 80);
    ("decy-core", F64.of_Z 85) ].

Definition OVERALL_THRESHOLD : F64.float := F64.of_Z 85.

(** [(score, caught, total)] *)
Definition stats : Type := (F64.float * Z * Z)%type.

(** [(caught / total) * 100.0] *)
Definition percentage (caught total : Z) : result F64.float :=
  q <- F64.int_true_div caught total ;;
  Ok (F64.mul q (F64.of_Z 100)).

(** [outcome.get('summary') in ['caught', 'timeout']] *)
Definition summary_detected (outcome : pyval) : result bool :=
  s <- py_get outcome "summary" PNone ;;
  Ok (py_in_strs s ["caught"; "timeout"]).

(** Lines 55-57: the body of the counting loop, on [(total, caught)]. *)
Definition tally (counters : Z * Z) (outcome : pyval) : result (Z * Z) :=
  let '(total, caught) := counters in
  let total := total + 1 in
  d <- summary_detected outcome ;;
  Ok (total, if d then caught + 1 else caught).

Definition calculate_mutation_score (data : pyval) : result stats :=
  outcomes <- py_get data "outcomes" (PList []) ;;
  items <- py_iter outcomes ;;
  '(total, caught) <- for_each tally items (0, 0) ;;
  if total =? 0 then Ok (F64.zero, 0, 0)
  else
    score <- percentage caught total ;;
    Ok (score, caught, total).

(** The accumulator [{'total': n, 'caught': m}] of one crate. *)
Record crate_counts : Type := { total : Z; caught : Z }.

(** [outcome.get('scenario', {}).get('file', default)] and its siblings *)
Definition scenario_field (outcome : pyval) (field : string) (default : pyval)
  : result pyval :=
  scenario <- py_get outcome "scenario" (PDict []) ;;
  py_get scenario field default.

(** Lines 73-77: the crate a file path belongs to. *)
Definition crate_name_of_path (file_path : pyval) : result string :=
  found <- py_str_in "crates/" file_path ;;
  if found then
    pieces <- py_split file_path "crates/" ;;
    after <- py_index pieces 1 ;;
    let parts := Str.split "/" after in
    Ok (match parts with
        | p :: _ => p
        | [] => "unknown"
        end)
  else Ok "unknown".

Definition crate_name_of (outcome : pyval) : result string :=
  file_path <- scenario_field outcome "file" (PStr "") ;;
  crate_name_of_path file_path.

(** [crate_stats[name][field] += 1] *)
Definition bump (name : string) (f : crate_counts -> crate_counts)
  (crate_stats : Dict.t crate_counts) : result (Dict.t crate_counts) :=
  c <- Dict.subscript name crate_stats ;;
  Ok (Dict.set name (f c) crate_stats).

(** Lines 71-84: the body of the accumulation loop. *)
Definition count_outcome (crate_stats : Dict.t crate_counts) (outcome : pyval)
  : result (Dict.t crate_counts) :=
  crate_name <- crate_name_of outcome ;;
  let crate_stats :=
    if negb (Dict.mem crate_name crate_stats)
    then Dict.set crate_name {| total := 0; caught := 0 |} crate_stats
    else crate_stats in
  crate_stats <- bump crate_name
                   (fun c => {| total := total c + 1; caught := caught c |})
                   crate_stats ;;
  d <- summary_detected outcome ;;
  if d then
    bump crate_name (fun c => {| total := total c; caught := caught c + 1 |})
         crate_stats
  else Ok crate_stats.

(** Lines 87-93: from counts to [(score, caught, total)]. *)
Definition score_of_counts (results : Dict.t stats) (item : string * crate_counts)
  : result (Dict.t stats) :=
  let '(crate, c) := item in
  if 0 <? total c then
    score <- percentage (caught c) (total c) ;;
    Ok (Dict.set crate (score, caught c, total c) results)
  else Ok (Dict.set crate (F64.zero, 0, 0) results).

Definition calculate_per_crate_scores (data : pyval) : result (Dict.t stats) :=
  outcomes <- py_get data "outcomes" (PList []) ;;
  items <- py_iter outcomes ;;
  crate_stats <- for_each count_outcome items [] ;;
  for_each score_of_counts crate_stats [].

(** One entry of the list of surviving mutants. *)
Record mutant : Type :=
  { m_file : pyval; m_function : pyval; m_line : pyval; m_summary : pyval }.

(** Lines 103-109: the body of the loop that lists the survivors. *)
Definition collect_survivor (surviving : list mutant) (outcome : pyval)
  : result (list mutant) :=
  d <- summary_detected outcome ;;
  if negb d then
    f <- scenario_field outcome "file" (PStr "unknown") ;;
    fn <- scenario_field outcome "function" (PStr "unknown") ;;
    ln <- scenario_field outcome "line" (PInt 0) ;;
    s <- py_get outcome "summary" (PStr "unknown") ;;
    Ok (surviving ++ [ {| m_file := f; m_function := fn;
                          m_line := ln; m_summary := s |} ])%list
  else Ok surviving.

Definition analyze_surviving_mutants (data : pyval) : result (list mutant) :=
  outcomes <- py_get data "outcomes" (PList []) ;;
  items <- py_iter outcomes ;;
  for_each collect_survivor items [].

(** [THRESHOLDS.get(crate, OVERALL_THRESHOLD)] *)
Definition threshold_of (crate : string) : F64.float :=
  Dict.get_default crate OVERALL_THRESHOLD THRESHOLDS.

(** What [print_report] writes, line by line but before the numbers are
    formatted as text.  When a [print] raises, the lines before it have
    been written and the rest of the report is not: the result is then the
    exception alone. *)
Record crate_row : Type :=
  { row_passed : bool; row_crate : string; row_stats : stats;
    row_threshold : F64.float }.

Record report : Type :=
  { overall_line : stats;
    overall_status_pass : bool;
    crate_rows : list crate_row;
    surviving_count : option nat;
    surviving_shown : list mutant;
    surviving_more : option nat;
    banner_passed : bool;
    failed_crates_line : option (list string);
    shortfall_line : bool }.

(** Lines 136-148: one table row per crate in sorted order, collecting the
    crates that did not pass.  The row is printed (lines 144-145) before
    the crate joins the failed ones. *)
Definition report_row (crate_scores : Dict.t stats)
  (acc : list crate_row * list string) (crate : string)
  : result (list crate_row * list string) :=
  let '(rows, failed_crates) := acc in
  '(score, caught_count, total_count) <- Dict.subscript crate crate_scores ;;
  let threshold := threshold_of crate in
  let passed := F64.geb score threshold in
  let row := {| row_passed := passed; row_crate := crate;
                row_stats := (score, caught_count, total_count);
                row_threshold := threshold |} in
  printed <- py_print [PStr crate] ;;
  Ok ((rows ++ [row])%list,
      if negb passed then (failed_crates ++ [crate])%list else failed_crates).

(** Lines 157-158: the two lines of one surviving mutant. *)
Definition print_survivor (printed : unit) (m : mutant) : result unit :=
  printed <- py_print [m_file m; m_line m; m_function m] ;;
  py_print [m_summary m].

Definition print_report (overall_score : F64.float) (caught total : Z)
  (crate_scores : Dict.t stats) (surviving : list mutant) : result report :=
  let status := F64.geb overall_score OVERALL_THRESHOLD in
  '(rows, failed_crates) <-
    for_each (report_row crate_scores) (sorted (Dict.keys crate_scores)) ([], []) ;;
  let nonempty := match surviving with [] => false | _ => true end in
  printed <- (if nonempty then for_each print_survivor (firstn 10 surviving) tt
              else Ok tt) ;;
  let all_passed :=
    F64.geb overall_score OVERALL_THRESHOLD
    && match failed_crates with [] => true | _ => false end in
  printed <- (if all_passed then Ok tt
              else match failed_crates with
                   | [] => Ok tt
                   | _ => py_print (map PStr failed_crates)
                   end) ;;
  Ok {| overall_line := (overall_score, caught, total);
        overall_status_pass := status;
        crate_rows := rows;
        surviving_count := if nonempty then Some (List.length surviving) else None;
        surviving_shown := firstn 10 surviving;
        surviving_more :=
          if nonempty && (10 <? List.length surviving)%nat
          then Some (List.length surviving - 10)%nat else None;
        banner_passed := all_passed;
        failed_crates_line :=
          if all_passed then None
          else match failed_crates with
               | [] => None
               | _ => Some failed_crates
               end;
        shortfall_line :=
          negb all_passed && F64.ltb overall_score OVERALL_THRESHOLD |}.

(** Lines 198-201 *)
Definition failed_crates_of (crate_scores : Dict.t stats) : list string :=
  map fst
      (filter (fun '(crate, (score, _, _)) => F64.ltb score (threshold_of crate))
              crate_scores).

(** Lines 189-206: everything [main] does once the document is loaded.
    The result is the report and the status handed to [sys.exit]. *)
Definition run (data : pyval) : result (report * Z) :=
  '(overall_score, caught, total) <- calculate_mutation_score data ;;
  crate_scores <- calculate_per_crate_scores data ;;
  surviving <- analyze_surviving_mutants data ;;
  rep <- print_report overall_score caught total crate_scores surviving ;;
  let failed_crates := failed_crates_of crate_scores in
  if F64.ltb overall_score OVERALL_THRESHOLD
     || match failed_crates with [] => false | _ => true end
  then Ok (rep, 1)
  else Ok (rep, 0).

(** What the file system answers for a path: no such file, or the outcome
    of [json.load] on its content. *)
Definition filesystem : Type := string -> option (result pyval).

(** [main()], from [sys.argv] to the report (when one is printed) and the
    exit status. *)
Definition main (argv : list string) (fs : filesystem) : result (option report * Z) :=
  match argv with
  | _ :: mutants_file :: _ =>
      match fs mutants_file with
      | None => Ok (None, 1)
      | Some loaded =>
          data <- loaded ;;
          '(rep, status) <- run data ;;
          Ok (Some rep, status)
      end
  | _ => Ok (None, 1)
  end.

(** The status the operating system sees: an uncaught exception ends the
    interpreter with status 1. *)
Definition exit_status {A : Type} (r : result (A * Z)) : Z :=
  match r with
  | Ok (_, status) => status
  | Raise _ => 1
  end.

(** ** Vocabulary of the statements *)

(** A float that is [+0.0] or a positive canonical number of value at most
    [B * 2 ^ F]. *)
Definition float_le_fin (x : spec_float) (B F : Z) : Prop :=
  x = S754_zero false \/
  exists m e, x = S754_finite false m e
    /\ bounded F64.prec F64.emax m e = true
    /\ (e < F \/ (e = F /\ Zpos m <= B)).

(** The mantissa of [100.0], whose exponent is [-46]. *)
Definition hundred : Z := 7036874417766400.

(** [0.0 <= x <= 100.0] *)
Definition in_0_100 (x : F64.float) : bool :=
  F64.leb F64.zero x && F64.leb x (F64.of_Z 100).

(** A shift record that carries no lost bit. *)
Definition shr_exact (mrs : shr_record) : Prop :=
  shr_r mrs = false /\ shr_s mrs = false.

(** The records a run counts as detected. *)
Definition is_detected (outcome : pyval) : bool :=
  match summary_detected outcome with
  | Ok true => true
  | _ => false
  end.

Definition detected_count (items : list pyval) : Z :=
  Z.of_nat (List.length (filter is_detected items)).

(** Sums over the crates of an accumulator and of a table of scores. *)
Definition sum_total (crate_stats : Dict.t crate_counts) : Z :=
  fold_right (fun kv acc => total (snd kv) + acc) 0 crate_stats.

Definition sum_caught (crate_stats : Dict.t crate_counts) : Z :=
  fold_right (fun kv acc => caught (snd kv) + acc) 0 crate_stats.

Definition stats_score (s : stats) : F64.float := fst (fst s).
Definition stats_caught (s : stats) : Z := snd (fst s).
Definition stats_total (s : stats) : Z := snd s.

Definition sum_stats_total (crate_scores : Dict.t stats) : Z :=
  fold_right (fun kv acc => stats_total (snd kv) + acc) 0 crate_scores.

Definition sum_stats_caught (crate_scores : Dict.t stats) : Z :=
  fold_right (fun kv acc => stats_caught (snd kv) + acc) 0 crate_scores.

(** The counts of one crate, [0] for a crate not seen yet. *)
Definition crate_total (crate_stats : Dict.t crate_counts) (name : string) : Z :=
  match Dict.get name crate_stats with
  | Some c => total c
  | None => 0
  end.

Definition crate_caught (crate_stats : Dict.t crate_counts) (name : string) : Z :=
  match Dict.get name crate_stats with
  | Some c => caught c
  | None => 0
  end.

(** What the accumulation loop maintains: one entry per crate, each with
    at least one mutant and no more detections than mutants. *)
Definition counts_ok (crate_stats : Dict.t crate_counts) : Prop :=
  NoDup (Dict.keys crate_stats)
  /\ Forall (fun kv => 0 < total (snd kv) /\ 0 <= caught (snd kv) <= total (snd kv))
            crate_stats.

(** What the table of scores satisfies: one entry per crate, each the
    percentage of its own counts. *)
Definition scores_ok (crate_scores : Dict.t stats) : Prop :=
  NoDup (Dict.keys crate_scores)
  /\ Forall (fun kv => 0 < stats_total (snd kv)
                       /\ 0 <= stats_caught (snd kv) <= stats_total (snd kv)
                       /\ percentage (stats_caught (snd kv)) (stats_total (snd kv))
                          = Ok (stats_score (snd kv)))
            crate_scores.

(** Documents on which no operation of the pipeline meets a value of an
    unexpected type: an object whose [outcomes], when present, is an array
    of objects, each with a [scenario] that is absent or an object whose
    [file] is absent or a string. *)
Definition scenario_ok (scenario : pyval) : bool :=
  match scenario with
  | PDict sc =>
      match Dict.get "file" sc with
      | None | Some (PStr _) => true
      | Some _ => false
      end
  | _ => false
  end.

Definition record_ok (outcome : pyval) : bool :=
  match outcome with
  | PDict fields =>
      match Dict.get "scenario" fields with
      | None => true
      | Some scenario => scenario_ok scenario
      end
  | _ => false
  end.

Definition document_ok (data : pyval) : bool :=
  match data with
  | PDict d =>
      match Dict.get "outcomes" d with
      | None => true
      | Some (PList items) => forallb record_ok items
      | Some _ => false
      end
  | _ => false
  end.

(** The test of lines 141-147 for one crate of the table. *)
Definition report_fails (crate_scores : Dict.t stats) (crate : string) : bool :=
  match Dict.get crate crate_scores with
  | Some s => negb (F64.geb (stats_score s) (threshold_of crate))
  | None => false
  end.

Definition is_nil {A : Type} (l : list A) : bool :=
  match l with
  | [] => true
  | _ => false
  end.

(** The reading of a detected record in the words of the specification:
    the record is an object whose summary is the given text. *)
Definition summary_is (outcome : pyval) (s : string) : bool :=
  match outcome with
  | PDict fields =>
      match Dict.get "summary" fields with
      | Some (PStr s') => String.eqb s' s
      | _ => false
      end
  | _ => false
  end.

Definition summary_is_caught_or_timeout (outcome : pyval) : bool :=
  summary_is outcome "caught" || summary_is outcome "timeout".

(** A value whose text can be printed: not a [str] with a lone surrogate. *)
Definition encodable (v : pyval) : bool := negb (unencodable v).

(** The four fields of a listed mutant can be printed. *)
Definition mutant_encodable (m : mutant) : bool :=
  encodable (m_file m) && encodable (m_line m)
  && encodable (m_function m) && encodable (m_summary m).

(** A field of the scenario of a record is absent or can be printed. *)
Definition field_encodable (outcome : pyval) (field : string) : bool :=
  match scenario_field outcome field PNone with
  | Ok v => encodable v
  | Raise _ => true
  end.

(** No [file], [function], [line] or [summary] of the record is a [str]
    with a lone surrogate. *)
Definition record_encodable (outcome : pyval) : bool :=
  field_encodable outcome "file" && field_encodable outcome "function"
  && field_encodable outcome "line"
  && match py_get outcome "summary" PNone with
     | Ok v => encodable v
     | Raise _ => true
     end.

Definition document_encodable (data : pyval) : bool :=
  match py_get data "outcomes" (PList []) with
  | Ok outcomes =>
      match py_iter outcomes with
      | Ok items => forallb record_encodable items
      | Raise _ => true
      end
  | Raise _ => true
  end.

(** ** Sample documents *)

Definition sample_passing : pyval :=
  PDict [("outcomes",
          PList [PDict [("scenario", PDict [("file", PStr "crates/decy-core/src/lib.rs")]);
                        ("summary", PStr "caught")]])].

Definition sample_outcome (file summary : string) : pyval :=
  PDict [("scenario", PDict [("file", PStr file); ("line", PInt 3)]);
         ("summary", PStr summary)].

Definition sample_mixed : pyval :=
  PDict [("outcomes",
          PList [sample_outcome "crates/b/x.rs" "caught";
                 sample_outcome "crates/a/x.rs" "missed";
                 sample_outcome "crates/b/y.rs" "timeout";
                 sample_outcome "z.rs" "caught"])].

(** ** Vocabulary of the further properties *)

(** The outcomes that belong to a crate. *)
Definition crate_is (crate : string) (outcome : pyval) : bool :=
  match crate_name_of outcome with
  | Ok name => String.eqb name crate
  | Raise _ => false
  end.

Definition survives (outcome : pyval) : bool := negb (is_detected outcome).

(** How an outcome appears in the list of surviving mutants. *)
Definition listed_as (outcome : pyval) (m : mutant) : Prop :=
  scenario_field outcome "file" (PStr "unknown") = Ok (m_file m)
  /\ scenario_field outcome "function" (PStr "unknown") = Ok (m_function m)
  /\ scenario_field outcome "line" (PInt 0) = Ok (m_line m)
  /\ py_get outcome "summary" (PStr "unknown") = Ok (m_summary m).

(** The exceptions a value of an unexpected type can cause. *)
Definition is_type_mismatch (e : exn) : bool :=
  match e with
  | AttributeError | TypeError => true
  | _ => false
  end.

(** The row of the table for a crate with given statistics. *)
Definition row_of (crate : string) (st : stats) : crate_row :=
  {| row_passed := F64.geb (stats_score st) (threshold_of crate);
     row_crate := crate;
     row_stats := st;
     row_threshold := threshold_of crate |}.

(** The document whose outcomes are [items]. *)
Definition document (items : list pyval) : pyval :=
  PDict [("outcomes", PList items)].

Definition sample_missed : pyval :=
  document [sample_outcome "crates/a/x.rs" "missed";
            sample_outcome "crates/b/y.rs" "unviable"].

Definition sample_baseline : pyval :=
  PDict [("outcomes",
          PList [PDict [("scenario", PStr "Baseline"); ("summary", PStr "Success")]])].

(** ** Documents with a lone surrogate *)

(** The bytes [ED A0 80] of the lone surrogate [U+D800], which JSON
    writes [\ud800]. *)
Definition lone_surrogate : string :=
  String "237"%char (String "160"%char (String "128"%char "")).

(** One detected record, in a crate whose name is a lone surrogate. *)
Definition sample_surrogate_crate : pyval :=
  document [sample_outcome ("crates/" ++ lone_surrogate ++ "/x.rs") "caught"].

(** A record that is not detected, in a function whose name is a lone
    surrogate. *)
Definition surrogate_survivor : pyval :=
  PDict [("scenario", PDict [("file", PStr "crates/x/a.rs");
                             ("function", PStr lone_surrogate);
                             ("line", PInt 7)]);
         ("summary", PStr "missed")].


(** Eighty-nine detected records and eleven that are not, all in the
    crate [x]; that survivor is the first of the eleven, or the last. *)
Definition sample_survivor_first : pyval :=
  document ((surrogate_survivor :: repeat (sample_outcome "crates/x/a.rs" "missed") 10)
            ++ repeat (sample_outcome "crates/x/a.rs" "caught") 89)%list.

Definition sample_survivor_last : pyval :=
  document ((repeat (sample_outcome "crates/x/a.rs" "missed") 10 ++ [surrogate_survivor])
            ++ repeat (sample_outcome "crates/x/a.rs" "caught") 89)%list.

(** * Proofs *)

(** ** Rounding to binary64 *)

Lemma fexp64 e : fexp F64.prec F64.emax e = Z.max (e - 53) (-1074).
Proof. reflexivity. Qed.

Lemma digits2_pos_bounds p :
  2 ^ (Zpos (digits2_pos p) - 1) <= Zpos p < 2 ^ Zpos (digits2_pos p).
Proof.
  induction p as [p IH | p IH | ]; simpl digits2_pos.
  - rewrite Pos2Z.inj_succ.
    replace (Z.succ (Zpos (digits2_pos p)) - 1) with (Z.succ (Zpos (digits2_pos p) - 1)) by lia.
    rewrite !Z.pow_succ_r by lia. lia.
  - rewrite Pos2Z.inj_succ.
    replace (Z.succ (Zpos (digits2_pos p)) - 1) with (Z.succ (Zpos (digits2_pos p) - 1)) by lia.
    rewrite !Z.pow_succ_r by lia. lia.
  - simpl. lia.
Qed.

Lemma Zdigits2_bounds m :
  0 < m -> 2 ^ (Zdigits2 m - 1) <= m < 2 ^ Zdigits2 m.
Proof.
  destruct m as [ | p | p]; try lia. intros _. apply digits2_pos_bounds.
Qed.

Lemma Zdigits2_pos m : 0 < m -> 0 < Zdigits2 m.
Proof. destruct m; simpl; lia. Qed.

Lemma Zdigits2_le_of_lt m k : 0 <= m -> 0 <= k -> m < 2 ^ k -> Zdigits2 m <= k.
Proof.
  intros Hm Hk Hlt.
  destruct (Z.eq_dec m 0) as [-> | Hne]; [simpl; lia | ].
  assert (Hb := Zdigits2_bounds m ltac:(lia)).
  destruct (Z_le_gt_dec (Zdigits2 m) k) as [ | Hgt]; [assumption | exfalso].
  assert (2 ^ k <= 2 ^ (Zdigits2 m - 1)) by (apply Z.pow_le_mono_r; lia).
  lia.
Qed.

Lemma Zdigits2_ge_of_le m k : 0 <= k -> 2 ^ k <= m -> k + 1 <= Zdigits2 m.
Proof.
  intros Hk Hle.
  assert (0 < 2 ^ k) by (apply Z.pow_pos_nonneg; lia).
  assert (Hb := Zdigits2_bounds m ltac:(lia)).
  destruct (Z_le_gt_dec (k + 1) (Zdigits2 m)) as [ | Hgt]; [assumption | exfalso].
  assert (Hd := Zdigits2_pos m ltac:(lia)).
  assert (2 ^ Zdigits2 m <= 2 ^ k) by (apply Z.pow_le_mono_r; lia).
  lia.
Qed.

(** Shifting a mantissa right. *)

Lemma iter_pos_nat {A : Type} (f : A -> A) p x :
  iter_pos f p x = Nat.iter (Pos.to_nat p) f x.
Proof.
  revert x. induction p as [p IH | p IH | ]; intros x; simpl iter_pos.
  - rewrite !IH, Pos2Nat.inj_xI.
    replace (S (2 * Pos.to_nat p))%nat with (S (Pos.to_nat p + Pos.to_nat p))%nat by lia.
    rewrite Nat.iter_succ_r, Nat.iter_add. reflexivity.
  - rewrite !IH, Pos2Nat.inj_xO.
    replace (2 * Pos.to_nat p)%nat with (Pos.to_nat p + Pos.to_nat p)%nat by lia.
    rewrite Nat.iter_add. reflexivity.
  - reflexivity.
Qed.

Lemma shr_1_m mrs : 0 <= shr_m mrs -> shr_m (shr_1 mrs) = shr_m mrs / 2.
Proof.
  destruct mrs as [m r s]. simpl shr_m. intros Hm.
  rewrite <- Z.div2_div.
  destruct m as [ | [p | p | ] | p]; try reflexivity; lia.
Qed.

Lemma shr_1_exact mrs :
  0 <= shr_m mrs -> shr_exact mrs -> shr_m mrs mod 2 = 0 -> shr_exact (shr_1 mrs).
Proof.
  destruct mrs as [m r s]. unfold shr_exact. simpl. intros Hm [-> ->] Hmod.
  destruct m as [ | [p | p | ] | p]; simpl; try (split; reflexivity); try lia.
  - exfalso. rewrite Pos2Z.inj_xI in Hmod.
    rewrite Z.add_comm, Z.mul_comm, Z.mod_add in Hmod by lia. discriminate.
  - discriminate.
Qed.

Lemma iter_shr_1 n mrs :
  0 <= shr_m mrs ->
  shr_m (Nat.iter n shr_1 mrs) = shr_m mrs / 2 ^ Z.of_nat n
  /\ (shr_exact mrs -> shr_m mrs mod 2 ^ Z.of_nat n = 0 ->
      shr_exact (Nat.iter n shr_1 mrs)).
Proof.
  revert mrs. induction n as [ | n IH]; intros mrs Hm.
  - simpl. rewrite Z.div_1_r. tauto.
  - rewrite Nat.iter_succ_r, Nat2Z.inj_succ, Z.pow_succ_r by lia.
    assert (H2 : 0 < 2 ^ Z.of_nat n) by (apply Z.pow_pos_nonneg; lia).
    assert (Hm1 : 0 <= shr_m (shr_1 mrs)).
    { rewrite shr_1_m by assumption. apply Z.div_pos; lia. }
    destruct (IH (shr_1 mrs) Hm1) as [IHm IHx].
    split.
    + rewrite IHm, shr_1_m by assumption. apply Z.div_div; lia.
    + intros Hx Hmod.
      apply Z.mod_divide in Hmod; [ | lia]. destruct Hmod as [k Hk].
      apply IHx.
      * apply shr_1_exact; try assumption.
        rewrite Hk. replace (k * (2 * 2 ^ Z.of_nat n)) with (k * 2 ^ Z.of_nat n * 2) by ring.
        apply Z.mod_mul. lia.
      * rewrite shr_1_m by assumption. rewrite Hk.
        replace (k * (2 * 2 ^ Z.of_nat n)) with (k * 2 ^ Z.of_nat n * 2) by ring.
        rewrite Z.div_mul by lia. apply Z.mod_mul. lia.
Qed.

Lemma loc_of_shr_record_exact mrs :
  shr_exact mrs -> loc_of_shr_record mrs = loc_Exact.
Proof. destruct mrs as [m r s]. intros [H1 H2]. simpl in *. subst. reflexivity. Qed.

(** [shr] by [n >= 0] places: the mantissa is divided by [2 ^ n], and an
    exact position stays exact when the division is. *)
Lemma shr_spec mrs e n :
  0 <= shr_m mrs -> 0 <= n ->
  exists mrs', shr mrs e n = (mrs', e + n)
    /\ shr_m mrs' = shr_m mrs / 2 ^ n
    /\ (shr_exact mrs -> shr_m mrs mod 2 ^ n = 0 -> shr_exact mrs').
Proof.
  intros Hm Hn. destruct n as [ | p | p]; try lia.
  - exists mrs. simpl. rewrite Z.add_0_r, Z.div_1_r. tauto.
  - exists (iter_pos shr_1 p mrs). simpl shr. split; [reflexivity | ].
    rewrite iter_pos_nat.
    destruct (iter_shr_1 (Pos.to_nat p) mrs Hm) as [H1 H2].
    rewrite positive_nat_Z in H1, H2. tauto.
Qed.

Lemma shr_noop mrs e n : n <= 0 -> shr mrs e n = (mrs, e).
Proof. destruct n; try reflexivity. lia. Qed.

Lemma round_nearest_even_bounds m l :
  m <= round_nearest_even m l <= m + 1.
Proof.
  destruct l as [ | [ | | ]]; simpl; try lia. destruct (Z.even m); lia.
Qed.

Lemma shr_record_of_loc_m m l : shr_m (shr_record_of_loc m l) = m.
Proof. destruct l as [ | [ | | ]]; reflexivity. Qed.

Lemma shr_record_of_loc_exact m : shr_exact (shr_record_of_loc m loc_Exact).
Proof. split; reflexivity. Qed.

Lemma round_nearest_even_exact m : round_nearest_even m loc_Exact = m.
Proof. reflexivity. Qed.

Lemma Zdigits2_nonneg m : 0 <= Zdigits2 m.
Proof. destruct m; simpl; lia. Qed.

Lemma Zdigits2_upper m : 0 <= m -> m < 2 ^ Zdigits2 m.
Proof.
  intros Hm. destruct (Z.eq_dec m 0) as [-> | ]; [simpl; lia | ].
  apply Zdigits2_bounds. lia.
Qed.

Lemma bounded_intro p e :
  fexp F64.prec F64.emax (Zdigits2 (Zpos p) + e) = e -> e <= 971 ->
  bounded F64.prec F64.emax p e = true.
Proof.
  intros H1 H2. unfold bounded, canonical_mantissa.
  simpl Zdigits2 in H1. rewrite H1, Z.eqb_refl. simpl. apply Z.leb_le.
  unfold F64.emax, F64.prec. lia.
Qed.

Lemma round_le M E l B F :
  0 <= M -> 2 ^ 52 <= B < 2 ^ 53 -> -1074 <= F <= 971 -> E <= F ->
  E <= fexp F64.prec F64.emax (Zdigits2 M + E) ->
  M < B * 2 ^ (F - E) \/ (M = B * 2 ^ (F - E) /\ l = loc_Exact) ->
  float_le_fin (binary_round_aux F64.prec F64.emax false M E l) B F.
Proof.
  intros HM HB HF HEF Hcexp Hle.
  assert (P52 : 2 ^ 52 = 4503599627370496) by reflexivity.
  assert (P53 : 2 ^ 53 = 9007199254740992) by reflexivity.
  unfold binary_round_aux, shr_fexp.
  set (d := Zdigits2 M) in *.
  set (e1 := fexp F64.prec F64.emax (d + E)) in *.
  assert (He1 : e1 = Z.max (d + E - 53) (-1074)) by reflexivity.
  set (n := e1 - E).
  assert (Hn : 0 <= n) by (unfold n; lia).
  assert (Hd0 : 0 <= d) by apply Zdigits2_nonneg.
  assert (HMd : M < 2 ^ d) by (apply Zdigits2_upper; assumption).
  assert (H2n : 0 < 2 ^ n) by (apply Z.pow_pos_nonneg; lia).
  (* the canonical exponent does not exceed the bound's *)
  assert (HFE : 0 < 2 ^ (F - E)) by (apply Z.pow_pos_nonneg; lia).
  assert (HMlt : M < 2 ^ (53 + (F - E))).
  { rewrite Z.pow_add_r by lia. nia. }
  assert (HdF : d <= 53 + (F - E)).
  { apply Zdigits2_le_of_lt; lia. }
  assert (He1F : e1 <= F) by lia.
  assert (Hsplit : 2 ^ (F - E) = 2 ^ (F - e1) * 2 ^ n).
  { rewrite <- Z.pow_add_r by (unfold n; lia). f_equal. unfold n. lia. }
  assert (HFe1 : 0 < 2 ^ (F - e1)) by (apply Z.pow_pos_nonneg; lia).
  destruct (shr_spec (shr_record_of_loc M l) E n) as (mrs' & Hshr & Hm' & Hx').
  { rewrite shr_record_of_loc_m. assumption. }
  { assumption. }
  rewrite shr_record_of_loc_m in Hm', Hx'.
  fold d. fold e1. fold n. rewrite Hshr.
  replace (E + n) with e1 by (unfold n; lia).
  set (m' := shr_m mrs') in *.
  set (m'' := round_nearest_even m' (loc_of_shr_record mrs')).
  assert (Hm'0 : 0 <= m') by (rewrite Hm'; apply Z.div_pos; lia).
  assert (Hrb := round_nearest_even_bounds m' (loc_of_shr_record mrs')).
  fold m'' in Hrb.
  (* the rounded mantissa stays below the bound *)
  assert (Hm''B : m'' <= B * 2 ^ (F - e1)).
  { destruct Hle as [Hlt | [Heq Hl]].
    - assert (m' < B * 2 ^ (F - e1)).
      { rewrite Hm'. apply Z.div_lt_upper_bound; [lia | ].
        rewrite Hsplit in Hlt. lia. }
      lia.
    - assert (Hdiv : M = (B * 2 ^ (F - e1)) * 2 ^ n) by (rewrite Heq, Hsplit; ring).
      assert (Hmeq : m' = B * 2 ^ (F - e1)).
      { rewrite Hm', Hdiv. apply Z.div_mul. lia. }
      assert (Hex : shr_exact mrs').
      { apply Hx'.
        - subst l. apply shr_record_of_loc_exact.
        - rewrite Hdiv. apply Z.mod_mul. lia. }
      unfold m''. rewrite (loc_of_shr_record_exact _ Hex), round_nearest_even_exact. lia. }
  assert (HBe1 : e1 = F -> B * 2 ^ (F - e1) = B).
  { intros ->. rewrite Z.sub_diag. simpl. lia. }
  (* size of the truncated mantissa *)
  destruct (Z.eq_dec m'' 0) as [Hz | Hnz].
  - (* underflow to zero *)
    rewrite Hz. rewrite shr_noop.
    + simpl. left. reflexivity.
    + simpl Zdigits2. rewrite fexp64. lia.
  - assert (Hpos : 0 < m'') by lia.
    destruct (Z_le_gt_dec (-1074) (d + E - 53)) as [Hnorm | Hsub].
    + (* normal range *)
      assert (Hne : n = d - 53) by (unfold n; lia).
      assert (Hlow : 2 ^ 52 <= m').
      { rewrite Hm'. apply Z.div_le_lower_bound; [lia | ].
        assert (HM0 : 0 < M).
        { destruct (Z.eq_dec M 0) as [HM0 | ]; [ | lia].
          exfalso. unfold d in Hnorm, Hne. rewrite HM0 in *. simpl in *.
          rewrite Z.div_0_l in Hm' by lia. lia. }
        assert (Hb := Zdigits2_bounds M HM0). fold d in Hb.
        replace (d - 1) with (n + 52) in Hb by lia.
        rewrite Z.pow_add_r in Hb by lia. lia. }
      assert (Hup : m' < 2 ^ 53).
      { rewrite Hm'. apply Z.div_lt_upper_bound; [lia | ].
        rewrite <- Z.pow_add_r by lia. replace (n + 53) with d by lia. assumption. }
      destruct (Z_lt_le_dec m'' (2 ^ 53)) as [Hlt53 | Hge53].
      * assert (Hd'' : Zdigits2 m'' = 53).
        { apply Z.le_antisymm.
          - apply Zdigits2_le_of_lt; lia.
          - apply (Zdigits2_ge_of_le m'' 52); lia. }
        rewrite shr_noop by (rewrite Hd'', fexp64; lia).
        rewrite shr_record_of_loc_m.
        destruct m'' as [ | p | p] eqn:Ep; try lia.
        replace (e1 <=? F64.emax - F64.prec) with true
          by (symmetry; apply Z.leb_le; unfold F64.emax, F64.prec; lia).
        right. exists p, e1. split; [reflexivity | ]. split.
        -- apply bounded_intro; [ | lia]. rewrite Hd'', fexp64. lia.
        -- destruct (Z.eq_dec e1 F) as [HeF | ]; [ | lia].
           right. split; [assumption | ]. rewrite (HBe1 HeF) in Hm''B. lia.
      * assert (Heq53 : m'' = 2 ^ 53) by lia.
        assert (He1lt : e1 < F).
        { destruct (Z.eq_dec e1 F) as [HeF | ]; [ | lia].
          rewrite (HBe1 HeF) in Hm''B. lia. }
        destruct (shr_spec (shr_record_of_loc m'' loc_Exact) e1
                    (fexp F64.prec F64.emax (Zdigits2 m'' + e1) - e1))
          as (mrs'' & Hshr2 & Hm2 & _).
        { rewrite shr_record_of_loc_m. lia. }
        { rewrite Heq53, fexp64. simpl Zdigits2. lia. }
        rewrite Hshr2, Hm2, shr_record_of_loc_m.
        rewrite Heq53. simpl Zdigits2.
        replace (fexp F64.prec F64.emax (54 + e1) - e1) with 1 by (rewrite fexp64; lia).
        change (2 ^ 53 / 2 ^ 1) with (Zpos 4503599627370496).
        cbv iota beta.
        replace (e1 + 1 <=? F64.emax - F64.prec) with true
          by (symmetry; apply Z.leb_le; unfold F64.emax, F64.prec; lia).
        right. exists 4503599627370496%positive, (e1 + 1). split; [reflexivity | ]. split.
        -- apply bounded_intro; [ | lia]. simpl Zdigits2. rewrite fexp64. lia.
        -- destruct (Z.eq_dec (e1 + 1) F) as [HeF | ]; [ | lia].
           right. split; [assumption | ]. lia.
    + (* subnormal range *)
      assert (He1s : e1 = -1074) by lia.
      assert (Hup : m' < 2 ^ 52).
      { rewrite Hm'. apply Z.div_lt_upper_bound; [lia | ].
        assert (2 ^ d <= 2 ^ (n + 52)) by (apply Z.pow_le_mono_r; unfold n; lia).
        rewrite Z.pow_add_r in H by lia. lia. }
      assert (Hd'' : Zdigits2 m'' <= 53).
      { apply Zdigits2_le_of_lt; lia. }
      assert (Hd''0 := Zdigits2_nonneg m'').
      rewrite shr_noop by (rewrite fexp64; lia).
      rewrite shr_record_of_loc_m.
      destruct m'' as [ | p | p] eqn:Ep; try lia.
      replace (e1 <=? F64.emax - F64.prec) with true
        by (symmetry; apply Z.leb_le; unfold F64.emax, F64.prec; lia).
      right. exists p, e1. split; [reflexivity | ]. split.
      * apply bounded_intro; [ | lia]. rewrite fexp64. lia.
      * destruct (Z.eq_dec e1 F) as [HeF | ]; [ | lia].
        right. split; [assumption | ]. rewrite (HBe1 HeF) in Hm''B. lia.
Qed.

Lemma new_location_zero t : new_location t 0 = loc_Exact.
Proof.
  unfold new_location, new_location_even, new_location_odd.
  destruct (Z.even t); reflexivity.
Qed.

Lemma bounded_canonical m e :
  bounded F64.prec F64.emax m e = true ->
  fexp F64.prec F64.emax (Zdigits2 (Zpos m) + e) = e /\ e <= 971.
Proof.
  unfold bounded, canonical_mantissa. intros H.
  apply andb_true_iff in H. destruct H as [H1 H2].
  apply Z.eqb_eq in H1. apply Z.leb_le in H2.
  unfold F64.emax, F64.prec in H2. simpl Zdigits2. split; [assumption | lia].
Qed.

Lemma int_true_div_le_one c t :
  0 < c <= t ->
  exists q, F64.int_true_div c t = Ok q /\ float_le_fin q (2 ^ 52) (-52).
Proof.
  intros Hct.
  unfold F64.int_true_div.
  replace (t =? 0) with false by (symmetry; apply Z.eqb_neq; lia).
  replace (c =? 0) with false by (symmetry; apply Z.eqb_neq; lia).
  replace (c <? 0) with false by (symmetry; apply Z.ltb_ge; lia).
  replace (t <? 0) with false by (symmetry; apply Z.ltb_ge; lia).
  rewrite !Z.abs_eq by lia. simpl xorb.
  unfold SFdiv_core_binary.
  set (d1 := Zdigits2 c). set (d2 := Zdigits2 t).
  assert (Hd1 : 0 < d1) by (apply Zdigits2_pos; lia).
  assert (Hd12 : d1 <= d2).
  { apply Zdigits2_le_of_lt; try lia.
    - apply Zdigits2_nonneg.
    - assert (Hb := Zdigits2_bounds t ltac:(lia)). fold d2 in Hb. lia. }
  rewrite !Z.add_0_r, Z.sub_diag, Z.sub_0_l.
  set (e' := Z.min (fexp F64.prec F64.emax (d1 - d2)) 0).
  assert (He' : e' = Z.max (d1 - d2 - 53) (-1074)) by (unfold e'; rewrite fexp64; lia).
  assert (Hs : 0 < - e') by lia.
  destruct (- e') as [ | s | s] eqn:Es; try lia.
  rewrite Z.shiftl_mul_pow2 by lia.
  rewrite <- Es in *. clear Es s.
  assert (H2s : 0 < 2 ^ (- e')) by (apply Z.pow_pos_nonneg; lia).
  assert (Hdm := Z_div_mod (c * 2 ^ (- e')) t ltac:(lia)).
  destruct (Z.div_eucl (c * 2 ^ (- e')) t) as [q r]. destruct Hdm as [Heq Hr].
  assert (Hq0 : 0 <= q) by nia.
  assert (Hq2s : q <= 2 ^ (- e')) by nia.
  assert (Hc := Zdigits2_bounds c ltac:(lia)). fold d1 in Hc.
  assert (Ht := Zdigits2_bounds t ltac:(lia)). fold d2 in Ht.
  assert (P52 : 2 ^ 52 = 4503599627370496) by reflexivity.
  assert (Hround : float_le_fin
            (binary_round_aux F64.prec F64.emax false q e' (new_location t r))
            (2 ^ 52) (-52)).
  { apply round_le; try lia.
    - (* the quotient has enough digits *)
      destruct (Z.eq_dec q 0) as [Hqz | Hqnz].
      + rewrite Hqz. simpl Zdigits2. rewrite fexp64.
        destruct (Z_le_gt_dec (d1 - d2 - 53) (-1074)) as [ | Hbig]; [lia | exfalso].
        assert (He'' : - e' = (d2 - d1) + 53) by lia.
        assert (Hp : 2 ^ (d1 - 1) * 2 ^ (- e') = 2 ^ (d2 + 52)).
        { rewrite <- Z.pow_add_r by lia. f_equal. lia. }
        assert (Hp2 : 2 ^ (d2 + 52) = 2 ^ d2 * 2 ^ 52) by (apply Z.pow_add_r; lia).
        nia.
      + assert (Hdq : d1 - d2 + (- e') <= Zdigits2 q).
        { assert (Hqd := Zdigits2_pos q ltac:(lia)).
          destruct (Z_le_gt_dec (d1 - d2 + (- e')) 1) as [ | Hk]; [lia | ].
          replace (d1 - d2 + - e') with ((d1 - d2 + - e' - 1) + 1) by lia.
          apply Zdigits2_ge_of_le; [lia | ].
          set (k := d1 - d2 + - e' - 1) in *.
          assert (Hp : 2 ^ (d1 - 1) * 2 ^ (- e') = 2 ^ k * 2 ^ d2).
          { rewrite <- !Z.pow_add_r by lia. f_equal. unfold k. lia. }
          assert (H2k : 0 < 2 ^ k) by (apply Z.pow_pos_nonneg; lia).
          nia. }
        rewrite !fexp64. lia.
    - replace (2 ^ 52 * 2 ^ (-52 - e')) with (2 ^ (- e')).
      2:{ rewrite <- Z.pow_add_r by lia. f_equal. lia. }
      destruct (Z.eq_dec q (2 ^ (- e'))) as [Hqe | ]; [right | left; lia].
      split; [assumption | ].
      assert (r = 0) by nia. subst r. apply new_location_zero. }
  destruct Hround as [Hz | (m & e & Hfin & Hbnd & Hle)].
  - rewrite Hz. eexists. split; [reflexivity | left; reflexivity].
  - rewrite Hfin. eexists. split; [reflexivity | ].
    right. exists m, e. auto.
Qed.

Lemma of_Z_100 : F64.of_Z 100 = S754_finite false 7036874417766400 (-46).
Proof. reflexivity. Qed.

(** The score of [caught] detected mutants out of [total] is a float between 0 and 100. *)
Lemma percentage_range c t :
  0 <= c <= t -> 0 < t ->
  exists x, percentage c t = Ok x /\ float_le_fin x hundred (-46).
Proof.
  intros Hct Ht. unfold percentage.
  destruct (Z.eq_dec c 0) as [-> | Hc].
  - unfold F64.int_true_div.
    replace (t =? 0) with false by (symmetry; apply Z.eqb_neq; lia).
    replace (t <? 0) with false by (symmetry; apply Z.ltb_ge; lia).
    simpl. eexists. split; [reflexivity | left; reflexivity].
  - destruct (int_true_div_le_one c t ltac:(lia)) as (q & Hq & Hle).
    rewrite Hq, of_Z_100. unfold bind. eexists. split; [reflexivity | ].
    destruct Hle as [-> | (m & e & -> & Hbnd & Hle)].
    + left. reflexivity.
    + unfold F64.mul, SFmul. simpl xorb.
      apply bounded_canonical in Hbnd. destruct Hbnd as [Hcan He].
      rewrite fexp64 in Hcan.
      assert (P52 : 2 ^ 52 = 4503599627370496) by reflexivity.
      assert (P53 : 2 ^ 53 = 9007199254740992) by reflexivity.
      assert (Hdm := Zdigits2_bounds (Zpos m) ltac:(lia)).
      assert (Hdp := Zdigits2_pos (Zpos m) ltac:(lia)).
      set (dm := Zdigits2 (Zpos m)) in *.
      assert (Hm53 : Zpos m < 2 ^ 53).
      { assert (2 ^ dm <= 2 ^ 53) by (apply Z.pow_le_mono_r; lia). lia. }
      assert (He0 : 0 < 2 ^ (- e)) by (apply Z.pow_pos_nonneg; lia).
      rewrite Pos2Z.inj_mul.
      apply round_le; unfold hundred; try lia.
      * assert (Hdig : dm + 52 <= Zdigits2 (Zpos m * 7036874417766400)).
        { replace (dm + 52) with ((dm + 51) + 1) by lia.
          apply Zdigits2_ge_of_le; [lia | ].
          replace (dm + 51) with ((dm - 1) + 52) by lia.
          rewrite Z.pow_add_r by lia. nia. }
        rewrite fexp64. lia.
      * replace (-46 - (e + -46)) with (- e) by lia.
        destruct Hle as [Hlt | [Heq Hmle]].
        -- left. assert (2 ^ 53 <= 2 ^ (- e)) by (apply Z.pow_le_mono_r; lia). nia.
        -- subst e. change (2 ^ (- -52)) with (2 ^ 52) in *.
           destruct (Z.eq_dec (Zpos m) (2 ^ 52)) as [Hm | ].
           ++ right. split; [ | reflexivity]. rewrite Hm. reflexivity.
           ++ left. nia.
Qed.

(** ** Comparing scores with thresholds *)

Lemma float_le_fin_not_nan x B F : float_le_fin x B F -> F64.is_nan x = false.
Proof. intros [-> | (m & e & -> & _)]; reflexivity. Qed.

Lemma geb_negb_ltb x y :
  F64.is_nan x = false -> F64.is_nan y = false ->
  F64.geb x y = negb (F64.ltb x y).
Proof.
  unfold F64.geb, F64.ltb, SFleb, SFltb.
  destruct x as [sx | sx | | sx mx ex], y as [sy | sy | | sy my ey];
    simpl; try discriminate; intros _ _;
    try (destruct sx; reflexivity); try (destruct sy; reflexivity);
    try (destruct sx, sy; reflexivity).
  destruct sx, sy; try reflexivity.
  - rewrite (Z.compare_antisym ey ex).
    destruct (ey ?= ex); simpl; try reflexivity.
    change (Pos.compare_cont Eq mx my) with (mx ?= my)%positive.
    change (Pos.compare_cont Eq my mx) with (my ?= mx)%positive.
    rewrite (Pos.compare_antisym my mx). destruct (my ?= mx)%positive; reflexivity.
  - rewrite (Z.compare_antisym ey ex).
    destruct (ey ?= ex); simpl; try reflexivity.
    change (Pos.compare_cont Eq mx my) with (mx ?= my)%positive.
    change (Pos.compare_cont Eq my mx) with (my ?= mx)%positive.
    rewrite (Pos.compare_antisym my mx). destruct (my ?= mx)%positive; reflexivity.
Qed.

Lemma SFleb_finite m e B F :
  e < F \/ (e = F /\ Zpos m <= Zpos B) ->
  SFleb (S754_finite false m e) (S754_finite false B F) = true.
Proof.
  unfold SFleb, SFcompare. intros [Hlt | [-> Hm]].
  - apply Z.compare_lt_iff in Hlt. rewrite Hlt. reflexivity.
  - rewrite Z.compare_refl.
    change (Pos.compare_cont Eq m B) with (m ?= B)%positive.
    destruct (m ?= B)%positive eqn:E; try reflexivity.
    apply Pos.compare_gt_iff in E. lia.
Qed.

Lemma float_le_fin_range x : float_le_fin x hundred (-46) -> in_0_100 x = true.
Proof.
  unfold in_0_100, F64.leb. rewrite of_Z_100.
  intros [-> | (m & e & -> & _ & Hle)]; [reflexivity | ].
  apply andb_true_iff. split; [reflexivity | ].
  apply SFleb_finite. exact Hle.
Qed.

Lemma threshold_of_cases crate :
  threshold_of crate = F64.of_Z 80 \/ threshold_of crate = F64.of_Z 85
  \/ threshold_of crate = F64.of_Z 90.
Proof.
  unfold threshold_of, Dict.get_default, THRESHOLDS, OVERALL_THRESHOLD. simpl Dict.get.
  repeat match goal with
         | |- context [String.eqb crate ?s] => destruct (String.eqb crate s)
         end; auto.
Qed.

Lemma threshold_of_not_nan crate : F64.is_nan (threshold_of crate) = false.
Proof.
  destruct (threshold_of_cases crate) as [-> | [-> | ->]]; reflexivity.
Qed.

(** ** The result monad and the loops *)

Lemma bind_ok_inv {A B : Type} (m : result A) (f : A -> result B) b :
  bind m f = Ok b -> exists a, m = Ok a /\ f a = Ok b.
Proof. destruct m as [a | e]; simpl; [eauto | discriminate]. Qed.

Ltac inv_bind H :=
  let a := fresh "a" in
  let E := fresh "E" in
  apply bind_ok_inv in H; destruct H as (a & E & H).

Lemma for_each_app {A S : Type} (body : S -> A -> result S) xs ys acc :
  for_each body (xs ++ ys) acc = (acc' <- for_each body xs acc ;; for_each body ys acc').
Proof.
  revert acc. induction xs as [ | x xs IH]; intros acc; simpl; [reflexivity | ].
  destruct (body acc x); simpl; auto.
Qed.

Lemma for_each_ok_forall {A S : Type} (body : S -> A -> result S) (P : A -> Prop) :
  (forall acc x r, body acc x = Ok r -> P x) ->
  forall xs acc r, for_each body xs acc = Ok r -> Forall P xs.
Proof.
  intros Hb. induction xs as [ | x xs IH]; intros acc r H; [constructor | ].
  simpl in H. inv_bind H. constructor; eauto.
Qed.

Lemma for_each_total {A S : Type} (body : S -> A -> result S) xs :
  Forall (fun x => forall acc, exists r, body acc x = Ok r) xs ->
  forall acc, exists r, for_each body xs acc = Ok r.
Proof.
  induction 1 as [ | x xs Hx _ IH]; intros acc; simpl; [eauto | ].
  destruct (Hx acc) as [r ->]. simpl. apply IH.
Qed.

(** ** Counting detections *)

Lemma summary_detected_dict fields :
  summary_detected (PDict fields)
  = Ok (py_in_strs (Dict.get_default "summary" PNone fields) ["caught"; "timeout"]).
Proof. reflexivity. Qed.

Lemma summary_detected_is_detected o d :
  summary_detected o = Ok d -> is_detected o = d.
Proof. unfold is_detected. intros ->. destruct d; reflexivity. Qed.

Lemma detected_count_cons o items :
  detected_count (o :: items)
  = (if is_detected o then 1 else 0) + detected_count items.
Proof.
  unfold detected_count. simpl. destruct (is_detected o); simpl List.length; lia.
Qed.

Lemma detected_count_bounds items :
  0 <= detected_count items <= Z.of_nat (List.length items).
Proof.
  unfold detected_count. split; [lia | ].
  apply Nat2Z.inj_le, filter_length_le.
Qed.

Lemma tally_inv t c o t' c' :
  tally (t, c) o = Ok (t', c') ->
  t' = t + 1 /\ c' = c + (if is_detected o then 1 else 0).
Proof.
  unfold tally. intros H. inv_bind H.
  rewrite (summary_detected_is_detected _ _ E).
  injection H as <- <-. destruct a; lia.
Qed.

Lemma for_each_tally items : forall t c t' c',
  for_each tally items (t, c) = Ok (t', c') ->
  t' = t + Z.of_nat (List.length items) /\ c' = c + detected_count items.
Proof.
  induction items as [ | o items IH]; intros t c t' c' H.
  - simpl in H. injection H as <- <-. unfold detected_count. simpl. lia.
  - simpl in H. inv_bind H. destruct a as [t1 c1].
    apply tally_inv in E. destruct E as [-> ->].
    apply IH in H. destruct H as [-> ->].
    rewrite detected_count_cons. simpl List.length. lia.
Qed.

(** What a successful [calculate_mutation_score] returned. *)
Lemma calculate_mutation_score_inv data s c t :
  calculate_mutation_score data = Ok (s, c, t) ->
  exists outcomes items,
    py_get data "outcomes" (PList []) = Ok outcomes
    /\ py_iter outcomes = Ok items
    /\ (exists tc, for_each tally items (0, 0) = Ok tc)
    /\ t = Z.of_nat (List.length items)
    /\ c = detected_count items
    /\ ((t = 0 /\ s = F64.zero) \/ (0 < t /\ percentage c t = Ok s)).
Proof.
  unfold calculate_mutation_score. intros H.
  inv_bind H. rename a into outcomes. inv_bind H. rename a into items.
  inv_bind H. destruct a as [t0 c0].
  exists outcomes, items. split; [assumption | ]. split; [assumption | ].
  split; [eauto | ].
  apply for_each_tally in E1. destruct E1 as [Ht Hc]. simpl in Ht, Hc.
  assert (Hb := detected_count_bounds items).
  destruct (t0 =? 0) eqn:Et.
  - apply Z.eqb_eq in Et. injection H as <- <- <-.
    repeat split; try lia. left. split; [reflexivity | reflexivity].
  - apply Z.eqb_neq in Et. inv_bind H. injection H as <- <- <-.
    repeat split; try lia. right. split; [lia | assumption].
Qed.

Lemma score_range data s c t :
  calculate_mutation_score data = Ok (s, c, t) ->
  0 <= c <= t /\ (s = F64.zero \/ float_le_fin s hundred (-46)).
Proof.
  intros H. apply calculate_mutation_score_inv in H.
  destruct H as (outcomes & items & _ & _ & _ & -> & -> & Hs).
  assert (Hb := detected_count_bounds items). split; [lia | ].
  destruct Hs as [[_ ->] | [Ht Hp]]; [left; reflexivity | right].
  destruct (percentage_range _ _ Hb Ht) as (x & Hx & Hle).
  congruence.
Qed.

(** ** Dictionaries *)

Section DictFacts.
Context {V : Type}.
Implicit Types (d : Dict.t V) (k : string) (v : V).

Lemma get_set_same k v d : Dict.get k (Dict.set k v d) = Some v.
Proof.
  induction d as [ | [k' v'] d IH]; simpl.
  - rewrite String.eqb_refl. reflexivity.
  - destruct (String.eqb k k') eqn:E; simpl.
    + rewrite String.eqb_refl. reflexivity.
    + rewrite E. assumption.
Qed.

Lemma set_set k v v' d : Dict.set k v (Dict.set k v' d) = Dict.set k v d.
Proof.
  induction d as [ | [k0 v0] d IH]; simpl.
  - rewrite String.eqb_refl. reflexivity.
  - destruct (String.eqb k k0) eqn:E; simpl.
    + rewrite String.eqb_refl. reflexivity.
    + rewrite E, IH. reflexivity.
Qed.

Lemma get_none_not_in k d : Dict.get k d = None <-> ~ In k (Dict.keys d).
Proof.
  induction d as [ | [k0 v0] d IH]; simpl.
  - tauto.
  - destruct (String.eqb k k0) eqn:E.
    + apply String.eqb_eq in E. subst. split; [discriminate | intros H; exfalso; auto].
    + apply String.eqb_neq in E. rewrite IH. split; intros H.
      * intros [H1 | H1]; [congruence | auto].
      * tauto.
Qed.

Lemma get_some_in k v d : Dict.get k d = Some v -> In (k, v) d.
Proof.
  induction d as [ | [k0 v0] d IH]; simpl; [discriminate | ].
  destruct (String.eqb k k0) eqn:E.
  - apply String.eqb_eq in E. intros [= ->]. left. congruence.
  - auto.
Qed.

Lemma in_get k v d : NoDup (Dict.keys d) -> In (k, v) d -> Dict.get k d = Some v.
Proof.
  induction d as [ | [k0 v0] d IH]; simpl; [tauto | ].
  intros Hnd [Heq | Hin].
  - injection Heq as -> ->. rewrite String.eqb_refl. reflexivity.
  - inversion Hnd as [ | ? ? Hnotin Hnd']; subst.
    destruct (String.eqb k k0) eqn:E.
    + apply String.eqb_eq in E. subst k0. exfalso. apply Hnotin.
      apply (in_map fst) in Hin. exact Hin.
    + auto.
Qed.

Lemma set_fresh k v d : Dict.get k d = None -> Dict.set k v d = (d ++ [(k, v)])%list.
Proof.
  induction d as [ | [k0 v0] d IH]; simpl; [reflexivity | ].
  destruct (String.eqb k k0); [discriminate | ].
  intros H. rewrite IH by assumption. reflexivity.
Qed.

Lemma keys_set_present k v v0 d :
  Dict.get k d = Some v0 -> Dict.keys (Dict.set k v d) = Dict.keys d.
Proof.
  induction d as [ | [k1 v1] d IH]; simpl; [discriminate | ].
  destruct (String.eqb k k1) eqn:E; simpl.
  - apply String.eqb_eq in E. subst. reflexivity.
  - intros H. unfold Dict.keys in *. simpl. f_equal. apply IH. assumption.
Qed.

Lemma keys_app d d' : Dict.keys (d ++ d')%list = (Dict.keys d ++ Dict.keys d')%list.
Proof. apply map_app. Qed.

Lemma nodup_keys_set k v d :
  NoDup (Dict.keys d) -> NoDup (Dict.keys (Dict.set k v d)).
Proof.
  intros Hnd. destruct (Dict.get k d) as [v0 | ] eqn:E.
  - rewrite (keys_set_present _ _ _ _ E). assumption.
  - rewrite (set_fresh _ _ _ E), keys_app. simpl.
    apply get_none_not_in in E.
    apply NoDup_app; [assumption | repeat constructor; auto | ].
    intros x Hx [<- | []]. auto.
Qed.

Lemma forall_set (P : string * V -> Prop) k v d :
  Forall P d -> P (k, v) -> Forall P (Dict.set k v d).
Proof.
  intros Hd Hp. induction Hd as [ | [k0 v0] d H0 Hd IH]; simpl.
  - repeat constructor. assumption.
  - destruct (String.eqb k k0); constructor; assumption.
Qed.

(** A sum over the entries after an assignment. *)
Lemma sum_set (f : V -> Z) k v d :
  fold_right (fun kv acc => f (snd kv) + acc) 0 (Dict.set k v d)
  = fold_right (fun kv acc => f (snd kv) + acc) 0 d
    - match Dict.get k d with Some v0 => f v0 | None => 0 end + f v.
Proof.
  induction d as [ | [k0 v0] d IH]; simpl.
  - lia.
  - destruct (String.eqb k k0); simpl; lia.
Qed.

End DictFacts.

(** ** One step of the per-crate accumulation *)

Lemma bump_ok name f (crate_stats : Dict.t crate_counts) c :
  Dict.get name crate_stats = Some c ->
  bump name f crate_stats = Ok (Dict.set name (f c) crate_stats).
Proof. unfold bump, Dict.subscript. intros ->. reflexivity. Qed.

(** The loop body leaves the dictionary with one more mutant for the
    crate of the outcome, and one more detection when the outcome counts
    as detected. *)
Lemma count_outcome_eq crate_stats outcome name d :
  crate_name_of outcome = Ok name ->
  summary_detected outcome = Ok d ->
  count_outcome crate_stats outcome
  = Ok (Dict.set name
          {| total := crate_total crate_stats name + 1;
             caught := crate_caught crate_stats name + (if d then 1 else 0) |}
          crate_stats).
Proof.
  intros Hn Hd. unfold count_outcome, crate_total, crate_caught, Dict.mem.
  rewrite Hn. unfold bind at 1.
  destruct (Dict.get name crate_stats) as [c | ] eqn:E; simpl negb; cbv iota.
  - rewrite (bump_ok _ _ _ _ E). unfold bind at 1. rewrite Hd. unfold bind at 1.
    destruct d.
    + rewrite (bump_ok _ _ _ _ (get_set_same _ _ _)), set_set. reflexivity.
    + rewrite Z.add_0_r. destruct c; reflexivity.
  - rewrite (bump_ok _ _ _ _ (get_set_same _ _ _)), set_set. unfold bind at 1.
    rewrite Hd. unfold bind at 1.
    destruct d.
    + rewrite (bump_ok _ _ _ _ (get_set_same _ _ _)), set_set. reflexivity.
    + reflexivity.
Qed.

Lemma count_outcome_inv crate_stats outcome crate_stats' :
  count_outcome crate_stats outcome = Ok crate_stats' ->
  exists name d, crate_name_of outcome = Ok name /\ summary_detected outcome = Ok d.
Proof.
  unfold count_outcome. intros H. inv_bind H. inv_bind H. inv_bind H. eauto.
Qed.

Lemma count_outcome_step crate_stats outcome crate_stats' :
  counts_ok crate_stats ->
  count_outcome crate_stats outcome = Ok crate_stats' ->
  counts_ok crate_stats'
  /\ sum_total crate_stats' = sum_total crate_stats + 1
  /\ sum_caught crate_stats' = sum_caught crate_stats
                               + (if is_detected outcome then 1 else 0).
Proof.
  intros [Hnd Hall] H.
  destruct (count_outcome_inv _ _ _ H) as (name & d & Hn & Hd).
  rewrite (count_outcome_eq _ _ _ _ Hn Hd) in H. injection H as <-.
  rewrite (summary_detected_is_detected _ _ Hd).
  assert (Hc : 0 <= crate_caught crate_stats name <= crate_total crate_stats name
               /\ 0 <= crate_total crate_stats name).
  { unfold crate_caught, crate_total.
    destruct (Dict.get name crate_stats) as [c | ] eqn:E; [ | lia].
    apply get_some_in in E. rewrite Forall_forall in Hall.
    specialize (Hall _ E). simpl in Hall. lia. }
  split; [split | split].
  - apply nodup_keys_set. assumption.
  - apply forall_set; [assumption | ]. simpl. destruct d; lia.
  - unfold sum_total. rewrite (sum_set total). simpl. unfold crate_total.
    destruct (Dict.get name crate_stats); lia.
  - unfold sum_caught. rewrite (sum_set caught). simpl. unfold crate_caught.
    destruct (Dict.get name crate_stats); lia.
Qed.

Lemma for_each_count_outcome items : forall crate_stats crate_stats',
  counts_ok crate_stats ->
  for_each count_outcome items crate_stats = Ok crate_stats' ->
  counts_ok crate_stats'
  /\ sum_total crate_stats' = sum_total crate_stats + Z.of_nat (List.length items)
  /\ sum_caught crate_stats' = sum_caught crate_stats + detected_count items.
Proof.
  induction items as [ | o items IH]; intros cs cs' Hok H.
  - simpl in H. injection H as <-. unfold detected_count. simpl.
    split; [assumption | lia].
  - simpl in H. inv_bind H.
    destruct (count_outcome_step _ _ _ Hok E) as (Hok1 & Ht & Hc).
    destruct (IH _ _ Hok1 H) as (Hok2 & Ht2 & Hc2).
    rewrite detected_count_cons. simpl List.length.
    split; [assumption | ]. lia.
Qed.

Lemma counts_ok_nil : counts_ok [].
Proof. split; constructor. Qed.

(** ** From counts to scores *)

Lemma sum_stats_total_app (a b : Dict.t stats) :
  sum_stats_total (a ++ b)%list = sum_stats_total a + sum_stats_total b.
Proof. induction a as [ | x a IH]; simpl; [reflexivity | ]. unfold sum_stats_total in *. simpl. lia. Qed.

Lemma sum_stats_caught_app (a b : Dict.t stats) :
  sum_stats_caught (a ++ b)%list = sum_stats_caught a + sum_stats_caught b.
Proof. induction a as [ | x a IH]; simpl; [reflexivity | ]. unfold sum_stats_caught in *. simpl. lia. Qed.

Lemma scores_loop cstats : forall acc,
  Forall (fun kv => 0 < total (snd kv) /\ 0 <= caught (snd kv) <= total (snd kv)) cstats ->
  NoDup (Dict.keys acc ++ Dict.keys cstats) ->
  scores_ok acc ->
  exists crate_scores,
    for_each score_of_counts cstats acc = Ok crate_scores
    /\ scores_ok crate_scores
    /\ Dict.keys crate_scores = (Dict.keys acc ++ Dict.keys cstats)%list
    /\ sum_stats_total crate_scores = sum_stats_total acc + sum_total cstats
    /\ sum_stats_caught crate_scores = sum_stats_caught acc + sum_caught cstats.
Proof.
  induction cstats as [ | [k c] cstats IH]; intros acc Hall Hnd Hacc.
  - exists acc. simpl. rewrite app_nil_r. repeat split; try lia; apply Hacc.
  - inversion Hall as [ | ? ? Hc Hall']; subst. simpl in Hc.
    simpl for_each. unfold score_of_counts at 1.
    replace (0 <? total c) with true by (symmetry; apply Z.ltb_lt; lia).
    destruct (percentage_range (caught c) (total c)) as (x & Hx & _); [lia | lia | ].
    rewrite Hx. unfold bind at 2. unfold bind at 1.
    assert (Hfresh : Dict.get k acc = None).
    { apply get_none_not_in. intros Hin.
      simpl in Hnd. apply NoDup_remove_2 in Hnd. apply Hnd.
      apply in_or_app. left. assumption. }
    rewrite (set_fresh _ _ _ Hfresh).
    destruct (IH (acc ++ [(k, (x, caught c, total c))])%list) as (cs & Hcs & Hok & Hkeys & Ht & Hcg).
    + assumption.
    + rewrite keys_app. simpl. rewrite <- app_assoc. simpl. exact Hnd.
    + destruct Hacc as [Hnd1 Hall1]. split.
      * rewrite keys_app. simpl.
        apply NoDup_app; [assumption | repeat constructor; auto | ].
        intros y Hy [<- | []]. apply get_none_not_in in Hfresh. auto.
      * apply Forall_app. split; [assumption | ].
        constructor; [ | constructor].
        unfold stats_total, stats_caught, stats_score. simpl.
        repeat split; try lia. assumption.
    + exists cs. split; [assumption | ]. split; [assumption | ].
      rewrite Hkeys, Ht, Hcg, keys_app. simpl. rewrite <- app_assoc. simpl.
      split; [reflexivity | ].
      rewrite sum_stats_total_app, sum_stats_caught_app.
      unfold sum_stats_total, sum_stats_caught, sum_total, sum_caught. simpl.
      unfold stats_total, stats_caught. simpl. lia.
Qed.

Lemma scores_ok_nil : scores_ok [].
Proof. split; constructor. Qed.

(** What a successful [calculate_per_crate_scores] returned. *)
Lemma calculate_per_crate_scores_inv data crate_scores :
  calculate_per_crate_scores data = Ok crate_scores ->
  exists outcomes items crate_stats,
    py_get data "outcomes" (PList []) = Ok outcomes
    /\ py_iter outcomes = Ok items
    /\ for_each count_outcome items [] = Ok crate_stats
    /\ scores_ok crate_scores
    /\ sum_stats_total crate_scores = Z.of_nat (List.length items)
    /\ sum_stats_caught crate_scores = detected_count items.
Proof.
  unfold calculate_per_crate_scores. intros H.
  inv_bind H. rename a into outcomes. inv_bind H. rename a into items.
  inv_bind H. rename a into cstats.
  exists outcomes, items, cstats. repeat (split; [assumption | ]).
  destruct (for_each_count_outcome _ _ _ counts_ok_nil E1) as ([Hnd Hall] & Ht & Hc).
  destruct (scores_loop cstats [] Hall Hnd scores_ok_nil) as (cs & Hcs & Hok & _ & Hst & Hsc).
  rewrite Hcs in H. injection H as <-.
  split; [assumption | ]. simpl in *. lia.
Qed.

(** ** Strings *)

Lemma append_nil_r s : s ++ "" = s.
Proof. induction s as [ | c s IH]; simpl; [reflexivity | ]. rewrite IH. reflexivity. Qed.

Lemma append_assoc s1 s2 s3 : (s1 ++ s2) ++ s3 = s1 ++ (s2 ++ s3).
Proof. induction s1 as [ | c s1 IH]; simpl; [reflexivity | ]. rewrite IH. reflexivity. Qed.

Lemma prefix_nil s : prefix "" s = true.
Proof. destruct s; reflexivity. Qed.

Lemma prefix_cons a s1 b s2 :
  prefix (String a s1) (String b s2) = if ascii_dec a b then prefix s1 s2 else false.
Proof. reflexivity. Qed.

Lemma prefix_app sep x : prefix sep (sep ++ x) = true.
Proof.
  induction sep as [ | a sep IH]; simpl append.
  - apply prefix_nil.
  - rewrite prefix_cons. destruct (ascii_dec a a); [assumption | contradiction].
Qed.

(** A prefix test only reads as many characters as the prefix has. *)
Lemma prefix_app_long sep : forall a b,
  (String.length sep <= String.length a)%nat -> prefix sep (a ++ b) = prefix sep a.
Proof.
  induction sep as [ | c sep IH]; intros a b Hlen.
  - rewrite !prefix_nil. reflexivity.
  - destruct a as [ | d a]; simpl in Hlen; [lia | ].
    simpl append. rewrite !prefix_cons.
    destruct (ascii_dec c d); [ | reflexivity]. apply IH. lia.
Qed.

Lemma length_append s1 s2 :
  String.length (s1 ++ s2) = (String.length s1 + String.length s2)%nat.
Proof. induction s1 as [ | c s1 IH]; simpl; [reflexivity | ]. rewrite IH. reflexivity. Qed.

Lemma contains_cons sub c s :
  Str.contains sub (String c s) = prefix sub (String c s) || Str.contains sub s.
Proof. reflexivity. Qed.

(** A string without ['/'] does not start with a separator that ends in
    ['/'], whatever follows. *)
Lemma prefix_slash_free k : forall u,
  Str.contains "/" u = false -> prefix (k ++ "/") u = false.
Proof.
  induction k as [ | a k IH]; intros u Hu.
  - destruct u as [ | c u]; [reflexivity | ].
    rewrite contains_cons in Hu. apply orb_false_iff in Hu. apply Hu.
  - destruct u as [ | c u]; [reflexivity | ].
    simpl append. rewrite prefix_cons.
    destruct (ascii_dec a c); [ | reflexivity].
    apply IH. rewrite contains_cons in Hu. apply orb_false_iff in Hu. apply Hu.
Qed.

Lemma prefix_slash_cut k : forall u r,
  Str.contains "/" k = false -> Str.contains "/" u = false ->
  prefix (k ++ "/") (u ++ "/" ++ r) = prefix (k ++ "/") (u ++ "/").
Proof.
  induction k as [ | a k IH]; intros u r Hk Hu.
  - destruct u as [ | c u].
    { simpl append. rewrite !prefix_cons, !prefix_nil. reflexivity. }
    rewrite contains_cons in Hu. apply orb_false_iff in Hu. destruct Hu as [Hc _].
    simpl append in *. rewrite !prefix_cons in *.
    destruct (ascii_dec "/" c); [ | reflexivity].
    rewrite prefix_nil in Hc. discriminate.
  - rewrite contains_cons in Hk. apply orb_false_iff in Hk. destruct Hk as [Ha Hk].
    destruct u as [ | c u].
    + simpl append. rewrite !prefix_cons.
      destruct (ascii_dec a "/") as [-> | ]; [ | reflexivity].
      rewrite prefix_cons in Ha.
      destruct (ascii_dec "/" "/"); [ | contradiction].
      rewrite prefix_nil in Ha. discriminate.
    + rewrite contains_cons in Hu. apply orb_false_iff in Hu. destruct Hu as [_ Hu].
      simpl append. rewrite !prefix_cons.
      destruct (ascii_dec a c); [ | reflexivity]. apply IH; assumption.
Qed.

(** ** Splitting *)

Lemma split_go_nil sep skip cur : Str.split_go sep "" skip cur = [cur].
Proof. reflexivity. Qed.

Lemma split_go_cons sep c s cur :
  Str.split_go sep (String c s) 0 cur
  = if prefix sep (String c s)
    then cur :: Str.split_go sep s (Nat.pred (String.length sep)) ""
    else Str.split_go sep s 0 (cur ++ String c "").
Proof. reflexivity. Qed.

Lemma split_go_skip sep c s k cur :
  Str.split_go sep (String c s) (S k) cur = Str.split_go sep s k cur.
Proof. reflexivity. Qed.

Lemma split_go_nonempty sep s : forall skip cur,
  exists h tl, Str.split_go sep s skip cur = h :: tl.
Proof.
  induction s as [ | c s IH]; intros skip cur.
  - rewrite split_go_nil. eauto.
  - destruct skip as [ | k]; [ | rewrite split_go_skip; apply IH].
    rewrite split_go_cons.
    destruct (prefix sep (String c s)); [eauto | apply IH].
Qed.

(** The first piece starts with what was collected so far. *)
Lemma split_go_head sep s : forall cur,
  exists x tl, Str.split_go sep s 0 cur = (cur ++ x) :: tl.
Proof.
  induction s as [ | c s IH]; intros cur.
  - exists "", []. rewrite append_nil_r. reflexivity.
  - rewrite split_go_cons. destruct (prefix sep (String c s)).
    + exists "". eexists. rewrite append_nil_r. reflexivity.
    + destruct (IH (cur ++ String c "")) as (x & tl & ->).
      exists (String c x), tl. rewrite append_assoc. reflexivity.
Qed.

(** A string that contains the separator splits into two pieces at least. *)
Lemma split_go_two sep s : forall cur,
  sep <> "" -> Str.contains sep s = true ->
  exists a b tl, Str.split_go sep s 0 cur = a :: b :: tl.
Proof.
  induction s as [ | c s IH]; intros cur Hsep H.
  - destruct sep; [contradiction | discriminate].
  - rewrite contains_cons in H. rewrite split_go_cons.
    destruct (prefix sep (String c s)).
    + destruct (split_go_nonempty sep s (Nat.pred (String.length sep)) "") as (h & tl & ->).
      eauto.
    + simpl in H. apply IH; assumption.
Qed.

Lemma prefix_before_marker pre c x :
  prefix "crates/" (String c (pre ++ "crates/" ++ x))
  = prefix "crates/" (String c (pre ++ "crates")).
Proof.
  change ("crates/" ++ x) with ("crates" ++ ("/" ++ x)).
  rewrite <- append_assoc.
  change (String c ((pre ++ "crates") ++ "/" ++ x))
    with (String c (pre ++ "crates") ++ ("/" ++ x)).
  apply prefix_app_long. simpl. rewrite length_append. simpl. lia.
Qed.

(** Up to the first occurrence of ["crates/"]. *)
Lemma split_first pre : forall x cur,
  Str.contains "crates/" (pre ++ "crates") = false ->
  Str.split_go "crates/" (pre ++ "crates/" ++ x) 0 cur
  = (cur ++ pre) :: Str.split_go "crates/" x 0 "".
Proof.
  induction pre as [ | c pre IH]; intros x cur H.
  - rewrite append_nil_r.
    change ("" ++ "crates/" ++ x) with (String "c" ("rates/" ++ x)).
    rewrite split_go_cons.
    change (String "c" ("rates/" ++ x)) with ("crates/" ++ x).
    rewrite (prefix_app "crates/" x). reflexivity.
  - change (String c pre ++ "crates") with (String c (pre ++ "crates")) in H.
    rewrite contains_cons in H.
    apply orb_false_iff in H. destruct H as [Hp Hc].
    change (String c pre ++ "crates/" ++ x) with (String c (pre ++ "crates/" ++ x)).
    rewrite split_go_cons.
    rewrite prefix_before_marker, Hp.
    rewrite (IH x (cur ++ String c "") Hc), append_assoc. reflexivity.
Qed.

(** The piece that follows, when the component after the marker has no
    ['/'] and, unless it ends the path, does not run into another
    marker. *)
Lemma split_component comp : forall rest cur,
  Str.contains "/" comp = false ->
  rest = ""
  \/ (exists r, rest = "/" ++ r /\ Str.contains "crates/" (comp ++ "/") = false) ->
  exists x tl,
    Str.split_go "crates/" (comp ++ rest) 0 cur = (cur ++ comp ++ x) :: tl
    /\ (x = "" \/ exists y, x = "/" ++ y).
Proof.
  induction comp as [ | c comp IH]; intros rest cur Hslash Hrest.
  - simpl append. destruct Hrest as [-> | (r & -> & _)].
    + exists "", []. split; [ | left; reflexivity].
      simpl. rewrite append_nil_r. reflexivity.
    + simpl append. rewrite split_go_cons.
      rewrite prefix_cons.
      destruct (ascii_dec "c" "/") as [Hbad | _]; [discriminate Hbad | ].
      destruct (split_go_head "crates/" r (cur ++ "/")) as (y & tl & ->).
      exists ("/" ++ y), tl. split; [ | right; exists y; reflexivity].
      rewrite append_assoc. reflexivity.
  - rewrite contains_cons in Hslash.
    apply orb_false_iff in Hslash. destruct Hslash as [Hc Hslash].
    change (String c comp ++ rest) with (String c (comp ++ rest)).
    rewrite split_go_cons.
    assert (Hpre : prefix "crates/" (String c (comp ++ rest)) = false
                   /\ (rest = ""
                       \/ (exists r, rest = "/" ++ r
                                     /\ Str.contains "crates/" (comp ++ "/") = false))).
    { destruct Hrest as [-> | (r & -> & Hmark)].
      - split; [ | left; reflexivity]. rewrite append_nil_r.
        apply (prefix_slash_free "crates" (String c comp)).
        rewrite contains_cons, Hc, Hslash. reflexivity.
      - change (String c comp ++ "/") with (String c (comp ++ "/")) in Hmark.
        rewrite contains_cons in Hmark.
        apply orb_false_iff in Hmark. destruct Hmark as [Hp Hmark].
        split; [ | right; exists r; split; [reflexivity | exact Hmark]].
        change (String c (comp ++ "/" ++ r)) with (String c comp ++ "/" ++ r).
        transitivity (prefix "crates/" (String c (comp ++ "/"))); [ | exact Hp].
        apply (prefix_slash_cut "crates" (String c comp) r); [reflexivity | ].
        rewrite contains_cons, Hc, Hslash. reflexivity. }
    destruct Hpre as [Hpre Hrest']. rewrite Hpre.
    destruct (IH rest (cur ++ String c "") Hslash Hrest') as (x & tl & -> & Hx).
    exists x, tl. split; [ | assumption].
    rewrite append_assoc. reflexivity.
Qed.

(** Splitting at ['/'] a text whose first ['/'], if any, comes right after
    [comp]. *)
Lemma split_slash_head comp : forall x cur,
  Str.contains "/" comp = false ->
  x = "" \/ (exists y, x = "/" ++ y) ->
  exists tl, Str.split_go "/" (comp ++ x) 0 cur = (cur ++ comp) :: tl.
Proof.
  induction comp as [ | c comp IH]; intros x cur Hslash Hx.
  - simpl append. destruct Hx as [-> | [y ->]].
    + exists []. simpl. rewrite append_nil_r. reflexivity.
    + simpl append. rewrite split_go_cons.
      rewrite prefix_cons, prefix_nil.
      destruct (ascii_dec "/" "/"); [ | contradiction].
      rewrite append_nil_r. eauto.
  - rewrite contains_cons in Hslash.
    apply orb_false_iff in Hslash. destruct Hslash as [Hc Hslash].
    change (String c comp ++ x) with (String c (comp ++ x)).
    rewrite split_go_cons.
    assert (Hpre : prefix "/" (String c (comp ++ x)) = false).
    { rewrite prefix_cons in *. destruct (ascii_dec "/" c); [ | reflexivity].
      rewrite prefix_nil in Hc. discriminate. }
    rewrite Hpre.
    destruct (IH x (cur ++ String c "") Hslash Hx) as (tl & ->).
    exists tl. rewrite append_assoc. reflexivity.
Qed.

(** ** The crate of a path *)

Lemma crate_name_of_path_unknown s :
  Str.contains "crates/" s = false -> crate_name_of_path (PStr s) = Ok "unknown".
Proof. unfold crate_name_of_path. simpl. intros ->. reflexivity. Qed.

Lemma contains_marker pre x : Str.contains "crates/" (pre ++ "crates/" ++ x) = true.
Proof.
  induction pre as [ | c pre IH].
  - change ("" ++ "crates/" ++ x) with (String "c" ("rates/" ++ x)).
    rewrite contains_cons.
    change (String "c" ("rates/" ++ x)) with ("crates/" ++ x).
    rewrite prefix_app. reflexivity.
  - change (String c pre ++ "crates/" ++ x) with (String c (pre ++ "crates/" ++ x)).
    rewrite contains_cons, IH. apply orb_true_r.
Qed.

Lemma crate_name_of_path_component pre comp rest :
  Str.contains "crates/" (pre ++ "crates") = false ->
  Str.contains "/" comp = false ->
  rest = ""
  \/ (exists r, rest = "/" ++ r /\ Str.contains "crates/" (comp ++ "/") = false) ->
  crate_name_of_path (PStr (pre ++ "crates/" ++ comp ++ rest)) = Ok comp.
Proof.
  intros Hfirst Hslash Hrest.
  unfold crate_name_of_path, py_str_in, py_split, Str.split.
  unfold bind at 1. rewrite contains_marker. unfold bind at 1.
  rewrite split_first by assumption.
  destruct (split_component comp rest "" Hslash Hrest) as (x & tl & -> & Hx).
  unfold py_index. simpl nth_error. unfold bind.
  destruct (split_slash_head comp x "" Hslash Hx) as (tl' & Hs).
  unfold Str.split. simpl append. simpl append in Hs. rewrite Hs. reflexivity.
Qed.

Lemma crate_name_of_path_str s : exists name, crate_name_of_path (PStr s) = Ok name.
Proof.
  unfold crate_name_of_path, py_str_in, py_split, Str.split. unfold bind at 1.
  destruct (Str.contains "crates/" s) eqn:E; [ | eauto].
  destruct (split_go_two "crates/" s "" ltac:(discriminate) E) as (a & b & tl & ->).
  simpl. eauto.
Qed.

(** ** Records the pipeline accepts *)

Lemma py_get_ok_dict v k default r :
  py_get v k default = Ok r -> exists d, v = PDict d.
Proof. destruct v; try discriminate. eauto. Qed.

Lemma crate_name_of_scenario outcome name :
  crate_name_of outcome = Ok name ->
  forall field default, exists v, scenario_field outcome field default = Ok v.
Proof.
  unfold crate_name_of, scenario_field. intros H field default.
  apply bind_ok_inv in H. destruct H as (file_path & H & _).
  apply bind_ok_inv in H. destruct H as (scenario & Hsc & Hfile).
  rewrite Hsc. unfold bind.
  destruct (py_get_ok_dict _ _ _ _ Hfile) as [d ->]. simpl. eauto.
Qed.

Lemma summary_detected_get outcome d :
  summary_detected outcome = Ok d ->
  forall default, exists v, py_get outcome "summary" default = Ok v.
Proof.
  unfold summary_detected. intros H default. inv_bind H.
  destruct (py_get_ok_dict _ _ _ _ E) as [f ->]. simpl. eauto.
Qed.

Lemma collect_survivor_total outcome name d :
  crate_name_of outcome = Ok name ->
  summary_detected outcome = Ok d ->
  forall surviving, exists r, collect_survivor surviving outcome = Ok r.
Proof.
  intros Hn Hd surviving. unfold collect_survivor. rewrite Hd. unfold bind at 1.
  destruct d; simpl negb; cbv iota; [eauto | ].
  destruct (crate_name_of_scenario _ _ Hn "file" (PStr "unknown")) as [f ->].
  destruct (crate_name_of_scenario _ _ Hn "function" (PStr "unknown")) as [fn ->].
  destruct (crate_name_of_scenario _ _ Hn "line" (PInt 0)) as [ln ->].
  destruct (summary_detected_get _ _ Hd (PStr "unknown")) as [s ->].
  simpl. eauto.
Qed.

Lemma survivors_total items crate_stats crate_stats' :
  for_each count_outcome items crate_stats = Ok crate_stats' ->
  exists surviving, for_each collect_survivor items [] = Ok surviving.
Proof.
  intros H. apply for_each_total.
  apply (for_each_ok_forall count_outcome
           (fun o => exists name d, crate_name_of o = Ok name /\ summary_detected o = Ok d))
    in H.
  - apply Forall_impl with (2 := H).
    intros o (name & d & Hn & Hd) acc. eapply collect_survivor_total; eassumption.
  - intros acc o r Hr. eapply count_outcome_inv; eassumption.
Qed.

Lemma record_ok_crate outcome :
  record_ok outcome = true -> exists name, crate_name_of outcome = Ok name.
Proof.
  destruct outcome as [ | | | | | | fields]; try discriminate.
  unfold record_ok, crate_name_of, scenario_field, py_get, Dict.get_default.
  unfold bind at 2.
  destruct (Dict.get "scenario" fields) as [sc | ].
  - destruct sc as [ | | | | | | d]; try (intros H; discriminate H).
    unfold scenario_ok. unfold bind at 1.
    destruct (Dict.get "file" d) as [f | ].
    + destruct f; try (intros H; discriminate H). intros _. apply crate_name_of_path_str.
    + intros _. apply crate_name_of_path_str.
  - intros _. unfold bind at 1. simpl Dict.get. apply crate_name_of_path_str.
Qed.

Lemma record_ok_summary outcome :
  record_ok outcome = true -> exists d, summary_detected outcome = Ok d.
Proof.
  destruct outcome; try discriminate. intros _.
  rewrite summary_detected_dict. eauto.
Qed.

Lemma count_outcome_total outcome :
  record_ok outcome = true ->
  forall crate_stats, exists r, count_outcome crate_stats outcome = Ok r.
Proof.
  intros H crate_stats.
  destruct (record_ok_crate _ H) as [name Hn].
  destruct (record_ok_summary _ H) as [d Hd].
  rewrite (count_outcome_eq _ _ _ _ Hn Hd). eauto.
Qed.

Lemma tally_total outcome :
  record_ok outcome = true -> forall acc, exists r, tally acc outcome = Ok r.
Proof.
  intros H [t c]. destruct (record_ok_summary _ H) as [d Hd].
  unfold tally. rewrite Hd. simpl. eauto.
Qed.

(** ** Sorting *)

Lemma sorted_insert_perm x l : Permutation (sorted_insert x l) (x :: l).
Proof.
  induction l as [ | y l IH]; simpl; [apply Permutation_refl | ].
  destruct (Str.leb x y); [apply Permutation_refl | ].
  rewrite IH. apply perm_swap.
Qed.

Lemma sorted_perm l : Permutation (sorted l) l.
Proof.
  induction l as [ | x l IH]; simpl; [constructor | ].
  rewrite sorted_insert_perm. constructor. assumption.
Qed.

Lemma filter_perm {A : Type} (f : A -> bool) l l' :
  Permutation l l' -> Permutation (filter f l) (filter f l').
Proof.
  induction 1 as [ | x l l' _ IH | x y l | l l' l'' _ IH1 _ IH2]; simpl.
  - constructor.
  - destruct (f x); [constructor | ]; assumption.
  - destruct (f x), (f y); try apply Permutation_refl. apply perm_swap.
  - eapply Permutation_trans; eassumption.
Qed.

(** ** The report *)

Lemma for_each_cons {A S : Type} (body : S -> A -> result S) x xs acc :
  for_each body (x :: xs) acc = (acc' <- body acc x ;; for_each body xs acc').
Proof. reflexivity. Qed.

Lemma py_print_ok l : existsb unencodable l = false -> py_print l = Ok tt.
Proof. unfold py_print. intros ->. reflexivity. Qed.

Lemma py_print_inv l r : py_print l = Ok r -> existsb unencodable l = false.
Proof. unfold py_print. destruct (existsb unencodable l); [discriminate | reflexivity]. Qed.

Lemma py_print_raise l e : py_print l = Raise e -> e = UnicodeEncodeError.
Proof.
  unfold py_print. destruct (existsb unencodable l); [ | discriminate].
  intros [= <-]. reflexivity.
Qed.

(** The row of a crate whose name can be printed. *)
Lemma report_row_ok crate_scores rows failed k st :
  Dict.get k crate_scores = Some st ->
  Str.has_surrogate k = false ->
  report_row crate_scores (rows, failed) k
  = Ok ((rows ++ [row_of k st])%list,
        if report_fails crate_scores k then (failed ++ [k])%list else failed).
Proof.
  intros H Hs. unfold report_row, Dict.subscript, report_fails, row_of, py_print.
  unfold stats in *. rewrite H. destruct st as [[x ca] to]. cbn [bind].
  simpl existsb. rewrite Hs. reflexivity.
Qed.

(** The row of a crate whose name cannot: the exception of line 144. *)
Lemma report_row_unencodable crate_scores acc k :
  In k (Dict.keys crate_scores) ->
  Str.has_surrogate k = true ->
  report_row crate_scores acc k = Raise UnicodeEncodeError.
Proof.
  intros Hin Hs. destruct acc as [rows failed].
  unfold report_row, Dict.subscript, py_print. unfold stats in *.
  destruct (Dict.get k crate_scores) as [[[x ca] to] | ] eqn:E.
  - cbn [bind]. simpl existsb. rewrite Hs. reflexivity.
  - exfalso. apply get_none_not_in in E. apply E, Hin.
Qed.

Lemma report_row_inv crate_scores rows failed k r :
  report_row crate_scores (rows, failed) k = Ok r ->
  exists st,
    Dict.get k crate_scores = Some st
    /\ Str.has_surrogate k = false
    /\ r = ((rows ++ [row_of k st])%list,
            if report_fails crate_scores k then (failed ++ [k])%list else failed).
Proof.
  intros H.
  destruct (Dict.get k crate_scores) as [st | ] eqn:E.
  - destruct (Str.has_surrogate k) eqn:Es.
    + rewrite report_row_unencodable in H; [discriminate H | | exact Es].
      apply get_some_in in E. apply (in_map fst) in E. exact E.
    + rewrite (report_row_ok _ _ _ _ _ E Es) in H. injection H as <-.
      exists st. repeat split.
  - unfold report_row, Dict.subscript in H. unfold stats in *.
    rewrite E in H. discriminate H.
Qed.

Lemma report_rows_inv crate_scores l : forall rows failed rows' failed',
  for_each (report_row crate_scores) l (rows, failed) = Ok (rows', failed') ->
  Forall (fun k => Str.has_surrogate k = false) l
  /\ failed' = (failed ++ filter (report_fails crate_scores) l)%list
  /\ exists new,
       rows' = (rows ++ new)%list
       /\ Forall2 (fun k row => exists st, Dict.get k crate_scores = Some st
                                           /\ row = row_of k st) l new.
Proof.
  induction l as [ | k l IH]; intros rows failed rows' failed' H.
  - simpl in H. injection H as <- <-. split; [constructor | ].
    split; [rewrite app_nil_r; reflexivity | ].
    exists []. rewrite app_nil_r. split; constructor.
  - rewrite for_each_cons in H. apply bind_ok_inv in H. destruct H as (r & Hr & H).
    destruct (report_row_inv _ _ _ _ _ Hr) as (st & Hget & Hs & ->).
    destruct (IH _ _ _ _ H) as (Hall & -> & new & -> & Hnew).
    split; [constructor; assumption | ]. split.
    + simpl filter. destruct (report_fails crate_scores k);
        [rewrite <- app_assoc | ]; reflexivity.
    + exists (row_of k st :: new). rewrite <- app_assoc. split; [reflexivity | ].
      constructor; [ | assumption]. exists st. split; [assumption | reflexivity].
Qed.

Lemma report_rows_ok crate_scores l : forall rows failed,
  (forall k, In k l -> In k (Dict.keys crate_scores)) ->
  Forall (fun k => Str.has_surrogate k = false) l ->
  exists rows' failed',
    for_each (report_row crate_scores) l (rows, failed) = Ok (rows', failed').
Proof.
  induction l as [ | k l IH]; intros rows failed Hin Hall.
  - simpl. eauto.
  - inversion Hall as [ | ? ? Hk Hall']; subst.
    rewrite for_each_cons.
    destruct (Dict.get k crate_scores) as [st | ] eqn:E.
    + rewrite (report_row_ok _ _ _ _ _ E Hk). cbn [bind].
      apply IH; [ | assumption]. intros k' Hk'. apply Hin. right. assumption.
    + exfalso. apply get_none_not_in in E. apply E, Hin. left. reflexivity.
Qed.

Lemma report_rows_raise crate_scores l : forall acc e,
  (forall k, In k l -> In k (Dict.keys crate_scores)) ->
  for_each (report_row crate_scores) l acc = Raise e ->
  e = UnicodeEncodeError /\ Exists (fun k => Str.has_surrogate k = true) l.
Proof.
  induction l as [ | k l IH]; intros acc e Hin H; [discriminate H | ].
  rewrite for_each_cons in H.
  destruct (Str.has_surrogate k) eqn:Es.
  - rewrite report_row_unencodable in H; [ | apply Hin; left; reflexivity | exact Es].
    injection H as <-. split; [reflexivity | ]. left. exact Es.
  - destruct acc as [rows failed].
    destruct (Dict.get k crate_scores) as [st | ] eqn:E.
    + rewrite (report_row_ok _ _ _ _ _ E Es) in H. cbn [bind] in H.
      apply IH in H; [ | intros k' Hk'; apply Hin; right; assumption].
      destruct H as [-> H]. split; [reflexivity | ]. right. exact H.
    + exfalso. apply get_none_not_in in E. apply E, Hin. left. reflexivity.
Qed.

(** The lines of the surviving mutants. *)
Lemma print_survivor_ok printed m :
  mutant_encodable m = true -> print_survivor printed m = Ok tt.
Proof.
  unfold mutant_encodable, encodable, print_survivor, py_print. intros H.
  apply andb_prop in H. destruct H as [H Hs].
  apply andb_prop in H. destruct H as [H Hfn].
  apply andb_prop in H. destruct H as [Hf Hl].
  apply negb_true_iff in Hf, Hl, Hfn, Hs.
  simpl existsb. rewrite Hf, Hl, Hfn, Hs. reflexivity.
Qed.

Lemma print_survivor_unencodable printed m :
  mutant_encodable m = false -> print_survivor printed m = Raise UnicodeEncodeError.
Proof.
  unfold mutant_encodable, encodable, print_survivor, py_print. simpl existsb.
  destruct (unencodable (m_file m)), (unencodable (m_line m)),
    (unencodable (m_function m)), (unencodable (m_summary m));
    simpl; intros H; (reflexivity || discriminate H).
Qed.

Lemma print_survivors_ok l : forall printed,
  forallb mutant_encodable l = true -> for_each print_survivor l printed = Ok tt.
Proof.
  induction l as [ | m l IH]; intros [] H; [reflexivity | ].
  simpl in H. apply andb_prop in H. destruct H as [Hm H].
  rewrite for_each_cons, (print_survivor_ok _ _ Hm). cbn [bind]. apply IH, H.
Qed.

Lemma print_survivors_unencodable l : forall printed,
  forallb mutant_encodable l = false ->
  for_each print_survivor l printed = Raise UnicodeEncodeError.
Proof.
  induction l as [ | m l IH]; intros printed H; [discriminate H | ].
  simpl in H. rewrite for_each_cons.
  destruct (mutant_encodable m) eqn:Em.
  - rewrite (print_survivor_ok _ _ Em). cbn [bind]. apply IH, H.
  - rewrite (print_survivor_unencodable _ _ Em). reflexivity.
Qed.

(** The section of the surviving mutants, lines 152-162. *)
Lemma print_survivors_section surviving :
  (if match surviving with [] => false | _ => true end
   then for_each print_survivor (firstn 10 surviving) tt
   else Ok tt)
  = if forallb mutant_encodable (firstn 10 surviving)
    then Ok tt else Raise UnicodeEncodeError.
Proof.
  destruct surviving as [ | m ms]; [reflexivity | ].
  destruct (forallb mutant_encodable (firstn 10 (m :: ms))) eqn:E.
  - apply print_survivors_ok, E.
  - apply print_survivors_unencodable, E.
Qed.

Lemma has_surrogate_names l :
  Forall (fun k => Str.has_surrogate k = false) l ->
  existsb unencodable (map PStr l) = false.
Proof.
  induction 1 as [ | k l Hk _ IH]; [reflexivity | ].
  simpl. rewrite Hk, IH. reflexivity.
Qed.

(** What a report that was printed to its end holds, and what let it be
    printed. *)
Lemma print_report_inv s c t crate_scores surviving rep :
  print_report s c t crate_scores surviving = Ok rep ->
  let failed := filter (report_fails crate_scores) (sorted (Dict.keys crate_scores)) in
  let passed := F64.geb s OVERALL_THRESHOLD && is_nil failed in
  Forall (fun k => Str.has_surrogate k = false) (Dict.keys crate_scores)
  /\ forallb mutant_encodable (firstn 10 surviving) = true
  /\ for_each (report_row crate_scores) (sorted (Dict.keys crate_scores)) ([], [])
     = Ok (crate_rows rep, failed)
  /\ Forall2 (fun k row => exists st, Dict.get k crate_scores = Some st
                                      /\ row = row_of k st)
             (sorted (Dict.keys crate_scores)) (crate_rows rep)
  /\ overall_line rep = (s, c, t)
  /\ overall_status_pass rep = F64.geb s OVERALL_THRESHOLD
  /\ surviving_count rep
     = (if is_nil surviving then None else Some (List.length surviving))
  /\ surviving_shown rep = firstn 10 surviving
  /\ surviving_more rep
     = (if (10 <? List.length surviving)%nat
        then Some (List.length surviving - 10)%nat else None)
  /\ banner_passed rep = passed
  /\ failed_crates_line rep
     = (if passed then None else if is_nil failed then None else Some failed)
  /\ shortfall_line rep = negb passed && F64.ltb s OVERALL_THRESHOLD.
Proof.
  unfold print_report. intros H.
  apply bind_ok_inv in H. destruct H as ([rows failed'] & Hrows & H).
  destruct (report_rows_inv _ _ _ _ _ _ Hrows) as (Hall & Hf & new & Hn & Hnew).
  simpl app in Hf, Hn. subst failed' rows.
  rewrite print_survivors_section in H.
  destruct (forallb mutant_encodable (firstn 10 surviving)) eqn:Esv;
    [ | discriminate H].
  cbn [bind] in H.
  apply bind_ok_inv in H. destruct H as (printed & _ & H).
  injection H as <-. cbn.
  split.
  { apply Forall_forall. intros k Hk. rewrite Forall_forall in Hall. apply Hall.
    eapply Permutation_in; [apply Permutation_sym, sorted_perm | exact Hk]. }
  split; [reflexivity | ]. split; [exact Hrows | ]. split; [exact Hnew | ].
  destruct (filter (report_fails crate_scores) (sorted (Dict.keys crate_scores))) as [ | k l];
    destruct surviving as [ | m ms]; cbn; repeat split; try reflexivity.
  all: destruct (F64.geb s OVERALL_THRESHOLD); reflexivity.
Qed.

(** The report is printed to its end when the crate names and the first
    ten surviving mutants can be printed. *)
Lemma print_report_ok s c t crate_scores surviving :
  Forall (fun k => Str.has_surrogate k = false) (Dict.keys crate_scores) ->
  forallb mutant_encodable (firstn 10 surviving) = true ->
  exists rep, print_report s c t crate_scores surviving = Ok rep.
Proof.
  intros Hall Hsv.
  assert (Hsorted : Forall (fun k => Str.has_surrogate k = false)
                           (sorted (Dict.keys crate_scores))).
  { apply Forall_forall. intros k Hk. rewrite Forall_forall in Hall. apply Hall.
    eapply Permutation_in; [apply sorted_perm | exact Hk]. }
  destruct (report_rows_ok crate_scores (sorted (Dict.keys crate_scores)) [] [])
    as (rows & failed & Hrows); [ | exact Hsorted | ].
  { intros k Hk. eapply Permutation_in; [apply sorted_perm | exact Hk]. }
  destruct (report_rows_inv _ _ _ _ _ _ Hrows) as (_ & Hf & _). simpl app in Hf.
  unfold print_report. rewrite Hrows. cbn [bind].
  rewrite print_survivors_section, Hsv. cbn [bind].
  assert (Hp : py_print (map PStr failed) = Ok tt).
  { apply py_print_ok, has_surrogate_names. subst failed.
    apply Forall_forall. intros k Hk. apply filter_In in Hk.
    rewrite Forall_forall in Hsorted. apply Hsorted, Hk. }
  destruct (F64.geb s OVERALL_THRESHOLD); destruct failed as [ | k l]; simpl andb;
    cbv iota; try rewrite Hp; cbn [bind]; eauto.
Qed.

(** Otherwise it stops at the first text that cannot be encoded. *)
Lemma print_report_raise s c t crate_scores surviving e :
  print_report s c t crate_scores surviving = Raise e ->
  e = UnicodeEncodeError
  /\ (Exists (fun k => Str.has_surrogate k = true) (Dict.keys crate_scores)
      \/ forallb mutant_encodable (firstn 10 surviving) = false).
Proof.
  intros H.
  destruct (forallb mutant_encodable (firstn 10 surviving)) eqn:Esv.
  - destruct (Forall_Exists_dec (fun k => Str.has_surrogate k = false)
                (fun k => bool_dec (Str.has_surrogate k) false) (Dict.keys crate_scores))
      as [Hall | Hex].
    + destruct (print_report_ok s c t _ _ Hall Esv) as [rep Hrep].
      rewrite Hrep in H. discriminate H.
    + unfold print_report in H.
      destruct (for_each (report_row crate_scores) (sorted (Dict.keys crate_scores))
                         ([], [])) as [[rows failed] | e'] eqn:Hrows.
      * exfalso. destruct (report_rows_inv _ _ _ _ _ _ Hrows) as (Hall & _).
        apply Exists_exists in Hex. destruct Hex as (k & Hk & Hs). apply Hs.
        rewrite Forall_forall in Hall. apply Hall.
        eapply Permutation_in; [apply Permutation_sym, sorted_perm | exact Hk].
      * cbn [bind] in H. injection H as <-.
        apply report_rows_raise in Hrows.
        2:{ intros k Hk. eapply Permutation_in; [apply sorted_perm | exact Hk]. }
        destruct Hrows as [-> Hex']. split; [reflexivity | ]. left.
        apply Exists_exists in Hex'. destruct Hex' as (k & Hk & Hs).
        apply Exists_exists. exists k. split; [ | exact Hs].
        eapply Permutation_in; [apply sorted_perm | exact Hk].
  - split; [ | right; reflexivity].
    unfold print_report in H.
    destruct (for_each (report_row crate_scores) (sorted (Dict.keys crate_scores))
                       ([], [])) as [[rows failed] | e'] eqn:Hrows.
    + cbn [bind] in H. rewrite print_survivors_section, Esv in H.
      cbn [bind] in H. injection H as <-. reflexivity.
    + cbn [bind] in H. injection H as <-.
      apply report_rows_raise in Hrows; [apply Hrows | ].
      intros k Hk. eapply Permutation_in; [apply sorted_perm | exact Hk].
Qed.

(** ** Texts without a lone surrogate *)

Lemma has_surrogate_tail c s :
  Str.has_surrogate (String c s) = false -> Str.has_surrogate s = false.
Proof.
  destruct s as [ | b s]; [reflexivity | ].
  change (Str.has_surrogate (String c (String b s)))
    with (Str.surrogate_start c b || Str.has_surrogate (String b s)).
  intros H. apply orb_false_iff in H. apply H.
Qed.

Lemma has_surrogate_app_r a : forall b,
  Str.has_surrogate (a ++ b) = false -> Str.has_surrogate b = false.
Proof.
  induction a as [ | c a IH]; intros b H; [exact H | ].
  apply IH. apply (has_surrogate_tail c). exact H.
Qed.

Lemma has_surrogate_app_l a : forall b,
  Str.has_surrogate (a ++ b) = false -> Str.has_surrogate a = false.
Proof.
  induction a as [ | c a IH]; intros b H; [reflexivity | ].
  destruct a as [ | d a]; [reflexivity | ].
  change (Str.has_surrogate (String c (String d a)))
    with (Str.surrogate_start c d || Str.has_surrogate (String d a)).
  change (Str.has_surrogate (String c (String d a) ++ b))
    with (Str.surrogate_start c d || Str.has_surrogate (String d a ++ b)) in H.
  apply orb_false_iff in H. destruct H as [-> H]. simpl orb.
  apply (IH b). exact H.
Qed.

(** The pieces of a split are pieces of the text. *)
Lemma split_go_no_surrogate sep s : forall skip cur h,
  skip = O \/ cur = "" ->
  Str.has_surrogate (cur ++ s) = false ->
  In h (Str.split_go sep s skip cur) ->
  Str.has_surrogate h = false.
Proof.
  induction s as [ | c s IH]; intros skip cur h Hsk Hs Hin.
  - rewrite split_go_nil in Hin. destruct Hin as [<- | []].
    rewrite append_nil_r in Hs. exact Hs.
  - destruct skip as [ | k].
    + rewrite split_go_cons in Hin.
      destruct (prefix sep (String c s)).
      * destruct Hin as [<- | Hin]; [apply (has_surrogate_app_l _ _ Hs) | ].
        apply (IH (Nat.pred (String.length sep)) "" h (or_intror eq_refl));
          [ | exact Hin].
        apply (has_surrogate_tail c), (has_surrogate_app_r cur), Hs.
      * apply (IH 0%nat (cur ++ String c "") h (or_introl eq_refl)); [ | exact Hin].
        rewrite append_assoc. exact Hs.
    + destruct Hsk as [Hsk | ->]; [discriminate Hsk | ].
      rewrite split_go_skip in Hin.
      apply (IH k "" h (or_intror eq_refl)); [ | exact Hin].
      apply (has_surrogate_tail c). exact Hs.
Qed.

Lemma split_no_surrogate sep s h :
  Str.has_surrogate s = false -> In h (Str.split sep s) -> Str.has_surrogate h = false.
Proof.
  intros Hs Hin.
  apply (split_go_no_surrogate sep s O "" h (or_introl eq_refl)); assumption.
Qed.

(** A path that can be printed gives a crate name that can. *)
Lemma crate_name_of_path_encodable v name :
  crate_name_of_path v = Ok name -> encodable v = true ->
  Str.has_surrogate name = false.
Proof.
  unfold crate_name_of_path, encodable. intros H Hv. apply negb_true_iff in Hv.
  apply bind_ok_inv in H. destruct H as (found & Hf & H).
  destruct found; [ | injection H as <-; reflexivity].
  apply bind_ok_inv in H. destruct H as (pieces & Hp & H).
  apply bind_ok_inv in H. destruct H as (after & Ha & H).
  injection H as <-.
  destruct v as [ | | | | s | | ]; try discriminate Hp.
  simpl in Hp, Hv. injection Hp as <-.
  unfold py_index in Ha.
  destruct (nth_error (Str.split "crates/" s) 1) as [x | ] eqn:En; [ | discriminate Ha].
  injection Ha as ->. apply nth_error_In in En.
  assert (Hafter := split_no_surrogate _ _ _ Hv En).
  destruct (Str.split "/" after) as [ | p ps] eqn:Es; [reflexivity | ].
  apply (split_no_surrogate "/" after); [exact Hafter | ].
  rewrite Es. left. reflexivity.
Qed.

Lemma scenario_field_encodable outcome field default v :
  scenario_field outcome field default = Ok v ->
  field_encodable outcome field = true ->
  encodable default = true ->
  encodable v = true.
Proof.
  unfold field_encodable, scenario_field. intros H Hf Hd.
  apply bind_ok_inv in H. destruct H as (scenario & Hsc & H).
  rewrite Hsc in Hf. cbn [bind] in Hf.
  destruct (py_get_ok_dict _ _ _ _ H) as [d ->].
  simpl in H, Hf. injection H as <-.
  unfold Dict.get_default in *.
  destruct (Dict.get field d); assumption.
Qed.

Lemma crate_name_of_encodable outcome name :
  crate_name_of outcome = Ok name -> record_encodable outcome = true ->
  Str.has_surrogate name = false.
Proof.
  unfold crate_name_of, record_encodable. intros H Hr.
  apply bind_ok_inv in H. destruct H as (file_path & Hf & H).
  apply (crate_name_of_path_encodable _ _ H).
  apply (scenario_field_encodable _ _ _ _ Hf); [ | reflexivity].
  apply andb_prop in Hr. destruct Hr as [Hr _].
  apply andb_prop in Hr. destruct Hr as [Hr _].
  apply andb_prop in Hr. apply Hr.
Qed.

(** ** Scores are comparable *)

Lemma scores_ok_entry crate_scores k x ca to :
  scores_ok crate_scores -> In (k, (x, ca, to)) crate_scores ->
  Dict.get k crate_scores = Some (x, ca, to)
  /\ 0 < to /\ 0 <= ca <= to /\ float_le_fin x hundred (-46).
Proof.
  intros [Hnd Hall] Hin. split; [apply in_get; assumption | ].
  rewrite Forall_forall in Hall. specialize (Hall _ Hin).
  unfold stats_total, stats_caught, stats_score in Hall. simpl in Hall.
  destruct Hall as (Ht & Hc & Hp).
  destruct (percentage_range ca to Hc Ht) as (y & Hy & Hle).
  repeat split; try lia. congruence.
Qed.

Lemma score_vs_threshold x crate :
  float_le_fin x hundred (-46) ->
  F64.geb x (threshold_of crate) = negb (F64.ltb x (threshold_of crate)).
Proof.
  intros H. apply geb_negb_ltb.
  - eapply float_le_fin_not_nan; eassumption.
  - apply threshold_of_not_nan.
Qed.

(** The failing crates found from the items of the table are the failing
    crates found from its keys. *)
Lemma failed_crates_of_keys crate_scores :
  scores_ok crate_scores ->
  failed_crates_of crate_scores
  = filter (report_fails crate_scores) (Dict.keys crate_scores).
Proof.
  intros Hok. unfold failed_crates_of, Dict.keys.
  assert (Hsub : forall kv, In kv crate_scores -> In kv crate_scores) by auto.
  revert Hsub. generalize crate_scores at 1 3 5 as l.
  induction l as [ | [k [[x ca] to]] l IH]; intros Hsub; [reflexivity | ].
  destruct (scores_ok_entry _ _ _ _ _ Hok (Hsub _ (or_introl eq_refl)))
    as (Hget & _ & _ & Hle).
  simpl. unfold report_fails at 1. rewrite Hget. unfold stats_score. simpl fst.
  rewrite (score_vs_threshold _ _ Hle), negb_involutive.
  destruct (F64.ltb x (threshold_of k)); simpl; rewrite IH; auto.
  - intros kv Hkv. apply Hsub. right. assumption.
  - intros kv Hkv. apply Hsub. right. assumption.
Qed.

Lemma overall_threshold_not_nan : F64.is_nan OVERALL_THRESHOLD = false.
Proof. reflexivity. Qed.

Lemma overall_score_comparable data s c t :
  calculate_mutation_score data = Ok (s, c, t) ->
  F64.geb s OVERALL_THRESHOLD = negb (F64.ltb s OVERALL_THRESHOLD).
Proof.
  intros H. apply geb_negb_ltb; [ | reflexivity].
  destruct (score_range _ _ _ _ H) as [_ [-> | Hle]]; [reflexivity | ].
  eapply float_le_fin_not_nan; eassumption.
Qed.

Lemma in_keys {V : Type} k (v : V) d : In (k, v) d -> In k (Dict.keys d).
Proof. intros H. apply (in_map fst) in H. exact H. Qed.

Lemma report_fails_entry crate_scores crate x ca to :
  scores_ok crate_scores -> In (crate, (x, ca, to)) crate_scores ->
  report_fails crate_scores crate = F64.ltb x (threshold_of crate).
Proof.
  intros Hok Hin.
  destruct (scores_ok_entry _ _ _ _ _ Hok Hin) as (Hget & _ & _ & Hle).
  unfold report_fails. rewrite Hget. unfold stats_score. simpl fst.
  rewrite (score_vs_threshold _ _ Hle). apply negb_involutive.
Qed.

Lemma ltb_irrefl x : F64.ltb x x = false.
Proof.
  unfold F64.ltb, SFltb, SFcompare.
  destruct x as [s | s | | s m e]; try reflexivity.
  - destruct s; reflexivity.
  - destruct s; rewrite Z.compare_refl;
      change (Pos.compare_cont Eq m m) with (m ?= m)%positive;
      rewrite Pos.compare_refl; reflexivity.
Qed.


Lemma failed_in_report_perm crate_scores :
  scores_ok crate_scores ->
  Permutation (filter (report_fails crate_scores) (sorted (Dict.keys crate_scores)))
              (failed_crates_of crate_scores).
Proof.
  intros Hok. rewrite (failed_crates_of_keys _ Hok). apply filter_perm, sorted_perm.
Qed.

Lemma is_nil_perm {A : Type} (l l' : list A) :
  Permutation l l' -> is_nil l = is_nil l'.
Proof.
  intros H. destruct l, l'; try reflexivity.
  - apply Permutation_nil in H. discriminate H.
  - apply Permutation_sym, Permutation_nil in H. discriminate H.
Qed.

(** ** The listing of the surviving mutants *)

Lemma filter_length_split {A : Type} (f : A -> bool) (l : list A) :
  (List.length (filter f l) + List.length (filter (fun x => negb (f x)) l)
   = List.length l)%nat.
Proof.
  induction l as [ | x l IH]; simpl; [reflexivity | ].
  destruct (f x); simpl; lia.
Qed.

Lemma collect_survivor_inv surviving outcome r :
  collect_survivor surviving outcome = Ok r ->
  (survives outcome = false /\ r = surviving)
  \/ (survives outcome = true
      /\ exists m, r = (surviving ++ [m])%list /\ listed_as outcome m).
Proof.
  unfold collect_survivor, survives. intros H. inv_bind H.
  rewrite (summary_detected_is_detected _ _ E).
  destruct a; simpl negb in *; cbv iota in H.
  - left. split; [reflexivity | ]. congruence.
  - right. split; [reflexivity | ].
    apply bind_ok_inv in H. destruct H as (f & Hf & H).
    apply bind_ok_inv in H. destruct H as (fn & Hfn & H).
    apply bind_ok_inv in H. destruct H as (ln & Hln & H).
    apply bind_ok_inv in H. destruct H as (s & Hs & H).
    injection H as <-. eexists. split; [reflexivity | ].
    repeat split; assumption.
Qed.

Lemma for_each_collect_survivor items : forall surviving r,
  for_each collect_survivor items surviving = Ok r ->
  exists listed,
    r = (surviving ++ listed)%list
    /\ Forall2 listed_as (filter survives items) listed.
Proof.
  induction items as [ | o items IH]; intros surviving r H.
  - simpl in H. injection H as <-. exists []. rewrite app_nil_r. split; constructor.
  - rewrite for_each_cons in H. inv_bind H.
    destruct (IH _ _ H) as (listed & -> & Hall).
    simpl filter.
    destruct (collect_survivor_inv _ _ _ E) as [[Hs ->] | (Hs & m & -> & Hm)]; rewrite Hs.
    + exists listed. split; [reflexivity | assumption].
    + exists (m :: listed). rewrite <- app_assoc. split; [reflexivity | ].
      constructor; assumption.
Qed.

Lemma listed_summary_not_detected outcome m :
  survives outcome = true -> listed_as outcome m ->
  py_in_strs (m_summary m) ["caught"; "timeout"] = false.
Proof.
  unfold survives, is_detected. intros Hs (_ & _ & _ & Hsum).
  destruct (py_get_ok_dict _ _ _ _ Hsum) as [fields ->].
  rewrite summary_detected_dict in Hs. simpl in Hsum. injection Hsum as <-.
  unfold Dict.get_default in *.
  destruct (Dict.get "summary" fields) as [v | ]; [ | reflexivity].
  destruct (py_in_strs v ["caught"; "timeout"]); [discriminate Hs | reflexivity].
Qed.

Lemma analyze_surviving_mutants_inv data surviving :
  analyze_surviving_mutants data = Ok surviving ->
  exists outcomes items,
    py_get data "outcomes" (PList []) = Ok outcomes
    /\ py_iter outcomes = Ok items
    /\ Forall2 listed_as (filter survives items) surviving.
Proof.
  unfold analyze_surviving_mutants. intros H.
  inv_bind H. rename a into outcomes. inv_bind H. rename a into items.
  destruct (for_each_collect_survivor _ _ _ H) as (listed & -> & Hall).
  exists outcomes, items. auto.
Qed.

Lemma survivors_length data s c t surviving :
  calculate_mutation_score data = Ok (s, c, t) ->
  analyze_surviving_mutants data = Ok surviving ->
  Z.of_nat (List.length surviving) = t - c.
Proof.
  intros Hs Hsv.
  destruct (analyze_surviving_mutants_inv _ _ Hsv) as (outcomes & items & Ho & Hi & Hall).
  destruct (calculate_mutation_score_inv _ _ _ _ Hs)
    as (outcomes' & items' & Ho' & Hi' & _ & -> & -> & _).
  rewrite Ho in Ho'. injection Ho' as <-. rewrite Hi in Hi'. injection Hi' as <-.
  rewrite <- (Forall2_length Hall). unfold detected_count.
  assert (Hl := filter_length_split is_detected items).
  unfold survives. lia.
Qed.

Lemma forallb_firstn {A : Type} (f : A -> bool) n : forall l,
  forallb f l = true -> forallb f (firstn n l) = true.
Proof.
  induction n as [ | n IH]; intros [ | x l] H; try reflexivity.
  simpl in H. apply andb_prop in H. destruct H as [Hx H].
  simpl. rewrite Hx. apply IH, H.
Qed.

(** A record that can be printed is listed as a mutant that can. *)
Lemma listed_encodable outcome m :
  listed_as outcome m -> record_encodable outcome = true -> mutant_encodable m = true.
Proof.
  unfold record_encodable, mutant_encodable. intros (Hf & Hfn & Hl & Hs) Hr.
  apply andb_prop in Hr. destruct Hr as [Hr Hrs].
  apply andb_prop in Hr. destruct Hr as [Hr Hrl].
  apply andb_prop in Hr. destruct Hr as [Hrf Hrfn].
  rewrite (scenario_field_encodable _ _ _ _ Hf Hrf eq_refl).
  rewrite (scenario_field_encodable _ _ _ _ Hl Hrl eq_refl).
  rewrite (scenario_field_encodable _ _ _ _ Hfn Hrfn eq_refl).
  destruct (py_get_ok_dict _ _ _ _ Hs) as [fields ->].
  simpl in Hs, Hrs. injection Hs as <-.
  unfold Dict.get_default in *.
  destruct (Dict.get "summary" fields); [rewrite Hrs | ]; reflexivity.
Qed.

Lemma survivors_encodable items : forall surviving,
  Forall2 listed_as (filter survives items) surviving ->
  forallb record_encodable items = true ->
  forallb mutant_encodable surviving = true.
Proof.
  induction items as [ | o items IH]; intros surviving Hall Hr.
  - inversion Hall; subst. reflexivity.
  - simpl in Hr. apply andb_prop in Hr. destruct Hr as [Ho Hr].
    simpl filter in Hall. destruct (survives o).
    + inversion Hall as [ | ? m ? ms Hm Hall']; subst.
      simpl. rewrite (listed_encodable _ _ Hm Ho). apply IH; assumption.
    + apply IH; assumption.
Qed.

(** ** Entries of the table of crates *)

Lemma get_set_other {V : Type} k k' (v : V) d :
  k <> k' -> Dict.get k' (Dict.set k v d) = Dict.get k' d.
Proof.
  intros Hne. induction d as [ | [k0 v0] d IH]; simpl.
  - apply String.eqb_neq in Hne. rewrite String.eqb_sym, Hne. reflexivity.
  - destruct (String.eqb k k0) eqn:E; simpl.
    + apply String.eqb_eq in E. subst k0.
      apply String.eqb_neq in Hne. rewrite String.eqb_sym, Hne. reflexivity.
    + destruct (String.eqb k' k0); auto.
Qed.

Lemma for_each_count_outcome_crate items : forall crate_stats crate_stats' crate,
  for_each count_outcome items crate_stats = Ok crate_stats' ->
  crate_total crate_stats' crate
  = crate_total crate_stats crate + Z.of_nat (List.length (filter (crate_is crate) items))
  /\ crate_caught crate_stats' crate
     = crate_caught crate_stats crate + detected_count (filter (crate_is crate) items).
Proof.
  induction items as [ | o items IH]; intros cs cs' crate H.
  - simpl in H. injection H as <-. unfold detected_count. simpl. lia.
  - rewrite for_each_cons in H. inv_bind H.
    destruct (count_outcome_inv _ _ _ E) as (name & d & Hn & Hd).
    rewrite (count_outcome_eq _ _ _ _ Hn Hd) in E. injection E as <-.
    destruct (IH _ _ crate H) as [Ht Hc]. rewrite Ht, Hc. clear IH Ht Hc H.
    assert (Hci : crate_is crate o = String.eqb name crate).
    { unfold crate_is. rewrite Hn. reflexivity. }
    simpl filter. rewrite Hci.
    unfold crate_total, crate_caught.
    destruct (String.eqb name crate) eqn:En.
    + apply String.eqb_eq in En. subst crate. rewrite !get_set_same.
      rewrite detected_count_cons, (summary_detected_is_detected _ _ Hd).
      simpl total. simpl caught. simpl List.length.
      fold (crate_total cs name). fold (crate_caught cs name). lia.
    + apply String.eqb_neq in En. rewrite !(get_set_other _ _ _ _ En). lia.
Qed.

Lemma scores_lookup cstats : forall acc crate_scores crate,
  Forall (fun kv => 0 < total (snd kv) /\ 0 <= caught (snd kv) <= total (snd kv)) cstats ->
  NoDup (Dict.keys cstats) ->
  for_each score_of_counts cstats acc = Ok crate_scores ->
  match Dict.get crate cstats with
  | Some c =>
      exists x, percentage (caught c) (total c) = Ok x
                /\ Dict.get crate crate_scores = Some (x, caught c, total c)
  | None => Dict.get crate crate_scores = Dict.get crate acc
  end.
Proof.
  induction cstats as [ | [k c] cstats IH]; intros acc cs crate Hall Hnd H.
  - simpl in H. injection H as <-. reflexivity.
  - inversion Hall as [ | ? ? Hc Hall']; subst. simpl in Hc.
    inversion Hnd as [ | ? ? Hnotin Hnd']; subst.
    rewrite for_each_cons in H. unfold score_of_counts at 1 in H.
    replace (0 <? total c) with true in H by (symmetry; apply Z.ltb_lt; lia).
    destruct (percentage_range (caught c) (total c)) as (x & Hx & _); [lia | lia | ].
    rewrite Hx in H. cbn [bind] in H.
    specialize (IH _ _ crate Hall' Hnd' H).
    simpl Dict.get. destruct (String.eqb crate k) eqn:E.
    + apply String.eqb_eq in E. subst crate.
      exists x. split; [assumption | ].
      replace (Dict.get k cstats) with (@None crate_counts) in IH
        by (symmetry; apply get_none_not_in; exact Hnotin).
      rewrite IH. apply get_set_same.
    + apply String.eqb_neq in E.
      destruct (Dict.get crate cstats); [exact IH | ].
      rewrite IH. apply get_set_other. congruence.
Qed.

(** The table has one entry per crate name met among the records and no
    other; the entry of a crate counts the records of the crate and the
    detected ones among them. *)
Lemma crate_table_entries data crate_scores :
  calculate_per_crate_scores data = Ok crate_scores ->
  exists outcomes items,
    py_get data "outcomes" (PList []) = Ok outcomes
    /\ py_iter outcomes = Ok items
    /\ NoDup (Dict.keys crate_scores)
    /\ forall crate,
         match Dict.get crate crate_scores with
         | Some (x, ca, to) =>
             to = Z.of_nat (List.length (filter (crate_is crate) items))
             /\ ca = detected_count (filter (crate_is crate) items)
             /\ 0 < to
             /\ percentage ca to = Ok x
         | None => filter (crate_is crate) items = []
         end.
Proof.
  intros Hc.
  destruct (calculate_per_crate_scores_inv _ _ Hc)
    as (outcomes & items & cstats & Ho & Hi & Hfe & [Hnd _] & _).
  exists outcomes, items. split; [assumption | ]. split; [assumption | ].
  split; [assumption | ]. intros crate.
  unfold calculate_per_crate_scores in Hc. rewrite Ho in Hc. cbn [bind] in Hc.
  rewrite Hi in Hc. cbn [bind] in Hc. rewrite Hfe in Hc. cbn [bind] in Hc.
  destruct (for_each_count_outcome _ _ _ counts_ok_nil Hfe) as ([Hnd' Hall] & _).
  assert (Hlook := scores_lookup _ _ _ crate Hall Hnd' Hc).
  destruct (for_each_count_outcome_crate _ _ _ crate Hfe) as [Ht Hcg].
  unfold crate_total, crate_caught in Ht, Hcg. simpl Dict.get in Ht, Hcg.
  destruct (Dict.get crate cstats) as [c | ] eqn:Eg.
  - destruct Hlook as (x & Hx & ->).
    apply get_some_in in Eg. rewrite Forall_forall in Hall.
    specialize (Hall _ Eg). simpl in Hall.
    repeat split; try lia. assumption.
  - rewrite Hlook. simpl.
    destruct (filter (crate_is crate) items); [reflexivity | simpl in Ht; lia].
Qed.

(** Every crate of the table is the crate of one record at least. *)
Lemma crate_key_of_record data crate_scores items crate :
  calculate_per_crate_scores data = Ok crate_scores ->
  (exists outcomes, py_get data "outcomes" (PList []) = Ok outcomes
                    /\ py_iter outcomes = Ok items) ->
  In crate (Dict.keys crate_scores) ->
  exists outcome, In outcome items /\ crate_name_of outcome = Ok crate.
Proof.
  intros Hc (outcomes & Ho & Hi) Hin.
  destruct (crate_table_entries _ _ Hc) as (outcomes' & items' & Ho' & Hi' & _ & Hent).
  rewrite Ho in Ho'. injection Ho' as <-. rewrite Hi in Hi'. injection Hi' as <-.
  specialize (Hent crate). unfold stats in *.
  destruct (Dict.get crate crate_scores) as [[[x ca] to] | ] eqn:E.
  - destruct Hent as (Hto & _ & Hpos & _).
    destruct (filter (crate_is crate) items) as [ | o os] eqn:Ef;
      [simpl in Hto; lia | ].
    assert (Ho' : In o (filter (crate_is crate) items)) by (rewrite Ef; left; reflexivity).
    apply filter_In in Ho'. destruct Ho' as [Hoin Hcr].
    exists o. split; [exact Hoin | ].
    unfold crate_is in Hcr. destruct (crate_name_of o) as [name | e]; [ | discriminate Hcr].
    apply String.eqb_eq in Hcr. subst name. reflexivity.
  - exfalso. apply get_none_not_in in E. apply E, Hin.
Qed.

(** The test of the script and the reading of the specification agree on
    every value. *)
Lemma is_detected_summary outcome :
  is_detected outcome = summary_is_caught_or_timeout outcome.
Proof.
  unfold is_detected, summary_is_caught_or_timeout, summary_is.
  destruct outcome as [ | | | | | | fields]; try reflexivity.
  rewrite summary_detected_dict. unfold py_in_strs, Dict.get_default. simpl existsb.
  destruct (Dict.get "summary" fields) as [v | ]; [ | reflexivity].
  destruct v; try reflexivity. simpl py_eq_str. rewrite orb_false_r.
  destruct (String.eqb _ "caught" || String.eqb _ "timeout"); reflexivity.
Qed.

Lemma filter_ext_eq {A : Type} (f g : A -> bool) l :
  (forall x, f x = g x) -> filter f l = filter g l.
Proof. intros H. apply filter_ext. exact H. Qed.

Lemma detected_count_summary items :
  detected_count items
  = Z.of_nat (List.length (filter summary_is_caught_or_timeout items)).
Proof.
  unfold detected_count. rewrite (filter_ext_eq _ _ items is_detected_summary).
  reflexivity.
Qed.

(** ** The lines of a report *)

Lemma print_report_fields s c t crate_scores surviving rep :
  print_report s c t crate_scores surviving = Ok rep ->
  let failed := filter (report_fails crate_scores) (sorted (Dict.keys crate_scores)) in
  let passed := F64.geb s OVERALL_THRESHOLD && is_nil failed in
  overall_line rep = (s, c, t)
  /\ overall_status_pass rep = F64.geb s OVERALL_THRESHOLD
  /\ surviving_count rep
     = (if is_nil surviving then None else Some (List.length surviving))
  /\ surviving_shown rep = firstn 10 surviving
  /\ surviving_more rep
     = (if (10 <? List.length surviving)%nat
        then Some (List.length surviving - 10)%nat else None)
  /\ banner_passed rep = passed
  /\ failed_crates_line rep
     = (if passed then None else if is_nil failed then None else Some failed)
  /\ shortfall_line rep = negb passed && F64.ltb s OVERALL_THRESHOLD.
Proof.
  intros H. destruct (print_report_inv _ _ _ _ _ _ H) as (_ & _ & _ & _ & Hrest).
  exact Hrest.
Qed.

(** ** The whole run *)

Lemma analyze_surviving_mutants_total data crate_scores :
  calculate_per_crate_scores data = Ok crate_scores ->
  exists surviving, analyze_surviving_mutants data = Ok surviving.
Proof.
  intros Hc.
  destruct (calculate_per_crate_scores_inv _ _ Hc)
    as (outcomes & items & cstats & Ho & Hi & Hfe & _).
  destruct (survivors_total _ _ _ Hfe) as [surviving Hsv].
  exists surviving. unfold analyze_surviving_mutants.
  rewrite Ho. cbn [bind]. rewrite Hi. cbn [bind]. exact Hsv.
Qed.

Lemma run_unfold data s c t crate_scores surviving :
  calculate_mutation_score data = Ok (s, c, t) ->
  calculate_per_crate_scores data = Ok crate_scores ->
  analyze_surviving_mutants data = Ok surviving ->
  run data
  = (rep <- print_report s c t crate_scores surviving ;;
     Ok (rep,
         if F64.ltb s OVERALL_THRESHOLD || negb (is_nil (failed_crates_of crate_scores))
         then 1 else 0)).
Proof.
  intros Hs Hc Hsv. unfold run. rewrite Hs. cbn [bind]. rewrite Hc. cbn [bind].
  rewrite Hsv. cbn [bind].
  destruct (print_report s c t crate_scores surviving) as [rep | e]; [ | reflexivity].
  cbn [bind].
  destruct (failed_crates_of crate_scores); simpl negb;
    destruct (F64.ltb s OVERALL_THRESHOLD); reflexivity.
Qed.

Lemma run_inv data rep status :
  run data = Ok (rep, status) ->
  exists s c t crate_scores surviving,
    calculate_mutation_score data = Ok (s, c, t)
    /\ calculate_per_crate_scores data = Ok crate_scores
    /\ analyze_surviving_mutants data = Ok surviving
    /\ print_report s c t crate_scores surviving = Ok rep
    /\ status = (if F64.ltb s OVERALL_THRESHOLD
                    || negb (is_nil (failed_crates_of crate_scores))
                 then 1 else 0).
Proof.
  unfold run. intros H.
  apply bind_ok_inv in H. destruct H as ([[s c] t] & Hs & H).
  apply bind_ok_inv in H. destruct H as (cs & Hc & H).
  apply bind_ok_inv in H. destruct H as (sv & Hsv & H).
  apply bind_ok_inv in H. destruct H as (rep' & Hrep & H).
  exists s, c, t, cs, sv. repeat (split; [assumption | ]).
  assert (Hrep' : rep' = rep /\ status = (if F64.ltb s OVERALL_THRESHOLD
                    || negb (is_nil (failed_crates_of cs)) then 1 else 0)).
  { destruct (failed_crates_of cs); simpl negb;
      destruct (F64.ltb s OVERALL_THRESHOLD); simpl in H; injection H as <- <-;
      split; reflexivity. }
  destruct Hrep' as [-> ->]. split; [assumption | reflexivity].
Qed.

Lemma run_raises_score data e :
  calculate_mutation_score data = Raise e -> run data = Raise e.
Proof. intros H. unfold run. rewrite H. reflexivity. Qed.

Lemma run_raises_crates data st e :
  calculate_mutation_score data = Ok st ->
  calculate_per_crate_scores data = Raise e -> run data = Raise e.
Proof.
  intros Hs H. unfold run. rewrite Hs. cbn [bind]. destruct st as [[s c] t].
  rewrite H. reflexivity.
Qed.

(** Once the two passes have returned, the run returns exactly when the
    report can be printed, and raises [UnicodeEncodeError] when not. *)
Lemma run_spec data s c t crate_scores :
  calculate_mutation_score data = Ok (s, c, t) ->
  calculate_per_crate_scores data = Ok crate_scores ->
  exists surviving,
    analyze_surviving_mutants data = Ok surviving
    /\ ((exists rep,
            print_report s c t crate_scores surviving = Ok rep
            /\ run data
               = Ok (rep,
                     if F64.ltb s OVERALL_THRESHOLD
                        || negb (is_nil (failed_crates_of crate_scores))
                     then 1 else 0))
        \/ (print_report s c t crate_scores surviving = Raise UnicodeEncodeError
            /\ run data = Raise UnicodeEncodeError)).
Proof.
  intros Hs Hc.
  destruct (analyze_surviving_mutants_total _ _ Hc) as [surviving Hsv].
  exists surviving. split; [exact Hsv | ].
  rewrite (run_unfold _ _ _ _ _ _ Hs Hc Hsv).
  destruct (print_report s c t crate_scores surviving) as [rep | e] eqn:Hrep.
  - left. exists rep. split; reflexivity.
  - right. destruct (print_report_raise _ _ _ _ _ _ Hrep) as [-> _].
    split; reflexivity.
Qed.

Lemma main_loaded prog file rest fs data :
  fs file = Some (Ok data) ->
  main (prog :: file :: rest) fs
  = ('(rep, status) <- run data ;; Ok (Some rep, status)).
Proof. intros H. unfold main. rewrite H. reflexivity. Qed.

(** The closing banner and the exit status of a run that returns. *)
Lemma run_banner_status data rep status :
  run data = Ok (rep, status) ->
  (status = 0 \/ status = 1) /\ (banner_passed rep = true <-> status = 0).
Proof.
  intros H.
  destruct (run_inv _ _ _ H) as (s & c & t & cs & sv & Hs & Hc & _ & Hrep & ->).
  destruct (calculate_per_crate_scores_inv _ _ Hc)
    as (outcomes & items & cstats & _ & _ & _ & Hok & _).
  destruct (print_report_inv _ _ _ _ _ _ Hrep)
    as (_ & _ & _ & _ & _ & _ & _ & _ & _ & Hbanner & _).
  rewrite Hbanner, (overall_score_comparable _ _ _ _ Hs),
    (is_nil_perm _ _ (failed_in_report_perm _ Hok)).
  destruct (F64.ltb s OVERALL_THRESHOLD), (is_nil (failed_crates_of cs)); simpl;
    (split; [auto | split; intros H'; (reflexivity || discriminate H')]).
Qed.

(** ** The model on concrete inputs *)

Example true_div_85_100 :
  F64.int_true_div 85 100 = Ok (S754_finite false 7656119366529843 (-53)).
Proof. vm_compute. reflexivity. Qed.

Example true_div_beyond_2_53 :
  F64.int_true_div 9007199254740993 9007199254740994
  = Ok (S754_finite false 9007199254740991 (-53)).
Proof. vm_compute. reflexivity. Qed.

Example percentage_2_3 :
  percentage 2 3 = Ok (S754_finite false 4691249611844266 (-46)).
Proof. vm_compute. reflexivity. Qed.

Example percentage_16_20 : percentage 16 20 = Ok (F64.of_Z 80).
Proof. vm_compute. reflexivity. Qed.

Example split_marker :
  Str.split "crates/" "a/crates/b/c/crates/d" = ["a/"; "b/c/"; "d"].
Proof. reflexivity. Qed.

Example split_trailing : Str.split "crates/" "acrates/" = ["a"; ""].
Proof. reflexivity. Qed.

Example crate_of_usual_path :
  crate_name_of_path (PStr "crates/decy-core/src/lib.rs") = Ok "decy-core".
Proof. reflexivity. Qed.

Example crate_of_component_ending_in_crates :
  crate_name_of_path (PStr "crates/mycrates/src/lib.rs") = Ok "my".
Proof. reflexivity. Qed.

Example crate_of_component_ending_the_path :
  crate_name_of_path (PStr "crates/mycrates") = Ok "mycrates".
Proof. reflexivity. Qed.

Example crate_of_number : crate_name_of_path (PInt 3) = Raise TypeError.
Proof. reflexivity. Qed.

Example sorted_code_points : sorted ["b"; "a"; "unknown"; "Z"] = ["Z"; "a"; "b"; "unknown"].
Proof. reflexivity. Qed.

Example surrogate_found : Str.has_surrogate ("crates/" ++ lone_surrogate ++ "/x.rs") = true.
Proof. reflexivity. Qed.

Example utf8_text_has_no_surrogate :
  Str.has_surrogate (String "237"%char (String "159"%char (String "191"%char ""))) = false.
Proof. reflexivity. Qed.

Example print_of_surrogate :
  py_print [PStr "crates/x/a.rs"; PInt 7; PStr lone_surrogate] = Raise UnicodeEncodeError.
Proof. reflexivity. Qed.

Example print_of_list_with_surrogate :
  py_print [PList [PStr lone_surrogate]] = Ok tt.
Proof. reflexivity. Qed.

Example exit_status_of_mixed_sample :
  exit_status (run sample_mixed) = 1.
Proof. vm_compute. reflexivity. Qed.

Example exit_status_of_surrogate_crate :
  exit_status (run sample_surrogate_crate) = 1.
Proof. vm_compute. reflexivity. Qed.

(** ** Claims *)




Lemma py_eq_str_true v s : py_eq_str v s = true <-> v = PStr s.
Proof.
  destruct v; simpl; try (split; [discriminate | intros H; discriminate H]).
  rewrite String.eqb_eq. split; [intros ->; reflexivity | intros [= ->]; reflexivity].
Qed.

Lemma summary_in_strs fields :
  py_in_strs (Dict.get_default "summary" PNone fields) ["caught"; "timeout"] = true
  <-> (Dict.get "summary" fields = Some (PStr "caught")
       \/ Dict.get "summary" fields = Some (PStr "timeout")).
Proof.
  unfold py_in_strs, Dict.get_default. simpl existsb.
  rewrite orb_false_r, orb_true_iff, !py_eq_str_true.
  destruct (Dict.get "summary" fields) as [v | ].
  - split; intros [H | H]; [left | right | left | right]; congruence.
  - split; intros [H | H]; discriminate H.
Qed.

Lemma for_each_tally_dicts items : forall acc r,
  for_each tally items acc = Ok r ->
  Forall (fun outcome => exists fields, outcome = PDict fields) items.
Proof.
  apply (for_each_ok_forall tally).
  intros [t c] o r H. unfold tally in H.
  apply bind_ok_inv in H. destruct H as (d & Hd & _).
  unfold summary_detected in Hd.
  apply bind_ok_inv in Hd. destruct Hd as (v & Hv & _).
  exact (py_get_ok_dict _ _ _ _ Hv).
Qed.

(** C2. The detected count that [calculate_mutation_score] returns is the
    number of records whose summary is 'caught' or 'timeout', and the
    detected count that [calculate_per_crate_scores] returns for a crate is
    the number of such records among the records of the crate, while the
    totals count every record; a record with any other summary, or with
    none, adds to the totals only.  On every record the test of the script
    is that reading of the summary. *)
Theorem C2_detected_iff_caught_or_timeout data s c t crate_scores :
  calculate_mutation_score data = Ok (s, c, t) ->
  calculate_per_crate_scores data = Ok crate_scores ->
  exists outcomes items,
    py_get data "outcomes" (PList []) = Ok outcomes
    /\ py_iter outcomes = Ok items
    /\ t = Z.of_nat (List.length items)
    /\ c = Z.of_nat (List.length (filter summary_is_caught_or_timeout items))
    /\ (forall crate,
           match Dict.get crate crate_scores with
           | Some (x, ca, to) =>
               to = Z.of_nat (List.length (filter (crate_is crate) items))
               /\ ca = Z.of_nat
                         (List.length
                            (filter summary_is_caught_or_timeout
                                    (filter (crate_is crate) items)))
           | None => filter (crate_is crate) items = []
           end)
    /\ (forall outcome,
           In outcome items ->
           exists fields,
             outcome = PDict fields
             /\ summary_detected outcome = Ok (summary_is_caught_or_timeout outcome)
             /\ (summary_is_caught_or_timeout outcome = true <->
                 (Dict.get "summary" fields = Some (PStr "caught")
                  \/ Dict.get "summary" fields = Some (PStr "timeout")))).
Proof.
  intros Hs Hc.
  destruct (calculate_mutation_score_inv _ _ _ _ Hs)
    as (outcomes & items & Ho & Hi & [tc Htc] & -> & -> & _).
  destruct (crate_table_entries _ _ Hc) as (outcomes' & items' & Ho' & Hi' & _ & Hent).
  rewrite Ho in Ho'. injection Ho' as <-. rewrite Hi in Hi'. injection Hi' as <-.
  exists outcomes, items. split; [exact Ho | ]. split; [exact Hi | ].
  split; [reflexivity | ]. split; [apply detected_count_summary | ]. split.
  - intros crate. specialize (Hent crate). unfold stats in *.
    destruct (Dict.get crate crate_scores) as [[[x ca] to] | ]; [ | exact Hent].
    destruct Hent as (Hto & Hca & _). split; [exact Hto | ].
    rewrite Hca. apply detected_count_summary.
  - intros outcome Hin.
    assert (Hd := for_each_tally_dicts _ _ _ Htc).
    rewrite Forall_forall in Hd. destruct (Hd _ Hin) as [fields ->].
    exists fields. split; [reflexivity | ].
    rewrite <- is_detected_summary. unfold is_detected.
    rewrite summary_detected_dict. split.
    + destruct (py_in_strs _ _); reflexivity.
    + rewrite <- summary_in_strs. destruct (py_in_strs _ _); tauto.
Qed.

Lemma C2_detected_iff_caught_or_timeout_witness :
  calculate_mutation_score sample_mixed = Ok (F64.of_Z 75, 3, 4)
  /\ calculate_per_crate_scores sample_mixed
     = Ok [("b", (F64.of_Z 100, 2, 2)); ("a", (F64.zero, 0, 1));
           ("unknown", (F64.of_Z 100, 1, 1))]
  /\ exists outcomes items,
       py_get sample_mixed "outcomes" (PList []) = Ok outcomes
       /\ py_iter outcomes = Ok items
       /\ 4 = Z.of_nat (List.length items)
       /\ 3 = Z.of_nat (List.length (filter summary_is_caught_or_timeout items))
       /\ (forall crate,
              match Dict.get crate [("b", (F64.of_Z 100, 2, 2)); ("a", (F64.zero, 0, 1));
                                    ("unknown", (F64.of_Z 100, 1, 1))] with
              | Some (x, ca, to) =>
                  to = Z.of_nat (List.length (filter (crate_is crate) items))
                  /\ ca = Z.of_nat
                            (List.length
                               (filter summary_is_caught_or_timeout
                                       (filter (crate_is crate) items)))
              | None => filter (crate_is crate) items = []
              end)
       /\ (forall outcome,
              In outcome items ->
              exists fields,
                outcome = PDict fields
                /\ summary_detected outcome = Ok (summary_is_caught_or_timeout outcome)
                /\ (summary_is_caught_or_timeout outcome = true <->
                    (Dict.get "summary" fields = Some (PStr "caught")
                     \/ Dict.get "summary" fields = Some (PStr "timeout")))).
Proof.
  split; [vm_compute; reflexivity | ]. split; [vm_compute; reflexivity | ].
  apply (C2_detected_iff_caught_or_timeout sample_mixed (F64.of_Z 75) 3 4);
    vm_compute; reflexivity.
Defined.

(** C3. A crate of the table fails exactly when its score is strictly
    below its effective threshold, which is its entry of [THRESHOLDS] when
    there is one and 85.0 otherwise; the report, whenever its table is
    printed (as it is when no crate name holds a lone surrogate), and the
    exit status apply the same test, a score equal to the threshold
    passes, 85 out of 100 passes the threshold 85.0 and 84 out of 100
    fails it. *)
Theorem C3_module_fails_below_threshold data crate_scores crate x ca to :
  calculate_per_crate_scores data = Ok crate_scores ->
  In (crate, (x, ca, to)) crate_scores ->
  (In crate (failed_crates_of crate_scores) <-> F64.ltb x (threshold_of crate) = true)
  /\ (forall rows failed,
         for_each (report_row crate_scores) (sorted (Dict.keys crate_scores)) ([], [])
         = Ok (rows, failed) ->
         (In crate failed <-> F64.ltb x (threshold_of crate) = true))
  /\ (Forall (fun k => Str.has_surrogate k = false) (Dict.keys crate_scores) ->
      exists rows failed,
        for_each (report_row crate_scores) (sorted (Dict.keys crate_scores)) ([], [])
        = Ok (rows, failed))
  /\ threshold_of crate
     = match Dict.get crate THRESHOLDS with
       | Some t => t
       | None => F64.of_Z 85
       end
  /\ (x = threshold_of crate -> ~ In crate (failed_crates_of crate_scores))
  /\ percentage 85 100 = Ok (F64.of_Z 85)
  /\ F64.ltb (F64.of_Z 85) (F64.of_Z 85) = false
  /\ (exists y, percentage 84 100 = Ok y /\ F64.ltb y (F64.of_Z 85) = true).
Proof.
  intros Hc Hin.
  destruct (calculate_per_crate_scores_inv _ _ Hc)
    as (outcomes & items & cstats & _ & _ & _ & Hok & _).
  assert (Hf := report_fails_entry _ _ _ _ _ Hok Hin).
  assert (Hk := in_keys _ _ _ Hin).
  assert (Hmain : In crate (failed_crates_of crate_scores)
                  <-> F64.ltb x (threshold_of crate) = true).
  { rewrite (failed_crates_of_keys _ Hok), filter_In, Hf. tauto. }
  split; [exact Hmain | ]. split.
  { intros rows failed Hr.
    destruct (report_rows_inv _ _ _ _ _ _ Hr) as (_ & -> & _). simpl app.
    rewrite filter_In, Hf. split; [tauto | ]. intros H. split; [ | exact H].
    eapply Permutation_in; [apply Permutation_sym, sorted_perm | exact Hk]. }
  split.
  { intros Hnames. apply report_rows_ok.
    - intros k Hk'. eapply Permutation_in; [apply sorted_perm | exact Hk'].
    - apply Forall_forall. intros k Hk'. rewrite Forall_forall in Hnames.
      apply Hnames. eapply Permutation_in; [apply sorted_perm | exact Hk']. }
  split; [reflexivity | ]. split.
  { intros -> H. apply Hmain in H. rewrite ltb_irrefl in H. discriminate H. }
  split; [vm_compute; reflexivity | ]. split; [vm_compute; reflexivity | ].
  exists (S754_finite false 5910974510923776 (-46)).
  split; vm_compute; reflexivity.
Qed.

Lemma C3_module_fails_below_threshold_witness :
  calculate_per_crate_scores sample_passing = Ok [("decy-core", (F64.of_Z 100, 1, 1))]
  /\ In ("decy-core", (F64.of_Z 100, 1, 1)) [("decy-core", (F64.of_Z 100, 1, 1))]
  /\ (In "decy-core" (failed_crates_of [("decy-core", (F64.of_Z 100, 1, 1))])
      <-> F64.ltb (F64.of_Z 100) (threshold_of "decy-core") = true).
Proof.
  split; [vm_compute; reflexivity | ]. split; [left; reflexivity | ].
  apply (C3_module_fails_below_threshold sample_passing
           [("decy-core", (F64.of_Z 100, 1, 1))] "decy-core" (F64.of_Z 100) 1 1).
  - vm_compute. reflexivity.
  - left. reflexivity.
Defined.

(** C4. The detected counts of the crates add up to the overall detected
    count and their totals to the overall total: every record is counted
    in one crate and one only. *)
Theorem C4_counts_partition data s c t crate_scores :
  calculate_mutation_score data = Ok (s, c, t) ->
  calculate_per_crate_scores data = Ok crate_scores ->
  sum_stats_caught crate_scores = c /\ sum_stats_total crate_scores = t.
Proof.
  intros Hs Hc.
  destruct (calculate_mutation_score_inv _ _ _ _ Hs)
    as (outcomes & items & Ho & Hi & _ & -> & -> & _).
  destruct (calculate_per_crate_scores_inv _ _ Hc)
    as (outcomes' & items' & cstats & Ho' & Hi' & _ & _ & Ht & Hcg).
  rewrite Ho in Ho'. injection Ho' as <-.
  rewrite Hi in Hi'. injection Hi' as <-.
  split; assumption.
Qed.

Lemma C4_counts_partition_witness :
  calculate_mutation_score sample_mixed = Ok (F64.of_Z 75, 3, 4)
  /\ calculate_per_crate_scores sample_mixed
     = Ok [("b", (F64.of_Z 100, 2, 2)); ("a", (F64.zero, 0, 1));
           ("unknown", (F64.of_Z 100, 1, 1))]
  /\ sum_stats_caught [("b", (F64.of_Z 100, 2, 2)); ("a", (F64.zero, 0, 1));
                       ("unknown", (F64.of_Z 100, 1, 1))] = 3
  /\ sum_stats_total [("b", (F64.of_Z 100, 2, 2)); ("a", (F64.zero, 0, 1));
                      ("unknown", (F64.of_Z 100, 1, 1))] = 4.
Proof.
  split; [vm_compute; reflexivity | ]. split; [vm_compute; reflexivity | ].
  apply (C4_counts_partition sample_mixed (F64.of_Z 75) 3 4); vm_compute; reflexivity.
Defined.

(** C5, as stated: when the path has ['crates/'] as a segment, the crate is
    the component that follows it.  In this path the segments are
    [mycrates], [alpha], [crates], [beta], [src] and [lib.rs], and the
    component that follows the segment [crates] is [beta]; the script
    cuts at the first ['crates/'] it finds in the text, which ends the
    segment [mycrates], and answers [alpha]. *)
Lemma C5_counterexample :
  Str.split "/" "mycrates/alpha/crates/beta/src/lib.rs"
  = ["mycrates"; "alpha"; "crates"; "beta"; "src"; "lib.rs"]
  /\ crate_name_of_path (PStr "mycrates/alpha/crates/beta/src/lib.rs") = Ok "alpha"
  /\ crate_name_of
       (PDict [("scenario",
                PDict [("file", PStr "mycrates/alpha/crates/beta/src/lib.rs")])])
     = Ok "alpha"
  /\ "alpha" <> "beta".
Proof. repeat split. discriminate. Qed.

(** C5, amended. The crate of an outcome is a function of its file path
    alone.  The marker ['crates/'] is searched as a piece of text, from the
    left: the crate is what stands between its first occurrence and the
    next ['/'] or the end of the path, for a component that ends the path
    or does not itself run into another ['crates/']; a path without
    ['crates/'] gives ['unknown']. *)
Theorem C5_crate_from_first_marker pre comp rest :
  Str.contains "crates/" (pre ++ "crates") = false ->
  Str.contains "/" comp = false ->
  rest = ""
  \/ (exists r, rest = "/" ++ r /\ Str.contains "crates/" (comp ++ "/") = false) ->
  crate_name_of_path (PStr (pre ++ "crates/" ++ comp ++ rest)) = Ok comp
  /\ (forall s, Str.contains "crates/" s = false ->
                crate_name_of_path (PStr s) = Ok "unknown")
  /\ (forall outcome,
         crate_name_of outcome
         = (file_path <- scenario_field outcome "file" (PStr "") ;;
            crate_name_of_path file_path)).
Proof.
  intros Hfirst Hslash Hrest. split; [ | split].
  - apply crate_name_of_path_component; assumption.
  - apply crate_name_of_path_unknown.
  - reflexivity.
Qed.

Lemma C5_crate_from_first_marker_witness :
  Str.contains "crates/" ("" ++ "crates") = false
  /\ Str.contains "/" "decy-core" = false
  /\ ("/src/lib.rs" = ""
      \/ (exists r, "/src/lib.rs" = "/" ++ r
                    /\ Str.contains "crates/" ("decy-core" ++ "/") = false))
  /\ crate_name_of_path (PStr ("" ++ "crates/" ++ "decy-core" ++ "/src/lib.rs"))
     = Ok "decy-core".
Proof.
  split; [reflexivity | ]. split; [reflexivity | ].
  split; [right; exists "src/lib.rs"; split; reflexivity | ].
  apply (C5_crate_from_first_marker "" "decy-core" "/src/lib.rs").
  - reflexivity.
  - reflexivity.
  - right. exists "src/lib.rs". split; reflexivity.
Defined.

Lemma run_no_outcomes d :
  Dict.get "outcomes" d = None \/ Dict.get "outcomes" d = Some (PList []) ->
  calculate_mutation_score (PDict d) = Ok (F64.zero, 0, 0)
  /\ calculate_per_crate_scores (PDict d) = Ok []
  /\ analyze_surviving_mutants (PDict d) = Ok []
  /\ run (PDict d) = run (PDict [("outcomes", PList [])]).
Proof.
  intros H.
  assert (Ho : Dict.get_default "outcomes" (PList []) d = PList []).
  { unfold Dict.get_default. destruct H as [-> | ->]; reflexivity. }
  unfold run, calculate_mutation_score, calculate_per_crate_scores,
    analyze_surviving_mutants, py_get.
  cbn [bind]. rewrite Ho. repeat split; reflexivity.
Qed.

(** C6. On a document whose outcomes are an empty array the overall result
    is score 0.0 with 0 detected out of 0, no exception is raised, the table
    of crates is empty, and the run ends with status 1 because 0.0 is below
    the default threshold 85.0. *)
Theorem C6_empty_outcomes d :
  Dict.get "outcomes" d = Some (PList []) ->
  calculate_mutation_score (PDict d) = Ok (F64.zero, 0, 0)
  /\ calculate_per_crate_scores (PDict d) = Ok []
  /\ (exists rep, run (PDict d) = Ok (rep, 1) /\ banner_passed rep = false)
  /\ F64.ltb F64.zero (F64.of_Z 85) = true
  /\ (forall prog file rest fs,
         fs file = Some (Ok (PDict d)) ->
         exit_status (main (prog :: file :: rest) fs) = 1).
Proof.
  intros H.
  destruct (run_no_outcomes d (or_intror H)) as (Hs & Hc & _ & Hrun).
  split; [exact Hs | ]. split; [exact Hc | ].
  assert (Hr : exists rep, run (PDict d) = Ok (rep, 1) /\ banner_passed rep = false).
  { rewrite Hrun. eexists. split; reflexivity. }
  split; [exact Hr | ]. split; [reflexivity | ].
  intros prog file rest fs Hfs. rewrite (main_loaded _ _ _ _ _ Hfs).
  destruct Hr as (rep & -> & _). reflexivity.
Qed.

Lemma C6_empty_outcomes_witness :
  Dict.get "outcomes" [("outcomes", PList [])] = Some (PList [])
  /\ calculate_mutation_score (PDict [("outcomes", PList [])]) = Ok (F64.zero, 0, 0).
Proof.
  split; [reflexivity | ].
  apply (C6_empty_outcomes [("outcomes", PList [])]). reflexivity.
Defined.

(** C10. A top-level object without the key 'outcomes' is treated as one
    with an empty array of outcomes: 0.0 with 0 out of 0, no crate, no
    surviving mutant, and exit status 1; nothing reports the key as
    missing. *)
Theorem C10_missing_outcomes_key d :
  Dict.get "outcomes" d = None ->
  calculate_mutation_score (PDict d) = Ok (F64.zero, 0, 0)
  /\ calculate_per_crate_scores (PDict d) = Ok []
  /\ analyze_surviving_mutants (PDict d) = Ok []
  /\ run (PDict d) = run (PDict [("outcomes", PList [])])
  /\ (exists rep, run (PDict d) = Ok (rep, 1))
  /\ (forall prog file rest fs,
         fs file = Some (Ok (PDict d)) ->
         exit_status (main (prog :: file :: rest) fs) = 1).
Proof.
  intros H.
  destruct (run_no_outcomes d (or_introl H)) as (Hs & Hc & Ha & Hrun).
  split; [exact Hs | ]. split; [exact Hc | ]. split; [exact Ha | ].
  split; [exact Hrun | ].
  assert (Hr : exists rep, run (PDict d) = Ok (rep, 1)).
  { rewrite Hrun. eexists. reflexivity. }
  split; [exact Hr | ].
  intros prog file rest fs Hfs. rewrite (main_loaded _ _ _ _ _ Hfs).
  destruct Hr as (rep & ->). reflexivity.
Qed.

Lemma C10_missing_outcomes_key_witness :
  Dict.get "outcomes" [("version", PStr "25.0.0")] = None
  /\ analyze_surviving_mutants (PDict [("version", PStr "25.0.0")]) = Ok [].
Proof.
  split; [reflexivity | ].
  apply (C10_missing_outcomes_key [("version", PStr "25.0.0")]). reflexivity.
Defined.

(** C7, as stated: no document that parses raises downstream.  The first
    outcome of the first document has a string where the scenario object
    is expected, and the run ends in an [AttributeError]; the second
    document has every field of the expected type, and the run ends in a
    [UnicodeEncodeError] when the row of its crate is printed. *)
Lemma C7_counterexample :
  run (PDict [("outcomes",
               PList [PDict [("scenario", PStr "Baseline");
                             ("summary", PStr "Success")]])])
  = Raise AttributeError
  /\ document_ok sample_surrogate_crate = true
  /\ run sample_surrogate_crate = Raise UnicodeEncodeError.
Proof. vm_compute. repeat split. Qed.

Lemma forallb_record_ok items :
  forallb record_ok items = true -> Forall (fun o => record_ok o = true) items.
Proof. intros H. apply Forall_forall. apply forallb_forall. exact H. Qed.

Lemma document_ok_items data :
  document_ok data = true ->
  exists items,
    py_get data "outcomes" (PList []) = Ok (PList items)
    /\ Forall (fun o => record_ok o = true) items.
Proof.
  destruct data as [ | | | | | | d]; try discriminate.
  unfold document_ok, py_get, Dict.get_default.
  destruct (Dict.get "outcomes" d) as [v | ].
  - destruct v as [ | | | | | items | ]; try discriminate.
    intros H. exists items. split; [reflexivity | apply forallb_record_ok, H].
  - intros _. exists []. split; [reflexivity | constructor].
Qed.

Lemma document_ok_score data :
  document_ok data = true -> exists st, calculate_mutation_score data = Ok st.
Proof.
  intros H. destruct (document_ok_items _ H) as (items & Ho & Hall).
  unfold calculate_mutation_score. rewrite Ho. cbn [bind py_iter].
  destruct (for_each_total tally items) with (acc := (0, 0)) as [[t c] Ht].
  { apply Forall_impl with (2 := Hall). intros o Ho'. apply tally_total, Ho'. }
  rewrite Ht. cbn [bind].
  destruct (for_each_tally _ _ _ _ _ Ht) as [Htot Hcg].
  assert (Hb := detected_count_bounds items).
  destruct (t =? 0) eqn:E; [eauto | ].
  apply Z.eqb_neq in E.
  destruct (percentage_range c t) as (x & -> & _); [lia | lia | ].
  cbn [bind]. eauto.
Qed.

Lemma document_ok_crates data :
  document_ok data = true -> exists cs, calculate_per_crate_scores data = Ok cs.
Proof.
  intros H. destruct (document_ok_items _ H) as (items & Ho & Hall).
  unfold calculate_per_crate_scores. rewrite Ho. cbn [bind py_iter].
  destruct (for_each_total count_outcome items) with (acc := @nil (string * crate_counts))
    as [cstats Hcs].
  { apply Forall_impl with (2 := Hall). intros o Ho'. apply count_outcome_total, Ho'. }
  rewrite Hcs. cbn [bind].
  destruct (for_each_count_outcome _ _ _ counts_ok_nil Hcs) as ([Hnd Hok] & _).
  destruct (scores_loop cstats [] Hok Hnd scores_ok_nil) as (cs & -> & _).
  eauto.
Qed.

(** C7, amended. On a document that is an object whose outcomes, when
    present, are an array of objects, each with a scenario that is absent
    or an object and a file that is absent or a string, and in which no
    file, function, line or summary is a text with a lone surrogate, the
    pipeline raises nothing and ends with status 0 or 1.  A field that is
    missing is defaulted: no summary counts as not detected and is listed
    as 'unknown', no scenario or no file gives the crate 'unknown', and
    the listing shows 'unknown' for the file and the function and 0 for
    the line. *)
Theorem C7_well_shaped_documents_run data :
  document_ok data = true ->
  document_encodable data = true ->
  (exists rep status, run data = Ok (rep, status) /\ (status = 0 \/ status = 1))
  /\ summary_detected (PDict []) = Ok false
  /\ crate_name_of (PDict []) = Ok "unknown"
  /\ crate_name_of (PDict [("scenario", PDict [])]) = Ok "unknown"
  /\ collect_survivor [] (PDict [])
     = Ok [ {| m_file := PStr "unknown"; m_function := PStr "unknown";
               m_line := PInt 0; m_summary := PStr "unknown" |} ].
Proof.
  intros H Henc. split; [ | repeat split; reflexivity].
  destruct (document_ok_score _ H) as [[[s c] t] Hs].
  destruct (document_ok_crates _ H) as [cs Hc].
  destruct (document_ok_items _ H) as (items & Ho & _).
  unfold document_encodable in Henc. rewrite Ho in Henc. simpl py_iter in Henc.
  destruct (analyze_surviving_mutants_total _ _ Hc) as [sv Hsv].
  assert (Hnames : Forall (fun k => Str.has_surrogate k = false) (Dict.keys cs)).
  { apply Forall_forall. intros k Hk.
    destruct (crate_key_of_record data cs items k Hc) as (o & Hin & Hn);
      [exists (PList items); split; [exact Ho | reflexivity] | exact Hk | ].
    apply (crate_name_of_encodable _ _ Hn).
    rewrite forallb_forall in Henc. apply Henc, Hin. }
  assert (Hshown : forallb mutant_encodable (firstn 10 sv) = true).
  { apply forallb_firstn.
    destruct (analyze_surviving_mutants_inv _ _ Hsv) as (outcomes' & items' & Ho' & Hi' & Hall).
    rewrite Ho in Ho'. injection Ho' as <-. simpl in Hi'. injection Hi' as <-.
    apply (survivors_encodable _ _ Hall Henc). }
  destruct (print_report_ok s c t _ _ Hnames Hshown) as [rep Hrep].
  rewrite (run_unfold _ _ _ _ _ _ Hs Hc Hsv), Hrep. cbn [bind].
  eexists rep, _. split; [reflexivity | ].
  destruct (F64.ltb s OVERALL_THRESHOLD || negb (is_nil (failed_crates_of cs))); auto.
Qed.

Lemma C7_well_shaped_documents_run_witness :
  document_ok sample_mixed = true
  /\ document_encodable sample_mixed = true
  /\ exists rep status, run sample_mixed = Ok (rep, status) /\ (status = 0 \/ status = 1).
Proof.
  split; [reflexivity | ]. split; [reflexivity | ].
  apply (C7_well_shaped_documents_run sample_mixed); reflexivity.
Defined.




(** C9. The overall score and the score of every crate lie between 0.0 and
    100.0, and overall as in every crate the detected count is between 0
    and the total count. *)
Theorem C9_scores_and_counts_in_range data s c t crate_scores :
  calculate_mutation_score data = Ok (s, c, t) ->
  calculate_per_crate_scores data = Ok crate_scores ->
  in_0_100 s = true
  /\ 0 <= c <= t
  /\ Forall (fun kv => in_0_100 (stats_score (snd kv)) = true
                       /\ 0 <= stats_caught (snd kv) <= stats_total (snd kv))
            crate_scores.
Proof.
  intros Hs Hc.
  destruct (score_range _ _ _ _ Hs) as [Hct Hrange].
  split; [ | split; [exact Hct | ]].
  - destruct Hrange as [-> | Hle]; [reflexivity | apply float_le_fin_range, Hle].
  - destruct (calculate_per_crate_scores_inv _ _ Hc)
      as (outcomes & items & cstats & _ & _ & _ & Hok & _).
    apply Forall_forall. intros [k [[x ca] to]] Hin.
    destruct (scores_ok_entry _ _ _ _ _ Hok Hin) as (_ & Hto & Hca & Hle).
    unfold stats_score, stats_caught, stats_total. simpl.
    split; [apply float_le_fin_range, Hle | lia].
Qed.

Lemma C9_scores_and_counts_in_range_witness :
  calculate_mutation_score sample_mixed = Ok (F64.of_Z 75, 3, 4)
  /\ calculate_per_crate_scores sample_mixed
     = Ok [("b", (F64.of_Z 100, 2, 2)); ("a", (F64.zero, 0, 1));
           ("unknown", (F64.of_Z 100, 1, 1))]
  /\ in_0_100 (F64.of_Z 75) = true
  /\ 0 <= 3 <= 4
  /\ Forall (fun kv => in_0_100 (stats_score (snd kv)) = true
                       /\ 0 <= stats_caught (snd kv) <= stats_total (snd kv))
            [("b", (F64.of_Z 100, 2, 2)); ("a", (F64.zero, 0, 1));
             ("unknown", (F64.of_Z 100, 1, 1))].
Proof.
  split; [vm_compute; reflexivity | ]. split; [vm_compute; reflexivity | ].
  apply (C9_scores_and_counts_in_range sample_mixed (F64.of_Z 75) 3 4);
    vm_compute; reflexivity.
Defined.

(** * Further properties *)

(** ** The surviving mutants *)

(** X1. The list of surviving mutants holds, in the order of the input, one
    entry for each record that is not detected, and no other: every entry
    shows the fields of its record, none has the summary 'caught' or
    'timeout', and the list is as long as the total minus the detected
    count. *)
Theorem X1_survivors_are_the_undetected data surviving :
  analyze_surviving_mutants data = Ok surviving ->
  exists outcomes items,
    py_get data "outcomes" (PList []) = Ok outcomes
    /\ py_iter outcomes = Ok items
    /\ Forall2 listed_as (filter survives items) surviving
    /\ Forall (fun m => py_in_strs (m_summary m) ["caught"; "timeout"] = false) surviving
    /\ (forall s c t,
           calculate_mutation_score data = Ok (s, c, t) ->
           Z.of_nat (List.length surviving) = t - c).
Proof.
  unfold analyze_surviving_mutants. intros H.
  inv_bind H. rename a into outcomes. inv_bind H. rename a into items.
  destruct (for_each_collect_survivor _ _ _ H) as (listed & -> & Hall).
  simpl app. exists outcomes, items.
  split; [assumption | ]. split; [assumption | ]. split; [assumption | ]. split.
  - clear - Hall.
    assert (Hf : Forall (fun o => survives o = true) (filter survives items)).
    { apply Forall_forall. intros o Ho. apply filter_In in Ho. apply Ho. }
    induction Hall as [ | o m os ms Hom _ IH]; constructor.
    + inversion Hf; subst. eapply listed_summary_not_detected; eassumption.
    + apply IH. inversion Hf; assumption.
  - intros s c t Hs.
    destruct (calculate_mutation_score_inv _ _ _ _ Hs)
      as (outcomes' & items' & Ho' & Hi' & _ & -> & -> & _).
    rewrite E in Ho'. injection Ho' as <-. rewrite E0 in Hi'. injection Hi' as <-.
    rewrite <- (Forall2_length Hall). unfold detected_count.
    assert (Hl := filter_length_split is_detected items).
    unfold survives. lia.
Qed.

Lemma X1_survivors_are_the_undetected_witness :
  analyze_surviving_mutants sample_mixed
  = Ok [ {| m_file := PStr "crates/a/x.rs"; m_function := PStr "unknown";
            m_line := PInt 3; m_summary := PStr "missed" |} ]
  /\ exists outcomes items,
       py_get sample_mixed "outcomes" (PList []) = Ok outcomes
       /\ py_iter outcomes = Ok items
       /\ Forall2 listed_as (filter survives items)
            [ {| m_file := PStr "crates/a/x.rs"; m_function := PStr "unknown";
                 m_line := PInt 3; m_summary := PStr "missed" |} ]
       /\ Forall (fun m => py_in_strs (m_summary m) ["caught"; "timeout"] = false)
            [ {| m_file := PStr "crates/a/x.rs"; m_function := PStr "unknown";
                 m_line := PInt 3; m_summary := PStr "missed" |} ]
       /\ (forall s c t,
              calculate_mutation_score sample_mixed = Ok (s, c, t) ->
              Z.of_nat
                (List.length
                   [ {| m_file := PStr "crates/a/x.rs"; m_function := PStr "unknown";
                        m_line := PInt 3; m_summary := PStr "missed" |} ])
              = t - c).
Proof.
  split; [reflexivity | ].
  apply (X1_survivors_are_the_undetected sample_mixed). reflexivity.
Defined.

(** ** The table of crates, entry by entry *)

(** X2. The table of crates has one entry per crate name met among the
    records and no other.  The entry of a crate holds the number of its
    records as total, the number of its detected records as detected
    count, and the percentage of the two as score; the total is at least
    1, so that the branch of lines 92-93 for an empty crate is never
    taken. *)
Theorem X2_crate_entry_counts_its_records data crate_scores :
  calculate_per_crate_scores data = Ok crate_scores ->
  exists outcomes items,
    py_get data "outcomes" (PList []) = Ok outcomes
    /\ py_iter outcomes = Ok items
    /\ NoDup (Dict.keys crate_scores)
    /\ forall crate,
         match Dict.get crate crate_scores with
         | Some (x, ca, to) =>
             to = Z.of_nat (List.length (filter (crate_is crate) items))
             /\ ca = detected_count (filter (crate_is crate) items)
             /\ 0 < to
             /\ percentage ca to = Ok x
         | None => filter (crate_is crate) items = []
         end.
Proof.
  intros Hc.
  destruct (crate_table_entries _ _ Hc) as (outcomes & items & Ho & Hi & Hnd & Hent).
  exists outcomes, items. repeat (split; [assumption | ]). exact Hent.
Qed.

Lemma X2_crate_entry_counts_its_records_witness :
  calculate_per_crate_scores sample_mixed
  = Ok [("b", (F64.of_Z 100, 2, 2)); ("a", (F64.zero, 0, 1));
        ("unknown", (F64.of_Z 100, 1, 1))]
  /\ exists outcomes items,
       py_get sample_mixed "outcomes" (PList []) = Ok outcomes
       /\ py_iter outcomes = Ok items
       /\ NoDup (Dict.keys [("b", (F64.of_Z 100, 2, 2)); ("a", (F64.zero, 0, 1));
                            ("unknown", (F64.of_Z 100, 1, 1))])
       /\ forall crate,
            match Dict.get crate [("b", (F64.of_Z 100, 2, 2)); ("a", (F64.zero, 0, 1));
                                  ("unknown", (F64.of_Z 100, 1, 1))] with
            | Some (x, ca, to) =>
                to = Z.of_nat (List.length (filter (crate_is crate) items))
                /\ ca = detected_count (filter (crate_is crate) items)
                /\ 0 < to
                /\ percentage ca to = Ok x
            | None => filter (crate_is crate) items = []
            end.
Proof.
  split; [vm_compute; reflexivity | ].
  apply (X2_crate_entry_counts_its_records sample_mixed). vm_compute. reflexivity.
Defined.

(** ** The order of the rows *)






(** ** The rows of the report *)


(** ** What a successful run went through *)

(** X4. In the report of a run the section of surviving mutants is absent
    when every record is detected; otherwise it announces total minus
    detected survivors, lists the first ten of them at most, and adds the
    line of the remaining ones, with their number, exactly when there are
    more than ten. *)
Theorem X4_report_lists_first_ten_survivors data rep status :
  run data = Ok (rep, status) ->
  exists s c t,
    calculate_mutation_score data = Ok (s, c, t)
    /\ overall_line rep = (s, c, t)
    /\ surviving_count rep = (if t - c =? 0 then None else Some (Z.to_nat (t - c)))
    /\ List.length (surviving_shown rep) = Nat.min 10 (Z.to_nat (t - c))
    /\ surviving_more rep
       = (if 10 <? t - c then Some (Z.to_nat (t - c - 10)) else None).
Proof.
  intros H. destruct (run_inv _ _ _ H) as (s & c & t & cs & sv & Hs & _ & Hsv & Hrep & _).
  exists s, c, t. split; [assumption | ].
  assert (Hlen := survivors_length _ _ _ _ _ Hs Hsv).
  destruct (print_report_fields _ _ _ _ _ _ Hrep)
    as (Hline & _ & Hcount & Hshown & Hmore & _).
  split; [assumption | ]. rewrite Hcount, Hshown, Hmore, length_firstn.
  replace (Z.to_nat (t - c)) with (List.length sv) by lia.
  split; [ | split; [reflexivity | ]].
  - destruct sv; simpl in *.
    + replace (t - c =? 0) with true by (symmetry; apply Z.eqb_eq; lia). reflexivity.
    + replace (t - c =? 0) with false by (symmetry; apply Z.eqb_neq; lia). reflexivity.
  - destruct (10 <? List.length sv)%nat eqn:E.
    + apply Nat.ltb_lt in E.
      replace (10 <? t - c) with true by (symmetry; apply Z.ltb_lt; lia).
      f_equal. lia.
    + apply Nat.ltb_ge in E.
      replace (10 <? t - c) with false by (symmetry; apply Z.ltb_ge; lia).
      reflexivity.
Qed.

(** ** The closing lines of the report *)

(** X5. A report that is printed to its end and closes on FAILED always
    says why: it names the failed crates, or it prints the shortfall of
    the overall score, or both.  The shortfall line is printed exactly
    when the overall score is below 85.0, the line of failed crates
    exactly when some crate is below its threshold, and a report that
    closes on PASSED prints neither. *)
Theorem X5_failed_banner_comes_with_a_reason data s c t crate_scores surviving rep :
  calculate_mutation_score data = Ok (s, c, t) ->
  calculate_per_crate_scores data = Ok crate_scores ->
  print_report s c t crate_scores surviving = Ok rep ->
  (banner_passed rep = false ->
   failed_crates_line rep <> None \/ shortfall_line rep = true)
  /\ (banner_passed rep = true ->
      failed_crates_line rep = None /\ shortfall_line rep = false)
  /\ shortfall_line rep = F64.ltb s OVERALL_THRESHOLD
  /\ overall_status_pass rep = negb (F64.ltb s OVERALL_THRESHOLD)
  /\ (failed_crates_line rep = None <-> failed_crates_of crate_scores = [])
  /\ (forall l, failed_crates_line rep = Some l ->
                Permutation l (failed_crates_of crate_scores)).
Proof.
  intros Hs Hc Hrep.
  destruct (calculate_per_crate_scores_inv _ _ Hc)
    as (outcomes & items & cstats & _ & _ & _ & Hok & _).
  destruct (print_report_fields _ _ _ _ _ _ Hrep)
    as (_ & Hstatus & _ & _ & _ & Hbanner & Hline & Hshort).
  assert (Hcmp := overall_score_comparable _ _ _ _ Hs).
  assert (Hperm := failed_in_report_perm _ Hok).
  rewrite Hbanner, Hline, Hshort, Hstatus, Hcmp.
  set (failed := filter (report_fails crate_scores) (sorted (Dict.keys crate_scores))) in *.
  destruct (F64.ltb s OVERALL_THRESHOLD); simpl;
    destruct failed as [ | k l] eqn:Ef; simpl.
  - apply Permutation_nil in Hperm. rewrite Hperm.
    repeat split; try discriminate; auto.
  - repeat split; try discriminate; auto.
    + intros H. rewrite H in Hperm. apply Permutation_sym, Permutation_nil in Hperm.
      discriminate Hperm.
    + intros l' [= <-]. assumption.
  - apply Permutation_nil in Hperm. rewrite Hperm.
    repeat split; try discriminate; auto.
  - repeat split; try discriminate; auto.
    + left. discriminate.
    + intros H. rewrite H in Hperm. apply Permutation_sym, Permutation_nil in Hperm.
      discriminate Hperm.
    + intros l' [= <-]. assumption.
Qed.

(** ** The exceptions a run can raise *)

Lemma for_each_raise {A S : Type} (body : S -> A -> result S) (P : exn -> Prop) :
  (forall acc x e, body acc x = Raise e -> P e) ->
  forall xs acc e, for_each body xs acc = Raise e -> P e.
Proof.
  intros Hb. induction xs as [ | x xs IH]; intros acc e H; [discriminate H | ].
  rewrite for_each_cons in H.
  destruct (body acc x) as [acc' | e'] eqn:E; cbn [bind] in H.
  - eapply IH; eassumption.
  - injection H as <-. eapply Hb; eassumption.
Qed.

Lemma py_get_raise v k default e :
  py_get v k default = Raise e -> e = AttributeError.
Proof. destruct v; simpl; congruence. Qed.

Lemma py_iter_raise v e : py_iter v = Raise e -> e = TypeError.
Proof. destruct v; simpl; congruence. Qed.

Lemma summary_detected_raise outcome e :
  summary_detected outcome = Raise e -> e = AttributeError.
Proof.
  unfold summary_detected.
  destruct (py_get outcome "summary" PNone) eqn:E; cbn [bind]; [discriminate | ].
  intros [= <-]. eapply py_get_raise; eassumption.
Qed.

Lemma tally_raise acc outcome e : tally acc outcome = Raise e -> e = AttributeError.
Proof.
  destruct acc as [t c]. unfold tally.
  destruct (summary_detected outcome) eqn:E; cbn [bind]; [discriminate | ].
  intros [= <-]. eapply summary_detected_raise; eassumption.
Qed.

Lemma crate_name_of_path_raise v e :
  crate_name_of_path v = Raise e -> is_type_mismatch e = true.
Proof.
  destruct v as [ | b | n | x | s | l | d]; unfold crate_name_of_path;
    simpl py_str_in; cbn [bind]; try (intros [= <-]; reflexivity).
  - intros H. destruct (crate_name_of_path_str s) as [name Hn].
    unfold crate_name_of_path in Hn. simpl py_str_in in Hn. cbn [bind] in Hn.
    rewrite Hn in H. discriminate H.
  - destruct (existsb _ l); simpl; [intros [= <-]; reflexivity | discriminate].
  - destruct (Dict.mem "crates/" d); simpl; [intros [= <-]; reflexivity | discriminate].
Qed.

Lemma crate_name_of_raise outcome e :
  crate_name_of outcome = Raise e -> is_type_mismatch e = true.
Proof.
  unfold crate_name_of, scenario_field.
  destruct (py_get outcome "scenario" (PDict [])) as [sc | e1] eqn:E1; cbn [bind].
  - destruct (py_get sc "file" (PStr "")) as [f | e2] eqn:E2; cbn [bind].
    + apply crate_name_of_path_raise.
    + intros [= <-]. rewrite (py_get_raise _ _ _ _ E2). reflexivity.
  - intros [= <-]. rewrite (py_get_raise _ _ _ _ E1). reflexivity.
Qed.

Lemma count_outcome_raise crate_stats outcome e :
  count_outcome crate_stats outcome = Raise e -> is_type_mismatch e = true.
Proof.
  intros H.
  destruct (crate_name_of outcome) as [name | e1] eqn:Hn.
  - destruct (summary_detected outcome) as [d | e2] eqn:Hd.
    + rewrite (count_outcome_eq _ _ _ _ Hn Hd) in H. discriminate H.
    + assert (He : count_outcome crate_stats outcome = Raise e2).
      { unfold count_outcome. rewrite Hn. cbn [bind].
        destruct (negb (Dict.mem name crate_stats)) eqn:Em.
        - rewrite (bump_ok _ _ _ _ (get_set_same _ _ _)). cbn [bind].
          rewrite Hd. reflexivity.
        - unfold Dict.mem in Em.
          destruct (Dict.get name crate_stats) as [c0 | ] eqn:Eg; [ | discriminate Em].
          rewrite (bump_ok _ _ _ _ Eg). cbn [bind]. rewrite Hd. reflexivity. }
      rewrite He in H. injection H as <-.
      rewrite (summary_detected_raise _ _ Hd). reflexivity.
  - assert (He : count_outcome crate_stats outcome = Raise e1).
    { unfold count_outcome. rewrite Hn. reflexivity. }
    rewrite He in H. injection H as <-. eapply crate_name_of_raise; eassumption.
Qed.

Lemma calculate_mutation_score_raise data e :
  calculate_mutation_score data = Raise e -> is_type_mismatch e = true.
Proof.
  unfold calculate_mutation_score.
  destruct (py_get data "outcomes" (PList [])) as [outcomes | e1] eqn:E1; cbn [bind].
  2:{ intros [= <-]. rewrite (py_get_raise _ _ _ _ E1). reflexivity. }
  destruct (py_iter outcomes) as [items | e2] eqn:E2; cbn [bind].
  2:{ intros [= <-]. rewrite (py_iter_raise _ _ E2). reflexivity. }
  destruct (for_each tally items (0, 0)) as [[t c] | e3] eqn:E3; cbn [bind].
  2:{ intros [= <-].
      rewrite (for_each_raise tally (fun e => e = AttributeError) tally_raise _ _ _ E3).
      reflexivity. }
  destruct (for_each_tally _ _ _ _ _ E3) as [Ht Hc].
  assert (Hb := detected_count_bounds items).
  destruct (t =? 0) eqn:Et; [discriminate | ].
  apply Z.eqb_neq in Et.
  destruct (percentage_range c t) as (x & -> & _); [lia | lia | ].
  discriminate.
Qed.

Lemma calculate_per_crate_scores_raise data e :
  calculate_per_crate_scores data = Raise e -> is_type_mismatch e = true.
Proof.
  unfold calculate_per_crate_scores.
  destruct (py_get data "outcomes" (PList [])) as [outcomes | e1] eqn:E1; cbn [bind].
  2:{ intros [= <-]. rewrite (py_get_raise _ _ _ _ E1). reflexivity. }
  destruct (py_iter outcomes) as [items | e2] eqn:E2; cbn [bind].
  2:{ intros [= <-]. rewrite (py_iter_raise _ _ E2). reflexivity. }
  destruct (for_each count_outcome items []) as [cstats | e3] eqn:E3; cbn [bind].
  2:{ intros [= <-].
      apply (for_each_raise count_outcome (fun e => is_type_mismatch e = true)
               count_outcome_raise _ _ _ E3). }
  destruct (for_each_count_outcome _ _ _ counts_ok_nil E3) as ([Hnd Hok] & _).
  destruct (scores_loop cstats [] Hok Hnd scores_ok_nil) as (cs & -> & _).
  discriminate.
Qed.

(** X6. A run raises nothing but [AttributeError], [TypeError] and
    [UnicodeEncodeError]: no [KeyError] from the dictionaries, no
    [IndexError] from [split(...)[1]], no [ZeroDivisionError] and no
    [OverflowError] from the percentages.  The first two are the
    exceptions of a value of an unexpected type and come from one of the
    two passes that compute scores, before any line of the report is
    printed.  The third comes from the report, after both passes and the
    listing of the survivors have returned, when a crate name or a field
    of one of the first ten surviving mutants is a text with a lone
    surrogate. *)
Theorem X6_exceptions_of_a_run data e :
  run data = Raise e ->
  (e = AttributeError \/ e = TypeError \/ e = UnicodeEncodeError)
  /\ ((is_type_mismatch e = true
       /\ (calculate_mutation_score data = Raise e
           \/ ((exists st, calculate_mutation_score data = Ok st)
               /\ calculate_per_crate_scores data = Raise e)))
      \/ (e = UnicodeEncodeError
          /\ exists s c t crate_scores surviving,
               calculate_mutation_score data = Ok (s, c, t)
               /\ calculate_per_crate_scores data = Ok crate_scores
               /\ analyze_surviving_mutants data = Ok surviving
               /\ print_report s c t crate_scores surviving = Raise UnicodeEncodeError
               /\ (Exists (fun crate => Str.has_surrogate crate = true)
                          (Dict.keys crate_scores)
                   \/ forallb mutant_encodable (firstn 10 surviving) = false))).
Proof.
  intros H.
  assert (Hcases :
            (is_type_mismatch e = true
             /\ (calculate_mutation_score data = Raise e
                 \/ ((exists st, calculate_mutation_score data = Ok st)
                     /\ calculate_per_crate_scores data = Raise e)))
            \/ (e = UnicodeEncodeError
                /\ exists s c t crate_scores surviving,
                     calculate_mutation_score data = Ok (s, c, t)
                     /\ calculate_per_crate_scores data = Ok crate_scores
                     /\ analyze_surviving_mutants data = Ok surviving
                     /\ print_report s c t crate_scores surviving
                        = Raise UnicodeEncodeError
                     /\ (Exists (fun crate => Str.has_surrogate crate = true)
                                (Dict.keys crate_scores)
                         \/ forallb mutant_encodable (firstn 10 surviving) = false))).
  { destruct (calculate_mutation_score data) as [[[s c] t] | e1] eqn:Hs.
    - destruct (calculate_per_crate_scores data) as [cs | e2] eqn:Hc.
      + right.
        destruct (analyze_surviving_mutants_total _ _ Hc) as [sv Hsv].
        rewrite (run_unfold _ _ _ _ _ _ Hs Hc Hsv) in H.
        destruct (print_report s c t cs sv) as [rep | e'] eqn:Hrep; [discriminate H | ].
        cbn [bind] in H. injection H as <-.
        destruct (print_report_raise _ _ _ _ _ _ Hrep) as [-> Hwhy].
        split; [reflexivity | ]. exists s, c, t, cs, sv. auto.
      + rewrite (run_raises_crates _ _ _ Hs Hc) in H. injection H as <-.
        left. split; [eapply calculate_per_crate_scores_raise; eassumption | ].
        right. split; [eauto | reflexivity].
    - rewrite (run_raises_score _ _ Hs) in H. injection H as <-.
      left. split; [eapply calculate_mutation_score_raise; eassumption | ].
      left. reflexivity. }
  split; [ | exact Hcases].
  destruct Hcases as [[Hm _] | [-> _]]; [ | auto].
  destruct e; try discriminate Hm; auto.
Qed.

(** ** All detected, none detected *)




Lemma percentage_none t : 0 < t -> percentage 0 t = Ok F64.zero.
Proof.
  intros Ht. unfold percentage, F64.int_true_div.
  replace (t =? 0) with false by (symmetry; apply Z.eqb_neq; lia).
  replace (t <? 0) with false by (symmetry; apply Z.ltb_ge; lia).
  reflexivity.
Qed.

Lemma sums_caught_le_total (crate_scores : Dict.t stats) :
  Forall (fun kv => 0 <= stats_caught (snd kv) <= stats_total (snd kv)) crate_scores ->
  0 <= sum_stats_caught crate_scores <= sum_stats_total crate_scores.
Proof.
  induction 1 as [ | kv l H _ IH]; unfold sum_stats_caught, sum_stats_total in *;
    simpl; lia.
Qed.


Lemma sums_zero_all (crate_scores : Dict.t stats) :
  Forall (fun kv => 0 <= stats_caught (snd kv) <= stats_total (snd kv)) crate_scores ->
  sum_stats_caught crate_scores = 0 ->
  Forall (fun kv => stats_caught (snd kv) = 0) crate_scores.
Proof.
  induction 1 as [ | kv l H Hl IH]; intros Hsum; constructor.
  - assert (Hle := sums_caught_le_total l Hl).
    unfold sum_stats_caught in *. simpl in Hsum. lia.
  - apply IH. assert (Hle := sums_caught_le_total l Hl).
    unfold sum_stats_caught in *. simpl in Hsum. lia.
Qed.

Lemma scores_ok_counts crate_scores :
  scores_ok crate_scores ->
  Forall (fun kv => 0 <= stats_caught (snd kv) <= stats_total (snd kv)) crate_scores.
Proof.
  intros [_ H]. apply Forall_impl with (2 := H). intros kv (_ & Hc & _). exact Hc.
Qed.


Lemma zero_fails crate : F64.ltb F64.zero (threshold_of crate) = true.
Proof. destruct (threshold_of_cases crate) as [-> | [-> | ->]]; reflexivity. Qed.


(** X8. When no record is detected, and there is at least one, the overall
    score and the score of every crate are 0.0, every crate of the table
    fails, and the process ends with status 1: with a report that closes
    on FAILED when the run returns, and otherwise by the
    [UnicodeEncodeError] of a text that the report could not print. *)
Theorem X8_none_detected_fails data s c t crate_scores :
  calculate_mutation_score data = Ok (s, c, t) ->
  calculate_per_crate_scores data = Ok crate_scores ->
  0 < t -> c = 0 ->
  s = F64.zero
  /\ Forall (fun kv => stats_score (snd kv) = F64.zero) crate_scores
  /\ failed_crates_of crate_scores = Dict.keys crate_scores
  /\ exit_status (run data) = 1
  /\ (forall rep status,
         run data = Ok (rep, status) -> status = 1 /\ banner_passed rep = false)
  /\ (forall e, run data = Raise e -> e = UnicodeEncodeError).
Proof.
  intros Hs Hc Ht ->.
  destruct (calculate_mutation_score_inv _ _ _ _ Hs)
    as (outcomes & items & Ho & Hi & _ & Hlen & Hdet & Hscore).
  destruct (calculate_per_crate_scores_inv _ _ Hc)
    as (outcomes' & items' & cstats & Ho' & Hi' & _ & Hok & Hst & Hsc).
  rewrite Ho in Ho'. injection Ho' as <-. rewrite Hi in Hi'. injection Hi' as <-.
  assert (Hs0 : s = F64.zero).
  { destruct Hscore as [[H0 _] | [_ Hp]]; [lia | ].
    rewrite (percentage_none t Ht) in Hp. congruence. }
  assert (Hall : Forall (fun kv => stats_score (snd kv) = F64.zero) crate_scores).
  { assert (Heq := sums_zero_all _ (scores_ok_counts _ Hok) ltac:(lia)).
    destruct Hok as [_ Hok]. rewrite Forall_forall in *.
    intros kv Hin. specialize (Heq _ Hin). destruct (Hok _ Hin) as (Hpos & _ & Hp).
    rewrite Heq, (percentage_none _ Hpos) in Hp. congruence. }
  assert (Hfailed : failed_crates_of crate_scores = Dict.keys crate_scores).
  { clear - Hall. unfold failed_crates_of, Dict.keys.
    induction Hall as [ | [k [[x ca] to]] l H _ IH]; [reflexivity | ].
    unfold stats_score in H. simpl in H. subst x.
    simpl. rewrite zero_fails. simpl. rewrite IH. reflexivity. }
  split; [exact Hs0 | ]. split; [exact Hall | ]. split; [exact Hfailed | ].
  destruct (run_spec _ _ _ _ _ Hs Hc)
    as (sv & Hsv & [(rep & Hrep & Hrun) | (Hrep & Hrun)]); rewrite Hrun.
  - subst s. change (F64.ltb F64.zero OVERALL_THRESHOLD) with true. simpl orb.
    cbv iota. split; [reflexivity | ]. split; [ | discriminate].
    intros rep' status' [= <- <-]. split; [reflexivity | ].
    destruct (print_report_fields _ _ _ _ _ _ Hrep) as (_ & _ & _ & _ & _ & -> & _).
    reflexivity.
  - split; [reflexivity | ]. split; [discriminate | ].
    intros e [= <-]. reflexivity.
Qed.

(** ** Crate names *)

Lemma contains_slash_snoc cur c :
  Str.contains "/" cur = false -> c <> "/"%char ->
  Str.contains "/" (cur ++ String c "") = false.
Proof.
  intros Hcur Hc. induction cur as [ | a cur IH].
  - simpl append. rewrite contains_cons, prefix_cons.
    destruct (ascii_dec "/" c); [congruence | reflexivity].
  - change (String a cur ++ String c "") with (String a (cur ++ String c "")).
    rewrite contains_cons in *. apply orb_false_iff in Hcur. destruct Hcur as [Ha Hcur].
    rewrite prefix_cons in *. destruct (ascii_dec "/" a); [ | apply IH, Hcur].
    rewrite prefix_nil in Ha. discriminate Ha.
Qed.

Lemma split_slash_first_piece s : forall cur h tl,
  Str.contains "/" cur = false ->
  Str.split_go "/" s 0 cur = h :: tl ->
  Str.contains "/" h = false.
Proof.
  induction s as [ | c s IH]; intros cur h tl Hcur H.
  - rewrite split_go_nil in H. injection H as <- _. assumption.
  - rewrite split_go_cons in H. rewrite prefix_cons in H.
    destruct (ascii_dec "/" c) as [Heq | Hne].
    + rewrite prefix_nil in H. injection H as <- _. assumption.
    + apply (IH _ _ _ (contains_slash_snoc _ _ Hcur (fun E => Hne (eq_sym E))) H).
Qed.

Lemma crate_name_of_path_no_slash v name :
  crate_name_of_path v = Ok name -> Str.contains "/" name = false.
Proof.
  unfold crate_name_of_path. intros H.
  apply bind_ok_inv in H. destruct H as (found & _ & H).
  destruct found; [ | injection H as <-; reflexivity].
  apply bind_ok_inv in H. destruct H as (pieces & _ & H).
  apply bind_ok_inv in H. destruct H as (after & _ & H).
  injection H as <-. unfold Str.split.
  destruct (Str.split_go "/" after 0 "") as [ | p tl] eqn:E; [reflexivity | ].
  eapply split_slash_first_piece; [ | exact E]. reflexivity.
Qed.

(** X9. A crate name never contains a ['/']: it is 'unknown' or the text
    before the first ['/'] that follows the marker.  So no key of the
    table of crates contains one. *)
Theorem X9_crate_name_has_no_slash data crate_scores :
  calculate_per_crate_scores data = Ok crate_scores ->
  Forall (fun crate => Str.contains "/" crate = false) (Dict.keys crate_scores)
  /\ (forall v name, crate_name_of_path v = Ok name -> Str.contains "/" name = false).
Proof.
  intros Hc. split; [ | apply crate_name_of_path_no_slash].
  destruct (calculate_per_crate_scores_inv _ _ Hc)
    as (outcomes & items & cstats & Ho & Hi & Hfe & [Hnd _] & _).
  unfold calculate_per_crate_scores in Hc. rewrite Ho in Hc. cbn [bind] in Hc.
  rewrite Hi in Hc. cbn [bind] in Hc. rewrite Hfe in Hc. cbn [bind] in Hc.
  destruct (for_each_count_outcome _ _ _ counts_ok_nil Hfe) as ([Hnd' Hall] & _).
  apply Forall_forall. intros crate Hin.
  assert (Hlook := scores_lookup _ _ _ crate Hall Hnd' Hc).
  destruct (for_each_count_outcome_crate _ _ _ crate Hfe) as [Ht _].
  unfold crate_total in Ht. simpl Dict.get in Ht.
  destruct (Dict.get crate cstats) as [cnt | ] eqn:Eg.
  - apply get_some_in in Eg. rewrite Forall_forall in Hall.
    specialize (Hall _ Eg). simpl in Hall.
    destruct (filter (crate_is crate) items) as [ | o os] eqn:Ef; [simpl in Ht; lia | ].
    assert (Ho' : In o (filter (crate_is crate) items)) by (rewrite Ef; left; reflexivity).
    apply filter_In in Ho'. destruct Ho' as [_ Hcrate].
    unfold crate_is in Hcrate.
    destruct (crate_name_of o) as [name | ] eqn:En; [ | discriminate Hcrate].
    apply String.eqb_eq in Hcrate. subst name.
    unfold crate_name_of in En. apply bind_ok_inv in En. destruct En as (fp & _ & En).
    eapply crate_name_of_path_no_slash; eassumption.
  - exfalso. simpl in Hlook. apply get_none_not_in in Hlook. contradiction.
Qed.

(** ** The order of the records *)

Lemma detected_count_perm items items' :
  Permutation items items' -> detected_count items = detected_count items'.
Proof.
  intros H. unfold detected_count. f_equal.
  apply Permutation_length, filter_perm, H.
Qed.

(** The entry of a crate, from the records alone. *)
Lemma crate_entry_of_records items cstats crate_scores crate :
  for_each count_outcome items [] = Ok cstats ->
  for_each score_of_counts cstats [] = Ok crate_scores ->
  let mine := filter (crate_is crate) items in
  Dict.get crate crate_scores
  = match mine with
    | [] => None
    | _ :: _ =>
        match percentage (detected_count mine) (Z.of_nat (List.length mine)) with
        | Ok x => Some (x, detected_count mine, Z.of_nat (List.length mine))
        | Raise _ => None
        end
    end.
Proof.
  intros Hfe Hc mine.
  destruct (for_each_count_outcome _ _ _ counts_ok_nil Hfe) as ([Hnd Hall] & _).
  assert (Hlook := scores_lookup _ _ _ crate Hall Hnd Hc).
  destruct (for_each_count_outcome_crate _ _ _ crate Hfe) as [Ht Hcg].
  unfold crate_total, crate_caught in Ht, Hcg. simpl Dict.get in Ht, Hcg.
  rewrite Z.add_0_l in Ht, Hcg. fold mine in Ht, Hcg.
  destruct (Dict.get crate cstats) as [c | ] eqn:Eg.
  - destruct Hlook as (x & Hx & ->).
    apply get_some_in in Eg. rewrite Forall_forall in Hall.
    specialize (Hall _ Eg). simpl in Hall.
    rewrite <- Ht, <- Hcg, Hx.
    destruct mine as [ | o os]; [simpl in Ht; lia | reflexivity].
  - rewrite Hlook. destruct mine; [reflexivity | simpl in Ht; lia].
Qed.

Lemma py_get_document items :
  py_get (document items) "outcomes" (PList []) = Ok (PList items).
Proof. reflexivity. Qed.

Lemma per_crate_document items crate_scores :
  calculate_per_crate_scores (document items) = Ok crate_scores ->
  exists cstats,
    for_each count_outcome items [] = Ok cstats
    /\ for_each score_of_counts cstats [] = Ok crate_scores.
Proof.
  unfold calculate_per_crate_scores. rewrite py_get_document. cbn [bind py_iter].
  intros H. apply bind_ok_inv in H. destruct H as (cstats & Hfe & H).
  exists cstats. split; assumption.
Qed.

Lemma count_outcome_records_total items cstats :
  for_each count_outcome items [] = Ok cstats ->
  Forall (fun o => forall acc, exists r, count_outcome acc o = Ok r) items.
Proof.
  intros H.
  apply (for_each_ok_forall count_outcome
           (fun o => exists name d, crate_name_of o = Ok name /\ summary_detected o = Ok d))
    in H.
  - apply Forall_impl with (2 := H). intros o (name & d & Hn & Hd) acc.
    rewrite (count_outcome_eq _ _ _ _ Hn Hd). eauto.
  - intros acc o r Hr. eapply count_outcome_inv; eassumption.
Qed.

Lemma tally_records_total items tc :
  for_each tally items (0, 0) = Ok tc ->
  Forall (fun o => forall acc, exists r, tally acc o = Ok r) items.
Proof.
  intros H.
  apply (for_each_ok_forall tally (fun o => exists d, summary_detected o = Ok d)) in H.
  - apply Forall_impl with (2 := H). intros o [d Hd] [t c].
    unfold tally. rewrite Hd. cbn [bind]. eauto.
  - intros [t c] o r Hr. unfold tally in Hr. inv_bind Hr. eauto.
Qed.

Lemma keys_same_lookup {V : Type} (d d' : Dict.t V) :
  NoDup (Dict.keys d) -> NoDup (Dict.keys d') ->
  (forall k, Dict.get k d' = Dict.get k d) ->
  Permutation (Dict.keys d') (Dict.keys d).
Proof.
  intros Hnd Hnd' Hget. apply NoDup_Permutation; try assumption.
  intros k. split; intros Hin.
  - destruct (Dict.get k d) eqn:E.
    + apply get_some_in, in_keys in E. exact E.
    + rewrite <- Hget in E. apply get_none_not_in in E. contradiction.
  - destruct (Dict.get k d') eqn:E.
    + apply get_some_in, in_keys in E. exact E.
    + rewrite Hget in E. apply get_none_not_in in E. contradiction.
Qed.

(** X10. The verdict does not depend on the order of the records: after
    any reordering the overall statistics are the same, every crate has
    the same entry in the table and the same crates fail; and when the
    report is printed to its end on both orders, the exit status and the
    closing banner are the same.  Which surviving mutants are listed does
    depend on the order, and with it whether the report can be printed. *)
Theorem X10_verdict_independent_of_record_order items items' s c t crate_scores :
  Permutation items items' ->
  calculate_mutation_score (document items) = Ok (s, c, t) ->
  calculate_per_crate_scores (document items) = Ok crate_scores ->
  calculate_mutation_score (document items') = Ok (s, c, t)
  /\ exists crate_scores',
       calculate_per_crate_scores (document items') = Ok crate_scores'
       /\ (forall crate, Dict.get crate crate_scores' = Dict.get crate crate_scores)
       /\ Permutation (failed_crates_of crate_scores') (failed_crates_of crate_scores)
       /\ (forall rep status rep' status',
              run (document items) = Ok (rep, status) ->
              run (document items') = Ok (rep', status') ->
              status' = status /\ banner_passed rep' = banner_passed rep).
Proof.
  intros Hperm Hs Hc.
  (* the overall statistics *)
  destruct (calculate_mutation_score_inv _ _ _ _ Hs)
    as (outcomes & its & Ho & Hi & [tc Htally] & Ht & Hcg & Hscore).
  rewrite py_get_document in Ho. injection Ho as <-.
  simpl in Hi. injection Hi as <-.
  assert (Hs' : calculate_mutation_score (document items') = Ok (s, c, t)).
  { destruct (for_each_total tally items') with (acc := (0, 0)) as [[t' c'] Ht'].
    { eapply Permutation_Forall; [exact Hperm | ]. eapply tally_records_total, Htally. }
    destruct (for_each_tally _ _ _ _ _ Ht') as [Htot Hdet]. simpl in Htot, Hdet.
    rewrite <- (detected_count_perm _ _ Hperm) in Hdet.
    rewrite <- (Permutation_length Hperm) in Htot.
    unfold calculate_mutation_score. rewrite py_get_document. cbn [bind py_iter].
    rewrite Ht'. cbn [bind]. subst t' c'. rewrite <- Ht, <- Hcg.
    destruct Hscore as [[H0 ->] | [Hpos Hp]].
    - rewrite H0. simpl. rewrite H0 in Ht.
      destruct items; [ | simpl in Ht; lia]. subst c. reflexivity.
    - replace (t =? 0) with false by (symmetry; apply Z.eqb_neq; lia).
      rewrite Hp. reflexivity. }
  split; [exact Hs' | ].
  (* the table of crates *)
  destruct (per_crate_document _ _ Hc) as (cstats & Hfe & Hsc).
  destruct (for_each_total count_outcome items') with (acc := @nil (string * crate_counts))
    as [cstats' Hfe'].
  { eapply Permutation_Forall; [exact Hperm | ]. eapply count_outcome_records_total, Hfe. }
  destruct (for_each_count_outcome _ _ _ counts_ok_nil Hfe') as ([Hnd' Hok'] & _).
  destruct (scores_loop cstats' [] Hok' Hnd' scores_ok_nil) as (cs' & Hsc' & Hsok' & _).
  assert (Hc' : calculate_per_crate_scores (document items') = Ok cs').
  { unfold calculate_per_crate_scores. rewrite py_get_document. cbn [bind py_iter].
    rewrite Hfe'. cbn [bind]. exact Hsc'. }
  exists cs'. split; [exact Hc' | ].
  assert (Hlookup : forall crate, Dict.get crate cs' = Dict.get crate crate_scores).
  { intros crate.
    rewrite (crate_entry_of_records _ _ _ crate Hfe Hsc),
            (crate_entry_of_records _ _ _ crate Hfe' Hsc').
    assert (Hp : Permutation (filter (crate_is crate) items)
                             (filter (crate_is crate) items'))
      by apply filter_perm, Hperm.
    cbv zeta.
    rewrite <- (detected_count_perm _ _ Hp), <- (Permutation_length Hp).
    destruct (filter (crate_is crate) items) as [ | o os] eqn:E1;
      destruct (filter (crate_is crate) items') as [ | o' os'] eqn:E2; try reflexivity.
    all: exfalso;
      first [apply Permutation_nil in Hp | apply Permutation_sym, Permutation_nil in Hp];
      discriminate Hp. }
  split; [exact Hlookup | ].
  destruct (calculate_per_crate_scores_inv _ _ Hc)
    as (_ & _ & _ & _ & _ & _ & Hsok & _).
  assert (Hfailed : Permutation (failed_crates_of cs') (failed_crates_of crate_scores)).
  { rewrite (failed_crates_of_keys _ Hsok), (failed_crates_of_keys _ Hsok').
    rewrite (filter_ext (report_fails cs') (report_fails crate_scores)).
    - apply filter_perm, keys_same_lookup; [apply Hsok | apply Hsok' | exact Hlookup].
    - intros k. unfold report_fails. rewrite Hlookup. reflexivity. }
  split; [exact Hfailed | ].
  intros rep status rep' status' Hrun Hrun'.
  assert (Hst : status' = status).
  { destruct (run_inv _ _ _ Hrun) as (s1 & c1 & t1 & cs1 & sv1 & Hs1 & Hc1 & _ & _ & ->).
    destruct (run_inv _ _ _ Hrun') as (s2 & c2 & t2 & cs2 & sv2 & Hs2 & Hc2 & _ & _ & ->).
    rewrite Hs in Hs1. injection Hs1 as <- <- <-.
    rewrite Hs' in Hs2. injection Hs2 as <- <- <-.
    rewrite Hc in Hc1. injection Hc1 as <-.
    rewrite Hc' in Hc2. injection Hc2 as <-.
    rewrite (is_nil_perm _ _ Hfailed). reflexivity. }
  split; [exact Hst | ].
  destruct (run_banner_status _ _ _ Hrun) as [_ Hb].
  destruct (run_banner_status _ _ _ Hrun') as [_ Hb'].
  subst status'.
  destruct (banner_passed rep), (banner_passed rep'); try reflexivity.
  - apply (proj2 Hb'), (proj1 Hb). reflexivity.
  - symmetry. apply (proj2 Hb), (proj1 Hb'). reflexivity.
Qed.

(** The exit status itself can change with the order: the survivor whose
    function cannot be printed is listed when it comes among the first
    ten, and is not when it comes eleventh. *)
Example exit_status_depends_on_record_order :
  exit_status (run sample_survivor_last) = 0
  /\ exit_status (run sample_survivor_first) = 1
  /\ calculate_mutation_score sample_survivor_last = Ok (F64.of_Z 89, 89, 100)
  /\ calculate_mutation_score sample_survivor_first = Ok (F64.of_Z 89, 89, 100).
Proof. vm_compute. repeat split. Qed.

(** ** The command line *)

Lemma main_cases argv fs :
  main argv fs = Ok (None, 1)
  \/ (exists e, main argv fs = Raise e)
  \/ (exists data rep status,
         run data = Ok (rep, status) /\ main argv fs = Ok (Some rep, status)).
Proof.
  destruct argv as [ | prog [ | file rest]]; try (left; reflexivity).
  unfold main. destruct (fs file) as [[data | e] | ].
  - cbn [bind]. destruct (run data) as [[rep status] | e] eqn:Hrun; cbn [bind].
    + right. right. exists data, rep, status. split; [assumption | reflexivity].
    + right. left. eexists. reflexivity.
  - right. left. eexists. reflexivity.
  - left. reflexivity.
Qed.

(** X11. Whatever the command line and the files, the process ends with
    status 0 or 1.  Without a file argument, or when the file does not
    exist, it ends with status 1 and prints no report; an exception of the
    loader ends it with status 1 as well.  Status 0 is reached only after
    a report was printed that closes on PASSED. *)
Theorem X11_exit_status_of_every_invocation argv fs :
  (exit_status (main argv fs) = 0 \/ exit_status (main argv fs) = 1)
  /\ ((List.length argv < 2)%nat -> main argv fs = Ok (None, 1))
  /\ (forall prog file rest,
         argv = prog :: file :: rest ->
         match fs file with
         | None => main argv fs = Ok (None, 1)
         | Some (Raise e) => main argv fs = Raise e /\ exit_status (main argv fs) = 1
         | Some (Ok data) =>
             main argv fs = ('(rep, status) <- run data ;; Ok (Some rep, status))
         end)
  /\ (exit_status (main argv fs) = 0 ->
      exists rep, main argv fs = Ok (Some rep, 0) /\ banner_passed rep = true).
Proof.
  split; [ | split; [ | split]].
  - destruct (main_cases argv fs) as [-> | [[e ->] | (data & rep & status & Hrun & ->)]];
      cbn [exit_status]; auto.
    apply (run_banner_status _ _ _ Hrun).
  - destruct argv as [ | prog [ | file rest]]; simpl; intros H; try reflexivity. lia.
  - intros prog file rest ->. unfold main.
    destruct (fs file) as [[data | e] | ]; try reflexivity. split; reflexivity.
  - destruct (main_cases argv fs) as [-> | [[e ->] | (data & rep & status & Hrun & ->)]];
      cbn [exit_status]; try discriminate.
    intros ->. exists rep. split; [reflexivity | ].
    apply (run_banner_status _ _ _ Hrun). reflexivity.
Qed.

(** ** Documents of an unexpected shape *)

Lemma run_first_record_not_object d o items :
  Dict.get_default "outcomes" (PList []) d = PList (o :: items)
  \/ py_iter (Dict.get_default "outcomes" (PList []) d) = Ok (o :: items) ->
  (forall fields, o <> PDict fields) ->
  run (PDict d) = Raise AttributeError.
Proof.
  intros Hit Hno.
  assert (Hiter : py_iter (Dict.get_default "outcomes" (PList []) d) = Ok (o :: items)).
  { destruct Hit as [-> | H]; [reflexivity | exact H]. }
  apply run_raises_score. unfold calculate_mutation_score. simpl py_get. cbn [bind].
  rewrite Hiter. cbn [bind]. rewrite for_each_cons.
  assert (Ht : tally (0, 0) o = Raise AttributeError).
  { unfold tally, summary_detected.
    destruct o; try reflexivity. exfalso. eapply Hno. reflexivity. }
  rewrite Ht. reflexivity.
Qed.

(** X12. What the run does with a document of an unexpected shape.  A
    top-level value that is not an object raises [AttributeError].  In an
    object, outcomes that are null, a boolean or a number raise
    [TypeError]; an empty object or an empty string as outcomes is taken
    for an empty array; and when the first thing the outcomes yield is not
    an object, as for a non-empty object or string, the run raises
    [AttributeError]. *)
Theorem X12_documents_of_unexpected_shape data :
  match data with
  | PDict d =>
      match Dict.get "outcomes" d with
      | None => run data = run (document [])
      | Some v =>
          match py_iter v with
          | Raise _ => run data = Raise TypeError
          | Ok [] => run data = run (document [])
          | Ok (PDict _ :: _) => True
          | Ok (_ :: _) => run data = Raise AttributeError
          end
      end
  | _ => run data = Raise AttributeError
  end.
Proof.
  destruct data as [ | b | n | x | s | l | d]; try reflexivity.
  destruct (Dict.get "outcomes" d) as [v | ] eqn:Hget.
  - assert (Hdef : Dict.get_default "outcomes" (PList []) d = v).
    { unfold Dict.get_default. rewrite Hget. reflexivity. }
    destruct (py_iter v) as [[ | o items] | e] eqn:Hiter.
    + unfold run, calculate_mutation_score, calculate_per_crate_scores,
        analyze_surviving_mutants, py_get. cbn [bind].
      rewrite Hdef, Hiter. reflexivity.
    + destruct o; try exact I;
        (eapply run_first_record_not_object;
         [right; rewrite Hdef; exact Hiter | intros fields; discriminate]).
    + apply run_raises_score. unfold calculate_mutation_score, py_get. cbn [bind].
      rewrite Hdef, Hiter. cbn [bind]. rewrite (py_iter_raise _ _ Hiter). reflexivity.
  - apply (run_no_outcomes d). left. exact Hget.
Qed.

(** ** The further properties on the sample documents *)

Lemma X4_report_lists_first_ten_survivors_witness :
  exists rep,
    run sample_mixed = Ok (rep, 1)
    /\ exists s c t,
         calculate_mutation_score sample_mixed = Ok (s, c, t)
         /\ overall_line rep = (s, c, t)
         /\ surviving_count rep = (if t - c =? 0 then None else Some (Z.to_nat (t - c)))
         /\ List.length (surviving_shown rep) = Nat.min 10 (Z.to_nat (t - c))
         /\ surviving_more rep
            = (if 10 <? t - c then Some (Z.to_nat (t - c - 10)) else None).
Proof.
  assert (H : exists rep, run sample_mixed = Ok (rep, 1)).
  { eexists. vm_compute. reflexivity. }
  destruct H as [rep H]. exists rep. split; [exact H | ].
  exact (X4_report_lists_first_ten_survivors sample_mixed rep 1 H).
Defined.

Lemma X5_failed_banner_comes_with_a_reason_witness :
  calculate_mutation_score sample_mixed = Ok (F64.of_Z 75, 3, 4)
  /\ calculate_per_crate_scores sample_mixed
     = Ok [("b", (F64.of_Z 100, 2, 2)); ("a", (F64.zero, 0, 1));
           ("unknown", (F64.of_Z 100, 1, 1))]
  /\ exists rep,
       print_report (F64.of_Z 75) 3 4
         [("b", (F64.of_Z 100, 2, 2)); ("a", (F64.zero, 0, 1));
          ("unknown", (F64.of_Z 100, 1, 1))] []
       = Ok rep
       /\ shortfall_line rep = F64.ltb (F64.of_Z 75) OVERALL_THRESHOLD
       /\ (failed_crates_line rep = None
           <-> failed_crates_of [("b", (F64.of_Z 100, 2, 2)); ("a", (F64.zero, 0, 1));
                                 ("unknown", (F64.of_Z 100, 1, 1))] = []).
Proof.
  split; [vm_compute; reflexivity | ]. split; [vm_compute; reflexivity | ].
  assert (H : exists rep,
             print_report (F64.of_Z 75) 3 4
               [("b", (F64.of_Z 100, 2, 2)); ("a", (F64.zero, 0, 1));
                ("unknown", (F64.of_Z 100, 1, 1))] []
             = Ok rep).
  { eexists. vm_compute. reflexivity. }
  destruct H as [rep Hrep]. exists rep. split; [exact Hrep | ].
  destruct (X5_failed_banner_comes_with_a_reason sample_mixed (F64.of_Z 75) 3 4
              [("b", (F64.of_Z 100, 2, 2)); ("a", (F64.zero, 0, 1));
               ("unknown", (F64.of_Z 100, 1, 1))] [] rep)
    as (_ & _ & Hshort & _ & Hline & _).
  - vm_compute. reflexivity.
  - vm_compute. reflexivity.
  - exact Hrep.
  - split; assumption.
Defined.

Lemma X6_exceptions_of_a_run_witness :
  run sample_baseline = Raise AttributeError
  /\ (AttributeError = AttributeError \/ AttributeError = TypeError
      \/ AttributeError = UnicodeEncodeError).
Proof.
  split; [reflexivity | ].
  apply (X6_exceptions_of_a_run sample_baseline AttributeError). reflexivity.
Defined.


Lemma X8_none_detected_fails_witness :
  calculate_mutation_score sample_missed = Ok (F64.zero, 0, 2)
  /\ calculate_per_crate_scores sample_missed
     = Ok [("a", (F64.zero, 0, 1)); ("b", (F64.zero, 0, 1))]
  /\ 0 < 2 /\ 0 = 0
  /\ failed_crates_of [("a", (F64.zero, 0, 1)); ("b", (F64.zero, 0, 1))]
     = Dict.keys [("a", (F64.zero, 0, 1)); ("b", (F64.zero, 0, 1))]
  /\ exit_status (run sample_missed) = 1.
Proof.
  split; [vm_compute; reflexivity | ]. split; [vm_compute; reflexivity | ].
  split; [lia | ]. split; [reflexivity | ].
  destruct (X8_none_detected_fails sample_missed F64.zero 0 2
              [("a", (F64.zero, 0, 1)); ("b", (F64.zero, 0, 1))])
    as (_ & _ & Hfailed & Hstatus & _).
  - vm_compute. reflexivity.
  - vm_compute. reflexivity.
  - lia.
  - reflexivity.
  - split; assumption.
Defined.

Lemma X9_crate_name_has_no_slash_witness :
  calculate_per_crate_scores sample_mixed
  = Ok [("b", (F64.of_Z 100, 2, 2)); ("a", (F64.zero, 0, 1));
        ("unknown", (F64.of_Z 100, 1, 1))]
  /\ Forall (fun crate => Str.contains "/" crate = false)
            (Dict.keys [("b", (F64.of_Z 100, 2, 2)); ("a", (F64.zero, 0, 1));
                        ("unknown", (F64.of_Z 100, 1, 1))]).
Proof.
  split; [vm_compute; reflexivity | ].
  apply (X9_crate_name_has_no_slash sample_mixed). vm_compute. reflexivity.
Defined.

Lemma X10_verdict_independent_of_record_order_witness :
  Permutation [sample_outcome "crates/a/x.rs" "missed";
               sample_outcome "crates/b/y.rs" "caught"]
              [sample_outcome "crates/b/y.rs" "caught";
               sample_outcome "crates/a/x.rs" "missed"]
  /\ calculate_mutation_score
       (document [sample_outcome "crates/a/x.rs" "missed";
                  sample_outcome "crates/b/y.rs" "caught"])
     = Ok (F64.of_Z 50, 1, 2)
  /\ calculate_per_crate_scores
       (document [sample_outcome "crates/a/x.rs" "missed";
                  sample_outcome "crates/b/y.rs" "caught"])
     = Ok [("a", (F64.zero, 0, 1)); ("b", (F64.of_Z 100, 1, 1))]
  /\ calculate_mutation_score
       (document [sample_outcome "crates/b/y.rs" "caught";
                  sample_outcome "crates/a/x.rs" "missed"])
     = Ok (F64.of_Z 50, 1, 2).
Proof.
  split; [apply perm_swap | ]. split; [vm_compute; reflexivity | ].
  split; [vm_compute; reflexivity | ].
  apply (X10_verdict_independent_of_record_order
           [sample_outcome "crates/a/x.rs" "missed"; sample_outcome "crates/b/y.rs" "caught"]
           [sample_outcome "crates/b/y.rs" "caught"; sample_outcome "crates/a/x.rs" "missed"]
           (F64.of_Z 50) 1 2
           [("a", (F64.zero, 0, 1)); ("b", (F64.of_Z 100, 1, 1))]).
  - apply perm_swap.
  - vm_compute. reflexivity.
  - vm_compute. reflexivity.
Defined.
